(** * agentpy.output: the DataDict container, its combiners, [arrange],
      and the save / load persistence layer.

    A shallow embedding of [src/agentpy/output.py].  Python values are
    a tagged union, dictionaries are insertion-ordered association
    lists, exceptions are an error result, and the one in-place update
    of the module (the column assignment in [_combine_pars]) is made
    explicit by threading the container through every method. *)

From Stdlib Require Import ZArith List String Ascii Bool Lia Permutation.
From Stdlib Require Import DecimalString DecimalZ DecimalPos DecimalFacts.
Import ListNotations.
Open Scope string_scope.
Open Scope Z_scope.

(** ** Python strings *)

Module Py.

(** [sub in s] *)
Fixpoint contains (sub s : string) : bool :=
  String.prefix sub s ||
  match s with
  | EmptyString => false
  | String _ t => contains sub t
  end.

(** [s.split(c)] for a one-character separator. *)
Fixpoint split (c : ascii) (s : string) : list string :=
  match s with
  | EmptyString => [EmptyString]
  | String a t =>
      if Ascii.eqb a c then EmptyString :: split c t
      else match split c t with
           | h :: r => String a h :: r
           | [] => [String a EmptyString]
           end
  end.

(** [s.split(c)[-1]] *)
Definition last_field (c : ascii) (s : string) : string :=
  List.last (split c s) EmptyString.

(** [s.replace(old, new)] for a non-empty [old]: occurrences are
    replaced left to right without overlap; [skip] counts the
    characters of a matched occurrence still to be dropped. *)
Fixpoint replace_from (old new s : string) (skip : nat) : string :=
  match s with
  | EmptyString => EmptyString
  | String a t =>
      match skip with
      | S k => replace_from old new t k
      | O =>
          if String.prefix old s
          then new ++ replace_from old new t (String.length old - 1)
          else String a (replace_from old new t 0)
      end
  end.

Definition replace (old new s : string) : string := replace_from old new s 0.

(** [s[:-k]] for [k >= 1]: empty when [k] reaches the length. *)
Definition drop_last (k : nat) (s : string) : string :=
  String.substring 0 (String.length s - k) s.

(** [str(z)] and the [{z}] of an f-string. *)
Definition str (z : Z) : string := NilZero.string_of_int (Z.to_int z).

(** The white space [int] skips around an ASCII numeral: the space,
    tab, line feed, vertical tab, form feed and carriage return. *)
Definition is_space (a : ascii) : bool :=
  match a with
  | " "%char | "009"%char | "010"%char | "011"%char | "012"%char | "013"%char => true
  | _ => false
  end.

Fixpoint lstrip (s : string) : string :=
  match s with
  | String a t => if is_space a then lstrip t else s
  | EmptyString => EmptyString
  end.

(** The string without its trailing white space. *)
Fixpoint rstrip (s : string) : string :=
  match s with
  | EmptyString => EmptyString
  | String a t =>
      match rstrip t with
      | EmptyString => if is_space a then EmptyString else String a EmptyString
      | r => String a r
      end
  end.

(** Strings are byte strings here; a Python string is all ASCII when
    none of its bytes has the high bit. *)
Fixpoint is_ascii (s : string) : bool :=
  match s with
  | EmptyString => true
  | String a t => (nat_of_ascii a <? 128)%nat && is_ascii t
  end.

(** [int(s)] for an ASCII string [s]: surrounding white space, an
    optional sign, then at least one decimal digit; [None] stands for
    [ValueError].  Outside ASCII, Python also reads the decimal digits
    and the spaces of other scripts, which this function does not
    describe: its callers test [is_ascii] first.  (Digit-group
    underscores cannot reach the call in [_last_exp_id], whose argument
    is a field of a split on ['_']; nor can a numeral beyond the
    interpreter's limit on the digits of a conversion, which is longer
    than a file name.) *)
Definition int (s : string) : option Z :=
  match rstrip (lstrip s) with
  | EmptyString => None
  | String a t as body =>
      if Ascii.eqb a "-" then option_map (fun u => - Z.of_uint u) (NilZero.uint_of_string t)
      else if Ascii.eqb a "+" then option_map Z.of_uint (NilZero.uint_of_string t)
      else option_map Z.of_uint (NilZero.uint_of_string body)
  end.

(** [repr(s)]: the string between apostrophes, or between double
    quotes when it holds an apostrophe and no double quote; the
    backslash, the chosen quote and the control characters are
    escaped.  Bytes above 127 are kept, as [repr] keeps the printable
    characters they encode. *)
Definition hex_digit (n : nat) : ascii :=
  nth n ["0"; "1"; "2"; "3"; "4"; "5"; "6"; "7"; "8"; "9";
         "a"; "b"; "c"; "d"; "e"; "f"]%char "0"%char.

Definition escape (q a : ascii) : string :=
  let n := nat_of_ascii a in
  if Ascii.eqb a "092" then String "092" (String "092" EmptyString)
  else if Ascii.eqb a q then String "092" (String q EmptyString)
  else if Ascii.eqb a "010" then String "092" "n"
  else if Ascii.eqb a "013" then String "092" "r"
  else if Ascii.eqb a "009" then String "092" "t"
  else if (n <? 32)%nat || (n =? 127)%nat
  then String "092" (String "x" (String (hex_digit (n / 16))
                                        (String (hex_digit (n mod 16)) EmptyString)))
  else String a EmptyString.

Fixpoint escape_all (q : ascii) (s : string) : string :=
  match s with
  | EmptyString => EmptyString
  | String a t => escape q a ++ escape_all q t
  end.

Definition repr_str (s : string) : string :=
  let q := if contains "'" s && negb (contains (String "034" EmptyString) s)
           then "034"%char else "'"%char in
  String q (escape_all q s ++ String q EmptyString).

(** [repr] of a list of strings: ['a', 'b']. *)
Definition repr_list (l : list string) : string :=
  "[" ++ String.concat ", " (map repr_str l) ++ "]".

Definition mem (s : string) (l : list string) : bool :=
  existsb (String.eqb s) l.

End Py.

(** ** Exceptions and results

    [Unmodelled] is not a Python exception: it marks the few places
    where the outcome is decided by a corner of the tabular library
    that this development does not describe. *)

Inductive exn :=
| KeyError (msg : string)
| AttributeError (msg : string)
| TypeError (msg : string)
| ValueError (msg : string)
| AgentpyError (msg : string)
| FileExistsError (path : string)
| FileNotFoundError (path : string)
| Unmodelled (what : string).

Inductive result (A : Type) :=
| Ok (a : A)
| Raise (e : exn).
Arguments Ok {A} a.
Arguments Raise {A} e.

Definition bind {A B} (r : result A) (k : A -> result B) : result B :=
  match r with
  | Ok a => k a
  | Raise e => Raise e
  end.

Notation "'let*' x ':=' r 'in' k" := (bind r (fun x => k))
  (at level 10, x pattern, r at level 100, k at level 200).

Definition is_ok {A} (r : result A) : bool :=
  match r with Ok _ => true | Raise _ => false end.

(** ** Dictionaries: insertion-ordered, first binding wins *)

Section Dict.
Context {V : Type}.

Fixpoint dict_get (k : string) (d : list (string * V)) : option V :=
  match d with
  | [] => None
  | (k', v) :: r => if String.eqb k k' then Some v else dict_get k r
  end.

(** [d[k] = v]: an existing key keeps its position. *)
Fixpoint dict_set (k : string) (v : V) (d : list (string * V)) : list (string * V) :=
  match d with
  | [] => [(k, v)]
  | (k', v') :: r =>
      if String.eqb k k' then (k, v) :: r else (k', v') :: dict_set k v r
  end.

Definition dict_has (k : string) (d : list (string * V)) : bool :=
  match dict_get k d with Some _ => true | None => false end.

Definition keys (d : list (string * V)) : list string := map fst d.
End Dict.

(** ** Tables

    The tabular library is an external collaborator; only the part of
    a DataFrame that this module observes is represented: the names of
    the index levels, the ordered column labels, and the rows, each an
    index tuple with a label-to-cell record.  A column a row has no
    binding for reads as the missing-value marker. *)

Inductive cell :=
| CInt (z : Z)
| CStr (s : string)
| CNone
| CNaN.

Definition row : Type := list cell * list (string * cell).

Record DataFrame := mkDF {
  index_names : list (option string);
  columns : list string;
  rows : list row
}.

Definition row_get (c : string) (r : row) : cell :=
  match dict_get c (snd r) with Some v => v | None => CNaN end.

Definition row_index (r : row) : list cell := fst r.

(** [len(df)] *)
Definition df_len (d : DataFrame) : nat := List.length (rows d).

Definition option_string_eqb (a b : option string) : bool :=
  match a, b with
  | Some x, Some y => String.eqb x y
  | None, None => true
  | _, _ => false
  end.

Definition cell_eqb (a b : cell) : bool :=
  match a, b with
  | CInt x, CInt y => Z.eqb x y
  | CStr x, CStr y => String.eqb x y
  | CNone, CNone => true
  | CNaN, CNaN => true
  | _, _ => false
  end.

Fixpoint list_eqb {A} (eqb : A -> A -> bool) (a b : list A) : bool :=
  match a, b with
  | [], [] => true
  | x :: a', y :: b' => eqb x y && list_eqb eqb a' b'
  | _, _ => false
  end.

Module Pandas.

(** [df[k] = v] with a scalar [v]: the value is broadcast to every
    row; a new label is appended to the columns. *)
Definition set_column (k : string) (v : cell) (d : DataFrame) : DataFrame :=
  mkDF (index_names d)
       (if Py.mem k (columns d) then columns d else columns d ++ [k])
       (map (fun r : row => (fst r, dict_set k v (snd r))) (rows d)).

(** Labels in order of first appearance (the outer join of a
    vertical concatenation). *)
Fixpoint union_labels (acc : list string) (l : list string) : list string :=
  match l with
  | [] => acc
  | c :: r => union_labels (if Py.mem c acc then acc else acc ++ [c]) r
  end.

Definition all_columns (ds : list DataFrame) : list string :=
  fold_left (fun acc d => union_labels acc (columns d)) ds [].

(** The name an index level keeps when indexes are appended: the
    name every piece gives that level, and none when they differ. *)
Definition level_name (i : nat) (n : option string)
    (others : list (list (option string))) : option string :=
  if forallb (fun o => match nth_error o i with
                       | Some m => option_string_eqb n m
                       | None => false
                       end) others
  then n else None.

Fixpoint unanimous_from (i : nat) (first : list (option string))
    (others : list (list (option string))) : list (option string) :=
  match first with
  | [] => []
  | n :: r => level_name i n others :: unanimous_from (S i) r others
  end.

(** Index level names after a concatenation of a list, level by
    level.  (The pieces are taken to have as many index levels as the
    first one.) *)
Definition common_names (ds : list DataFrame) : list (option string) :=
  match ds with
  | [] => []
  | d :: r => unanimous_from 0 (index_names d) (map index_names r)
  end.

(** [first.equals(other)] on the indexes: the same index tuples, row
    by row, whatever the level names. *)
Definition same_index (a b : DataFrame) : bool :=
  list_eqb (list_eqb cell_eqb) (map fst (rows a)) (map fst (rows b)).

(** The names of the inner levels after a keyed concatenation: those
    of the first piece when all pieces carry the same index, and the
    level-by-level agreement otherwise. *)
Definition keyed_names (ds : list DataFrame) : list (option string) :=
  match ds with
  | [] => []
  | d :: r => if forallb (same_index d) r then index_names d else common_names ds
  end.

(** [pd.concat([...])] along the rows. *)
Definition concat (ds : list DataFrame) : result DataFrame :=
  match ds with
  | [] => Raise (ValueError "No objects to concatenate")
  | _ => Ok (mkDF (common_names ds) (all_columns ds) (flat_map rows ds))
  end.

Definition tag_rows (k : string) (d : DataFrame) : list row :=
  map (fun r : row => (CStr k :: fst r, snd r)) (rows d).

(** [pd.concat({k: df, ...})]: the dictionary keys become a new
    outermost, unnamed index level. *)
Definition concat_dict (ds : list (string * DataFrame)) : result DataFrame :=
  match ds with
  | [] => Raise (ValueError "No objects to concatenate")
  | _ => Ok (mkDF (None :: keyed_names (map snd ds))
                  (all_columns (map snd ds))
                  (flat_map (fun kd => tag_rows (fst kd) (snd kd)) ds))
  end.

(** [df.index = df.index.set_names(name, level=0)] *)
Definition set_level0_name (name : string) (d : DataFrame) : DataFrame :=
  mkDF (match index_names d with
        | [] => []
        | _ :: r => Some name :: r
        end)
       (columns d) (rows d).

(** [df.index.name = name] on a single-level index. *)
Definition set_index_name (name : string) (d : DataFrame) : DataFrame :=
  mkDF [Some name] (columns d) (rows d).

Definition missing_labels (ks : list string) (d : DataFrame) : list string :=
  filter (fun k => negb (Py.mem k (columns d))) ks.

(** [df[ks]] with a list of labels: a lookup error names the absent
    labels. *)
Definition getitem (ks : list string) (d : DataFrame) : result DataFrame :=
  match missing_labels ks d with
  | [] =>
      Ok (mkDF (index_names d) ks
               (map (fun r : row => (fst r, map (fun k => (k, row_get k r)) ks)) (rows d)))
  | miss =>
      if Nat.eqb (List.length miss) (List.length ks)
      then Raise (KeyError ("None of [Index(" ++ Py.repr_list ks
                            ++ ", dtype='object')] are in the [columns]"))
      else Raise (KeyError (Py.repr_list miss ++ " not in index"))
  end.

Fixpoint range_from (start : Z) (n : nat) : list Z :=
  match n with
  | O => []
  | S k => start :: range_from (start + 1) k
  end.

(** A fresh zero-based index over the given rows. *)
Definition renumber (rs : list row) : list row :=
  map (fun ir : Z * row => ([CInt (fst ir)], snd (snd ir)))
      (combine (range_from 0 (List.length rs)) rs).

(** [df.reset_index(drop=True)] *)
Definition reset_index_drop (d : DataFrame) : DataFrame :=
  mkDF [None] (columns d) (renumber (rows d)).

(** The column labels that [reset_index] gives the index levels: the
    level name, or ["index"] (["level_0"] when taken) for a single
    unnamed level and ["level_i"] in a MultiIndex. *)
Fixpoint level_labels (multi : bool) (cols : list string) (i : Z)
    (names : list (option string)) : list string :=
  match names with
  | [] => []
  | Some n :: r => n :: level_labels multi cols (i + 1) r
  | None :: r =>
      (if multi then "level_" ++ Py.str i
       else if Py.mem "index" cols then "level_0" else "index")
      :: level_labels multi cols (i + 1) r
  end.

Fixpoint first_taken (labels cols : list string) : option string :=
  match labels with
  | [] => None
  | l :: r => if Py.mem l cols then Some l else first_taken r cols
  end.

(** [df.reset_index()]: the index levels become the leading columns,
    inserted from the innermost level outwards. *)
Definition reset_index (d : DataFrame) : result DataFrame :=
  let labels := level_labels (2 <=? List.length (index_names d))%nat
                             (columns d) 0 (index_names d) in
  match first_taken (rev labels) (columns d) with
  | Some l => Raise (ValueError ("cannot insert " ++ l ++ ", already exists"))
  | None =>
      Ok (mkDF [None] (labels ++ columns d)
               (renumber (map (fun r : row => (fst r, (combine labels (fst r) ++ snd r)%list))
                              (rows d))))
  end.

Fixpoint named (ks : list (option string)) : option (list string) :=
  match ks with
  | [] => Some []
  | Some k :: r => option_map (cons k) (named r)
  | None :: _ => None
  end.

(** [df.set_index(ks)]: the named columns become the index levels. *)
Definition set_index (ks : list string) (d : DataFrame) : result DataFrame :=
  match missing_labels ks d with
  | [] =>
      Ok (mkDF (map Some ks)
               (filter (fun c => negb (Py.mem c ks)) (columns d))
               (map (fun r : row =>
                       (map (fun k => row_get k r) ks,
                        filter (fun kv : string * cell => negb (Py.mem (fst kv) ks)) (snd r)))
                    (rows d)))
  | miss => Raise (KeyError ("None of " ++ Py.repr_list miss ++ " are in the columns"))
  end.

(** A MultiIndex is taken to be an index of two or more levels. *)
Definition is_multiindex (d : DataFrame) : bool :=
  (2 <=? List.length (index_names d))%nat.

End Pandas.

(** ** Values held by a container *)

#[warnings="-register-all"]
Inductive value :=
| VNone
| VCell (c : cell)
| VTable (d : DataFrame)
| VSeries (d : DataFrame)
| VMapping (m : list (string * cell))
| VDataDict (entries : list (string * value)).

(** A [DataDict]: the four standard sections are ordinary entries. *)
Definition DataDict : Type := list (string * value).

(** A key or a list of keys, as the filter arguments accept. *)
Inductive keys_arg :=
| KStr (s : string)
| KList (l : list string).

(** Modelled from the spec: [tools.make_list], which is not among the
    sources; it wraps a single key into a one-element list and leaves
    a list as it is. *)
Definition make_list (k : keys_arg) : list string :=
  match k with
  | KStr s => [s]
  | KList l => l
  end.

(** Truth value of an optional filter argument. *)
Definition truthy (k : option keys_arg) : bool :=
  match k with
  | None => false
  | Some (KStr s) => negb (String.eqb s "")
  | Some (KList l) => match l with [] => false | _ => true end
  end.

(** [k in arg]: substring test on a string, membership in a list. *)
Definition key_in (k : string) (arg : keys_arg) : bool :=
  match arg with
  | KStr s => Py.contains k s
  | KList l => Py.mem k l
  end.

Definition type_name (v : value) : string :=
  match v with
  | VNone => "NoneType"
  | VCell (CInt _) => "int"
  | VCell (CStr _) => "str"
  | VCell CNone => "NoneType"
  | VCell CNaN => "float"
  | VTable _ => "DataFrame"
  | VSeries _ => "Series"
  | VMapping _ => "dict"
  | VDataDict _ => "DataDict"
  end.

(** [f"{type(v)}"] *)
Definition class_text (v : value) : string :=
  match v with
  | VNone | VCell CNone => "<class 'NoneType'>"
  | VCell (CInt _) => "<class 'int'>"
  | VCell (CStr _) => "<class 'str'>"
  | VCell CNaN => "<class 'float'>"
  | VSeries _ => "<class 'pandas.core.series.Series'>"
  | VTable _ => "<class 'pandas.core.frame.DataFrame'>"
  | VMapping _ => "<class 'dict'>"
  | VDataDict _ => "<class 'agentpy.output.DataDict'>"
  end.

Definition no_attribute (v : value) (attr : string) : exn :=
  AttributeError ("'" ++ type_name v ++ "' object has no attribute '" ++ attr ++ "'").

(** [obj[ks]] / [obj[k]] on a table. *)
Definition select (k : keys_arg) (d : DataFrame) : result value :=
  match k with
  | KList l => let* r := Pandas.getitem l d in Ok (VTable r)
  | KStr c =>
      if Py.mem c (columns d)
      then let* r := Pandas.getitem [c] d in Ok (VSeries r)
      else Raise (KeyError (Py.repr_str c))
  end.

(** ** Container access *)

(** [self[k]] *)
Definition getitem (k : string) (dd : DataDict) : result value :=
  match dict_get k dd with
  | Some v => Ok v
  | None => Raise (KeyError (Py.repr_str k))
  end.

(** Modelled from the spec: attribute access of [tools.AttrDict],
    which is not among the sources; it reads the entry of that name
    from the same backing store and fails as an attribute error. *)
Definition getattr (k : string) (dd : DataDict) : result value :=
  match dict_get k dd with
  | Some v => Ok v
  | None => Raise (AttributeError ("'DataDict' object has no attribute '" ++ k ++ "'"))
  end.

(** [v.items()] of a dictionary-like value. *)
Definition items (v : value) : result (list (string * value)) :=
  match v with
  | VDataDict es => Ok es
  | VMapping m => Ok (map (fun kc : string * cell => (fst kc, VCell (snd kc))) m)
  | VTable _ | VSeries _ => Raise (Unmodelled "items of a table")
  | _ => Raise (no_attribute v "items")
  end.

(** ** The variable combiner *)

(** [v.columns] *)
Definition columns_of (v : value) : result (list string) :=
  match v with
  | VTable d => Ok (columns d)
  | VDataDict es =>
      match dict_get "columns" es with
      | Some _ => Raise (Unmodelled "entry named columns")
      | None => Raise (no_attribute v "columns")
      end
  | _ => Raise (no_attribute v "columns")
  end.

(** [any(x in v.columns for x in ks)] *)
Definition any_column (ks : list string) (v : value) : result bool :=
  match ks with
  | [] => Ok false
  | _ => let* cols := columns_of v in Ok (existsb (fun x => Py.mem x cols) ks)
  end.

(** [{k: v for k, v in d.items() if any(...)}] *)
Fixpoint select_by_columns (ks : list string) (es : list (string * value))
    : result (list (string * value)) :=
  match es with
  | [] => Ok []
  | (k, v) :: r =>
      let* keep := any_column ks v in
      let* r' := select_by_columns ks r in
      Ok (if keep then (k, v) :: r' else r')
  end.

(** [{k: v for k, v in d.items() if k in obj_types}] *)
Definition select_by_type (ot : keys_arg) (es : list (string * value))
    : list (string * value) :=
  filter (fun kv : string * value => key_in (fst kv) ot) es.

(** The pieces [pd.concat] stacks: [None] values are dropped, tables
    are kept, anything else is rejected. *)
Fixpoint concat_pieces (es : list (string * value)) : result (list (string * DataFrame)) :=
  match es with
  | [] => Ok []
  | (k, v) :: r =>
      match v with
      | VNone => concat_pieces r
      | VTable d => let* r' := concat_pieces r in Ok ((k, d) :: r')
      | VSeries _ => Raise (Unmodelled "concatenation of a series")
      | _ => Raise (TypeError ("cannot concatenate object of type '" ++ class_text v
                               ++ "'; only Series and DataFrame objs are valid"))
      end
  end.

(** [pd.concat(df_dict)] *)
Definition concat_entries (es : list (string * value)) : result DataFrame :=
  match es with
  | [] => Raise (ValueError "No objects to concatenate")
  | _ =>
      let* ps := concat_pieces es in
      match ps with
      | [] => Raise (ValueError "All objects passed were None")
      | _ => Pandas.concat_dict ps
      end
  end.

(** The general case of [_combine_vars]: select object types, then
    create the dataframe. *)
Definition concat_vars (df_dict : value) (obj_types var_keys : option keys_arg)
    : result value :=
  let* es :=
    match var_keys, obj_types with
    | None, None =>
        match df_dict with
        | VDataDict _ | VMapping _ => items df_dict
        | VSeries _ => Raise (Unmodelled "concatenation of a series")
        | _ => Raise (TypeError "first argument must be an iterable of pandas objects")
        end
    | _, _ => items df_dict
    end in
  let* es :=
    match var_keys with
    | Some ks => select_by_columns (make_list ks) es
    | None => Ok es
    end in
  let es :=
    match obj_types with
    | Some ot => select_by_type ot es
    | None => es
    end in
  let* df := concat_entries es in
  let df := Pandas.set_level0_name "obj_type" df in
  match var_keys with
  | Some ks => if truthy var_keys then select ks df else Ok (VTable df)
  | None => Ok (VTable df)
  end.

Definition _combine_vars (self : DataDict) (obj_types var_keys : option keys_arg)
    : result value :=
  let* df_dict := getitem "variables" self in
  match df_dict with
  | VTable d => Ok (VTable d)
  | VDataDict [(_, v)] => Ok v
  | _ => concat_vars df_dict obj_types var_keys
  end.

(** ** The parameter combiner

    [_combine_pars] assigns the fixed parameters as columns of the
    very table stored under [parameters.varied]; the container after
    the call is therefore part of the outcome. *)

(** [target[k] = v] *)
Definition setitem (k : string) (v : value) (target : value) : result value :=
  match target with
  | VTable d =>
      match v with
      | VCell c => Ok (VTable (Pandas.set_column k c d))
      | VNone => Ok (VTable (Pandas.set_column k CNone d))
      | _ => Raise (Unmodelled "column assignment of a container")
      end
  | VDataDict es => Ok (VDataDict (dict_set k v es))
  | VMapping m =>
      match v with
      | VCell c => Ok (VMapping (dict_set k c m))
      | VNone => Ok (VMapping (dict_set k CNone m))
      | _ => Raise (Unmodelled "container stored in a plain mapping")
      end
  | VSeries _ => Raise (Unmodelled "item assignment on a series")
  | _ => Raise (TypeError ("'" ++ type_name target
                           ++ "' object does not support item assignment"))
  end.

(** [for k, v in items: target[k] = v], with the target as the loop
    left it. *)
Fixpoint assign_all (its : list (string * value)) (target : value)
    : result unit * value :=
  match its with
  | [] => (Ok tt, target)
  | (k, v) :: r =>
      match setitem k v target with
      | Ok t' => assign_all r t'
      | Raise e => (Raise e, target)
      end
  end.

(** [pd.DataFrame({k: [v] for k, v in m.items()})] *)
Definition one_row_table (m : list (string * cell)) : DataFrame :=
  mkDF [None] (keys m)
       (match m with
        | [] => []
        | _ => [([CInt 0], m)]
        end).

(** [obj['iterations']] on the log. *)
Definition subscript (k : string) (v : value) : result value :=
  match v with
  | VMapping m =>
      match dict_get k m with
      | Some c => Ok (VCell c)
      | None => Raise (KeyError (Py.repr_str k))
      end
  | VDataDict es => getitem k es
  | VTable _ | VSeries _ => Raise (Unmodelled "subscript of a table")
  | _ => Raise (TypeError ("'" ++ type_name v ++ "' object is not subscriptable"))
  end.

(** [[x] * n] *)
Definition times {A} (x : A) (n : value) : result (list A) :=
  match n with
  | VCell (CInt z) => Ok (List.repeat x (Z.to_nat z))
  | _ => Raise (TypeError ("can't multiply sequence by non-int of type '"
                           ++ type_name n ++ "'"))
  end.

(** [pd.concat] of a list of copies of one object. *)
Definition concat_copies (vs : list value) : result DataFrame :=
  match vs with
  | [] => Raise (ValueError "No objects to concatenate")
  | v :: _ =>
      match v with
      | VTable d => Pandas.concat (map (fun _ => d) vs)
      | VNone => Raise (ValueError "All objects passed were None")
      | VSeries _ => Raise (Unmodelled "concatenation of a series")
      | _ => Raise (TypeError ("cannot concatenate object of type '" ++ class_text v
                               ++ "'; only Series and DataFrame objs are valid"))
      end
  end.

(** The tail of [_combine_pars]: replication and the fresh index. *)
Definition replicate (self : DataDict) (dfp0 : value) : result DataFrame :=
  let* log := getattr "log" self in
  let* n := subscript "iterations" log in
  let* copies := times dfp0 n in
  let* dfp := concat_copies copies in
  let dfp := Pandas.reset_index_drop dfp in
  Ok (Pandas.set_index_name "run_id" dfp).

Definition _combine_pars (self : DataDict) : result DataFrame * DataDict :=
  match getattr "parameters" self with
  | Raise e => (Raise e, self)
  | Ok (VDataDict ps) =>
      match getattr "varied" ps with
      | Raise e => (Raise e, self)
      | Ok varied =>
          match (let* fixed := getattr "fixed" ps in items fixed) with
          | Raise e => (Raise e, self)
          | Ok its =>
              let '(done, dfp0) := assign_all its varied in
              let self' :=
                dict_set "parameters" (VDataDict (dict_set "varied" dfp0 ps)) self in
              match done with
              | Raise e => (Raise e, self')
              | Ok _ => (replicate self' dfp0, self')
              end
          end
      end
  | Ok (VMapping m) => (replicate self (VTable (one_row_table m)), self)
  | Ok (VTable d) => (replicate self (VTable d), self)
  | Ok _ => (Raise (AgentpyError
               "Parameters must be of type dict, DataDict, or pandas.DataFrame"), self)
  end.

(** ** The arrangement engine *)

Definition supported_keys : list string := ["variables"; "measures"; "parameters"].

(** The validation loop over explicitly requested keys. *)
Fixpoint check_keys (self : DataDict) (ks : list string) : result unit :=
  match ks with
  | [] => Ok tt
  | key :: r =>
      if negb (Py.mem key (keys self))
      then Raise (KeyError ("DataDict has no key '" ++ key ++ "'"))
      else if negb (Py.mem key supported_keys)
      then Raise (KeyError ("DataDict.arrange doesn't support '" ++ key ++ "'"
                            ++ "Supported keys are: " ++ Py.repr_list supported_keys))
      else check_keys self r
  end.

Definition prepare_keys (self : DataDict) (data_keys : option keys_arg)
    : result (list string) :=
  match data_keys with
  | None => Ok (filter (fun k => Py.mem k supported_keys) (keys self))
  | Some dk =>
      let ks := make_list dk in
      let* _ := check_keys self ks in
      Ok ks
  end.

(** The table behind a value on which the table attribute [attr] is
    used; anything that is not a table has no such attribute. *)
Definition table_of (attr : string) (v : value) : result DataFrame :=
  match v with
  | VTable d | VSeries d => Ok d
  | VDataDict es =>
      match dict_get attr es with
      | Some _ => Raise (Unmodelled "entry named like a table attribute")
      | None => Raise (no_attribute v attr)
      end
  | _ => Raise (no_attribute v attr)
  end.

(** [v[ks]] on an arbitrary section value. *)
Definition select_value (ks : keys_arg) (v : value) : result value :=
  match v with
  | VTable d => select ks d
  | VSeries _ => Raise (Unmodelled "subscript of a series")
  | VMapping _ | VDataDict _ =>
      match ks with
      | KStr k => subscript k v
      | KList _ => Raise (TypeError "unhashable type: 'list'")
      end
  | _ => Raise (TypeError ("'" ++ type_name v ++ "' object is not subscriptable"))
  end.

Definition is_none (v : value) : bool :=
  match v with VNone => true | _ => false end.

Section Arrange.

(** Operations of the tabular library that [arrange] calls and that
    are left abstract: the column-wise concatenation, the reindexing
    of the parameter table along one level of the working table's
    index, and the row filter on the scenario column. *)
Variable concat_columns : DataFrame -> DataFrame -> result DataFrame.
Variable reindex_level : string -> DataFrame -> DataFrame -> result DataFrame.
Variable query_scenario : list string -> DataFrame -> result DataFrame.

(** Process 'variables' *)
Definition arrange_variables (self : DataDict) (data_keys : list string)
    (obj_types var_keys : option keys_arg) : result value :=
  if Py.mem "variables" data_keys
  then _combine_vars self obj_types var_keys
  else Ok VNone.

(** Process 'measures' *)
Definition arrange_measures (self : DataDict) (data_keys : list string)
    (measure_keys : option keys_arg) (dfv : value) : result value :=
  if Py.mem "measures" data_keys
  then
    let* dfm := getattr "measures" self in
    let* dfm :=
      match measure_keys with
      | Some mk => if truthy measure_keys then select_value mk dfm else Ok dfm
      | None => Ok dfm
      end in
    if is_none dfv then Ok dfm
    else
      let* v := table_of "index" dfv in
      let index_keys := index_names v in
      let* m := table_of "reset_index" dfm in
      let* dfm := Pandas.reset_index m in
      let* dfv := Pandas.reset_index v in
      let* dfv := Pandas.concat [dfm; dfv] in
      match Pandas.named index_keys with
      | None => Raise (KeyError "None of [None] are in the columns")
      | Some ks => let* r := Pandas.set_index ks dfv in Ok (VTable r)
      end
  else Ok dfv.

(** Process 'parameters' *)
Definition arrange_parameters (self : DataDict) (data_keys : list string)
    (param_keys : option keys_arg) (dfv : value) : result value * DataDict :=
  if Py.mem "parameters" data_keys
  then
    let '(r, self') := _combine_pars self in
    (let* dfp := r in
     let* dfp :=
       match param_keys with
       | Some pk => if truthy param_keys then select pk dfp else Ok (VTable dfp)
       | None => Ok (VTable dfp)
       end in
     let* v := table_of "index" dfv in
     let* p := table_of "reindex" dfp in
     let* p := if Pandas.is_multiindex v then reindex_level "run_id" p v else Ok p in
     let* r := concat_columns v p in
     Ok (VTable r),
     self')
  else (Ok dfv, self).

(** Select scenarios, reset index *)
Definition arrange_finish (scenarios : option keys_arg) (index : bool) (dfv : value)
    : result value :=
  let* dfv :=
    match scenarios with
    | Some sc =>
        if truthy scenarios
        then match dfv with
             | VTable d => let* r := query_scenario (make_list sc) d in Ok (VTable r)
             | _ => Raise (no_attribute dfv "query")
             end
        else Ok dfv
    | None => Ok dfv
    end in
  if negb index
  then let* d := table_of "reset_index" dfv in
       let* r := Pandas.reset_index d in
       Ok (VTable r)
  else Ok dfv.

Definition arrange (self : DataDict)
    (data_keys var_keys obj_types measure_keys param_keys scenarios : option keys_arg)
    (index : bool) : result value * DataDict :=
  match prepare_keys self data_keys with
  | Raise e => (Raise e, self)
  | Ok data_keys =>
      match (let* dfv := arrange_variables self data_keys obj_types var_keys in
             arrange_measures self data_keys measure_keys dfv) with
      | Raise e => (Raise e, self)
      | Ok dfv =>
          let '(r, self') := arrange_parameters self data_keys param_keys dfv in
          (let* dfv := r in arrange_finish scenarios index dfv, self')
      end
  end.

End Arrange.

(** ** The file system

    Directory enumeration and path handling belong to the operating
    system; they are represented by the least that [save] and [load]
    observe.  A path denotes the list of its components, a directory
    holds the names of its entries, and a file is known by what the
    two decoders make of its content ([None]: the decoder raises).
    The order in which [listdir] reports the entries of a directory
    is the operating system's choice: it is an argument of everything
    that lists a directory. *)

Record file := mkFile {
  as_csv : option DataFrame;
  as_json : option value
}.

Definition location : Type := list string.

Fixpoint location_eqb (a b : location) : bool :=
  match a, b with
  | [], [] => true
  | x :: a', y :: b' => String.eqb x y && location_eqb a' b'
  | _, _ => false
  end.

Section Table.
Context {V : Type}.

Fixpoint at_get (k : location) (t : list (location * V)) : option V :=
  match t with
  | [] => None
  | (k', v) :: r => if location_eqb k k' then Some v else at_get k r
  end.

Fixpoint at_set (k : location) (v : V) (t : list (location * V))
    : list (location * V) :=
  match t with
  | [] => [(k, v)]
  | (k', v') :: r =>
      if location_eqb k k' then (k, v) :: r else (k', v') :: at_set k v r
  end.
End Table.

Record FS := mkFS {
  dirs : list (location * list string);
  files : list (location * file)
}.

Module Os.

Definition proper (c : string) : bool :=
  negb (String.eqb c "") && negb (String.eqb c ".").

(** The components of a relative path: empty and ["."] components
    denote no step. *)
Definition steps (path : string) : location :=
  filter proper (Py.split "/" path).

(** The components of a path; an absolute path starts at the root,
    marked by an empty first component.  (Parent steps and links are
    not resolved.) *)
Definition comps (path : string) : location :=
  ((if String.prefix "/" path then [""] else []) ++ steps path)%list.

(** How a directory's entries are put in the order of a listing. *)
Definition enumeration : Type := list string -> list string.

(** [listdir(path)]; [listdir()] lists the working directory [[]]. *)
Definition listdir (ls : enumeration) (path : string) (fs : FS) : result (list string) :=
  match path with
  | EmptyString => Raise (FileNotFoundError path)
  | _ =>
      match at_get (comps path) (dirs fs) with
      | Some names => Ok (ls names)
      | None => Raise (FileNotFoundError path)
      end
  end.

Definition exists_dir (l : location) (fs : FS) : bool :=
  match at_get l (dirs fs) with Some _ => true | None => false end.

(** The entry [name] is added to those of [parent].  (The entries are
    kept in the order of their creation, which is not the order of a
    listing.) *)
Definition add_entry (parent : location) (name : string) (fs : FS) : FS :=
  match at_get parent (dirs fs) with
  | Some names =>
      if Py.mem name names then fs
      else mkFS (at_set parent (names ++ [name])%list (dirs fs)) (files fs)
  | None => fs
  end.

(** The directory with the given components (innermost first) exists
    afterwards: a missing one is created after its parent. *)
Fixpoint ensure_dir (rev_comps : list string) (fs : FS) : FS :=
  match rev_comps with
  | [] => fs
  | name :: above =>
      if exists_dir (rev rev_comps) fs then fs
      else
        let fs := ensure_dir above fs in
        add_entry (rev above) name
                  (mkFS (at_set (rev rev_comps) [] (dirs fs)) (files fs))
  end.

(** [makedirs(path)] *)
Definition makedirs (path : string) (fs : FS) : result unit * FS :=
  match path with
  | EmptyString => (Raise (FileNotFoundError path), fs)
  | _ =>
      if exists_dir (comps path) fs
      then (Raise (FileExistsError path), fs)
      else (Ok tt, ensure_dir (rev (comps path)) fs)
  end.

(** A file is created or overwritten; its directory must exist. *)
Definition write_file (path : string) (f : file) (fs : FS) : result unit * FS :=
  let l := comps path in
  if exists_dir (removelast l) fs
  then (Ok tt, add_entry (removelast l) (List.last l "")
                         (mkFS (dirs fs) (at_set l f (files fs))))
  else (Raise (FileNotFoundError path), fs).

Definition read_file (path : string) (fs : FS) : option file :=
  at_get (comps path) (files fs).

End Os.

(** ** Experiment ids *)

(** The [ValueError] of [int(s)]; the message shows the first 200
    characters of [repr(s)]. *)
Definition invalid_literal (s : string) : exn :=
  ValueError ("invalid literal for int() with base 10: "
              ++ String.substring 0 200 (Py.repr_str s)).

(** [[int(s.split('_')[-1]) for s in exp_dirs]].  What [int] makes of
    a text outside ASCII is left undescribed. *)
Fixpoint parse_ids (names : list string) : result (list Z) :=
  match names with
  | [] => Ok []
  | s :: r =>
      let field := Py.last_field "_" s in
      if negb (Py.is_ascii field) then Raise (Unmodelled "int of a text outside ASCII")
      else
        match Py.int field with
        | Some z => let* zs := parse_ids r in Ok (z :: zs)
        | None => Raise (invalid_literal field)
        end
  end.

(** [max(ids)] of a non-empty list. *)
Definition max_list (z : Z) (zs : list Z) : Z := fold_left Z.max zs z.

(** The body of [_last_exp_id] once the directory has been listed. *)
Definition last_id_among (name : string) (output_dirs : list string) : result Z :=
  let exp_dirs := filter (Py.contains name) output_dirs in
  match exp_dirs with
  | [] => Ok 0
  | _ =>
      let* ids := parse_ids exp_dirs in
      match ids with
      | [] => Ok 0
      | z :: zs => Ok (max_list z zs)
      end
  end.

Definition _last_exp_id (ls : Os.enumeration) (name path : string) (fs : FS)
    : result Z :=
  let* output_dirs := Os.listdir ls path fs in
  last_id_among name output_dirs.

(** ** Saving *)

(** Statements run one after the other on the file system; the first
    exception ends the sequence. *)
Definition and_then (r : result unit * FS) (k : FS -> result unit * FS)
    : result unit * FS :=
  match r with
  | (Ok _, fs) => k fs
  | (Raise e, fs) => (Raise e, fs)
  end.

Fixpoint for_each {A} (body : A -> FS -> result unit * FS) (l : list A) (fs : FS)
    : result unit * FS :=
  match l with
  | [] => (Ok tt, fs)
  | x :: r => and_then (body x fs) (for_each body r)
  end.

Section Save.

(** The two encoders are the tabular library's and the JSON
    module's: what [to_csv] leaves in the file, and what [json.dump]
    (with [NpEncoder]) leaves there together with whether it
    raised.  The last argument is the order of the listings. *)
Variable to_csv : DataFrame -> file.
Variable json_dump : value -> file * result unit.
Variable ls : Os.enumeration.

Definition dump_to (path : string) (o : value) (fs : FS) : result unit * FS :=
  let '(f, r) := json_dump o in
  match Os.write_file path f fs with
  | (Ok _, fs) => (r, fs)
  | failed => failed
  end.

(** One entry of a nested container. *)
Definition save_inner (path key : string) (ko : string * value) (fs : FS)
    : result unit * FS :=
  let '(k, o) := ko in
  match o with
  | VTable d =>
      Os.write_file (path ++ "/" ++ key ++ "_" ++ k ++ ".csv") (to_csv d) fs
  | VMapping _ | VDataDict _ =>
      dump_to (path ++ "/" ++ key ++ "_" ++ k ++ ".json") o fs
  | _ => (Ok tt, fs)
  end.

(** One top-level entry. *)
Definition save_entry (path : string) (ko : string * value) (fs : FS)
    : result unit * FS :=
  let '(key, output) := ko in
  match output with
  | VTable d => Os.write_file (path ++ "/" ++ key ++ ".csv") (to_csv d) fs
  | VDataDict es => for_each (save_inner path key) es fs
  | VMapping _ => dump_to (path ++ "/" ++ key ++ ".json") output fs
  | _ => (Ok tt, fs)
  end.

(** [self.log['name']], which must be a string to be [replace]d. *)
Definition log_name (self : DataDict) : result string :=
  let* log := getattr "log" self in
  let* name := subscript "name" log in
  match name with
  | VCell (CStr s) => Ok s
  | _ => Raise (no_attribute name "replace")
  end.

(** The experiment name before spaces are replaced: the argument,
    or the name in the log. *)
Definition given_name (self : DataDict) (exp_name : option string) : result string :=
  match exp_name with
  | None => log_name self
  | Some n => Ok n
  end.

(** The experiment name and id that [save] settles on. *)
Definition save_target (self : DataDict) (exp_name : option string)
    (exp_id : option Z) (path : string) (fs : FS) : result (string * Z) :=
  let* exp_name := given_name self exp_name in
  let exp_name := Py.replace " " "_" exp_name in
  let* exp_id :=
    match exp_id with
    | None => let* last := _last_exp_id ls exp_name path fs in Ok (last + 1)
    | Some i => Ok i
    end in
  Ok (exp_name, exp_id).

Definition exp_dir (path exp_name : string) (exp_id : Z) : string :=
  path ++ "/" ++ exp_name ++ "_" ++ Py.str exp_id.

(** [save]; the progress message is not modelled. *)
Definition save (self : DataDict) (exp_name : option string) (exp_id : option Z)
    (path : string) (fs : FS) : result unit * FS :=
  match Os.listdir ls "." fs with
  | Raise e => (Raise e, fs)
  | Ok here =>
      and_then (if Py.mem path here then (Ok tt, fs) else Os.makedirs path fs)
        (fun fs =>
           match save_target self exp_name exp_id path fs with
           | Raise e => (Raise e, fs)
           | Ok (exp_name, exp_id) =>
               let path := exp_dir path exp_name exp_id in
               and_then (Os.makedirs path fs)
                        (for_each (save_entry path) self)
           end)
  end.

End Save.

(** ** Loading *)

Definition i_cols : list string :=
  ["sample_id"; "run_id"; "scenario"; "env_key"; "agent_id"; "obj_id"; "t"].

(** What the decoder selected by the extension returns, or the
    exception it raises ([None]); a path with no file behind it is an
    I/O failure. *)
Definition read_csv (path : string) (fs : FS) : option DataFrame :=
  match Os.read_file path fs with
  | Some f => as_csv f
  | None => None
  end.

Definition json_load (path : string) (fs : FS) : option value :=
  match Os.read_file path fs with
  | Some f => as_json f
  | None => None
  end.

(** The local function [load_file] of [_load].  Every exception of
    the [try] block is caught and reported, and the function then
    returns [None]; so it does for an unsupported extension.  The
    messages printed are not modelled. *)
Definition load_file (path file : string) (fs : FS) : value :=
  let ext := Py.last_field "." file in
  let path := path ++ file in
  if String.eqb ext "csv" then
    match read_csv path fs with
    | None => VNone
    | Some obj =>
        match filter (fun i => Py.mem i (columns obj)) i_cols with
        | [] => VTable obj
        | index =>
            match Pandas.set_index index obj with
            | Ok d => VTable d
            | Raise _ => VNone
            end
        end
    end
  else if String.eqb ext "json" then
    match json_load path fs with
    | None => VNone
    | Some obj => obj
    end
  else VNone.

(** [file[:-(len(ext) + 1)]] *)
Definition stem (file : string) : string :=
  Py.drop_last (String.length (Py.last_field "." file) + 1) file.

(** [self[section][key] = obj], creating the nested container first
    when the section is not a key of [self]. *)
Definition store_nested (section key : string) (obj : value) (self : DataDict)
    : result DataDict :=
  let self := if dict_has section self then self
              else dict_set section (VDataDict []) self in
  let* target := getitem section self in
  let* target := setitem key obj target in
  Ok (dict_set section target self).

(** The body of the loading loop for one directory entry. *)
Definition load_entry (path : string) (fs : FS) (self : DataDict) (file : string)
    : result DataDict :=
  if Py.contains "variables_" file then
    let key := Py.replace "variables_" "" (stem file) in
    store_nested "variables" key (load_file path file fs) self
  else if Py.contains "parameters_" file then
    let key := Py.replace "parameters_" "" (stem file) in
    store_nested "parameters" key (load_file path file fs) self
  else
    Ok (dict_set (stem file) (load_file path file fs) self).

Fixpoint load_entries (path : string) (fs : FS) (names : list string) (self : DataDict)
    : result DataDict :=
  match names with
  | [] => Ok self
  | file :: r =>
      let* self := load_entry path fs self file in
      load_entries path fs r self
  end.

(** The directory [_load] reads from. *)
Definition load_dir (ls : Os.enumeration) (exp_name : option string)
    (exp_id : option Z) (path : string) (fs : FS) : result string :=
  match exp_name with
  | None => Raise (AttributeError "'NoneType' object has no attribute 'replace'")
  | Some exp_name =>
      let exp_name := Py.replace " " "_" exp_name in
      let discover :=
        let* last := _last_exp_id ls exp_name path fs in
        if Z.eqb last 0
        then Raise (AgentpyError ("No experiment found with name '" ++ exp_name
                                  ++ "' in path '" ++ path ++ "'"))
        else Ok last in
      let* exp_id :=
        match exp_id with
        | Some i => if Z.eqb i 0 then discover else Ok i
        | None => discover
        end in
      Ok (path ++ "/" ++ exp_name ++ "_" ++ Py.str exp_id ++ "/")
  end.

Definition _load (ls : Os.enumeration) (self : DataDict) (exp_name : option string)
    (exp_id : option Z) (path : string) (fs : FS) : result DataDict :=
  let* dir := load_dir ls exp_name exp_id path fs in
  let* names := Os.listdir ls dir fs in
  load_entries dir fs names self.

(** [load]: [_load] on a fresh container. *)
Definition load (ls : Os.enumeration) (exp_name : option string) (exp_id : option Z)
    (path : string) (fs : FS) : result DataDict :=
  _load ls [] exp_name exp_id path fs.

(** ** Observations on tables used in the statements *)

(** The values of the outermost index level, row by row. *)
Definition level0 (d : DataFrame) : list (option cell) :=
  map (fun r : row => hd_error (fst r)) (rows d).

(** The rows without their outermost index level. *)
Definition inner_rows (d : DataFrame) : list row :=
  map (fun r : row => (tl (fst r), snd r)) (rows d).

(** The index tuples, row by row. *)
Definition index_column (d : DataFrame) : list (list cell) := map fst (rows d).

(** The row records, without the index. *)
Definition records (d : DataFrame) : list (list (string * cell)) := map snd (rows d).

(** A container section made of tables only. *)
Definition table_entries (ts : list (string * DataFrame)) : list (string * value) :=
  map (fun kd : string * DataFrame => (fst kd, VTable (snd kd))) ts.

(** The tables that hold at least one of the requested columns. *)
Definition with_any_column (ks : list string) (ts : list (string * DataFrame))
    : list (string * DataFrame) :=
  filter (fun kd : string * DataFrame =>
            existsb (fun x => Py.mem x (columns (snd kd))) ks) ts.

(** The requested columns that none of the given tables has. *)
Definition absent_columns (ks : list string) (ts : list (string * DataFrame))
    : list string :=
  filter (fun k => negb (Py.mem k (Pandas.all_columns (map snd ts)))) ks.

(** A row cut down to the requested columns. *)
Definition project_row (ks : list string) (r : row) : row :=
  (fst r, map (fun k => (k, row_get k r)) ks).

(** The stacked rows of the given tables, each tagged with its key. *)
Definition stacked_rows (ts : list (string * DataFrame)) : list row :=
  flat_map (fun kd : string * DataFrame => Pandas.tag_rows (fst kd) (snd kd)) ts.

(** The loop of [_combine_pars] on a table and a plain mapping of
    fixed parameters: one column assignment per entry. *)
Definition assign_columns (fx : list (string * cell)) (d : DataFrame) : DataFrame :=
  fold_left (fun d kc => Pandas.set_column (fst kc) (snd kc) d) fx d.

(** Where the loading loop stores what it read from a file: a
    top-level key, or a key of the nested [variables] or [parameters]
    container. *)
Inductive slot :=
| Top (key : string)
| Nested (section key : string).

Definition slot_of (file : string) : slot :=
  if Py.contains "variables_" file
  then Nested "variables" (Py.replace "variables_" "" (stem file))
  else if Py.contains "parameters_" file
  then Nested "parameters" (Py.replace "parameters_" "" (stem file))
  else Top (stem file).

(** The value of a slot; [None] when the key is absent. *)
Definition slot_get (s : slot) (dd : DataDict) : option value :=
  match s with
  | Top k => dict_get k dd
  | Nested section k =>
      match dict_get section dd with
      | Some (VDataDict es) => dict_get k es
      | _ => None
      end
  end.

(** The store of the loading loop's body. *)
Definition store (s : slot) (v : value) (self : DataDict) : result DataDict :=
  match s with
  | Top k => Ok (dict_set k v self)
  | Nested section k => store_nested section k v self
  end.

(** A file whose decoding raises: it cannot be opened, or the decoder
    its extension selects rejects the content. *)
Definition fails_to_decode (path file : string) (fs : FS) : bool :=
  let ext := Py.last_field "." file in
  match Os.read_file (path ++ file) fs with
  | None => String.eqb ext "csv" || String.eqb ext "json"
  | Some c =>
      (String.eqb ext "csv" && match as_csv c with None => true | Some _ => false end)
      || (String.eqb ext "json" && match as_json c with None => true | Some _ => false end)
  end.

(** The files of a directory go to different slots, and no file
    stored at top level under [variables] or [parameters] sits next
    to files of the nested section of that name. *)
Definition separate_slots (names : list string) : Prop :=
  NoDup (map slot_of names)
  /\ forall f section k,
       In f names -> slot_of f = Nested section k ->
       ~ In (Top section) (map slot_of names).

(** The shape a section must have for a nested store to go through. *)
Definition nestable (self : DataDict) (section : string) : Prop :=
  dict_get section self = None \/ exists es, dict_get section self = Some (VDataDict es).

Definition apart (s s' : slot) : Prop :=
  s' <> s /\
  match s, s' with
  | Top k, Nested section _ | Nested section _, Top k => k <> section
  | _, _ => True
  end.

(** The entries of a directory, in the order of their creation (which
    need not be the order of a listing); none when there is no such
    directory. *)
Definition listing (path : string) (fs : FS) : list string :=
  match at_get (Os.comps path) (dirs fs) with
  | Some names => names
  | None => []
  end.

(** The name of an experiment directory. *)
Definition exp_entry (exp_name : string) (exp_id : Z) : string :=
  exp_name ++ "_" ++ Py.str exp_id.

(** [last] is the highest id among the names that contain
    [exp_name]: zero when there is none, and otherwise the trailing
    integer of one of them and no less than that of any. *)
Definition highest_id (exp_name : string) (names : list string) (last : Z) : Prop :=
  match filter (Py.contains exp_name) names with
  | [] => last = 0
  | matches =>
      (exists s, In s matches /\ Py.int (Py.last_field "_" s) = Some last)
      /\ forall s, In s matches ->
                   exists i, Py.int (Py.last_field "_" s) = Some i /\ i <= last
  end.

(** Every character of the string satisfies the test. *)
Fixpoint all_chars (p : ascii -> bool) (s : string) : bool :=
  match s with
  | EmptyString => true
  | String a t => p a && all_chars p t
  end.

Definition is_digit (a : ascii) : bool :=
  match a with
  | "0"%char | "1"%char | "2"%char | "3"%char | "4"%char
  | "5"%char | "6"%char | "7"%char | "8"%char | "9"%char => true
  | _ => false
  end.

(** The characters [str] produces: digits and the minus sign. *)
Definition is_numeral (a : ascii) : bool := is_digit a || Ascii.eqb a "-".

(** The character does not occur in the string. *)
Definition lacks (c : ascii) (s : string) : bool :=
  all_chars (fun a => negb (Ascii.eqb a c)) s.

(** A step on the file system that leaves the listing of one
    directory, and the set of directories, as they were. *)
Definition keeps (l : location) (fs fs' : FS) : Prop :=
  at_get l (dirs fs') = at_get l (dirs fs)
  /\ forall l', Os.exists_dir l' fs' = Os.exists_dir l' fs.

(** The fixed parameters written into one row record. *)
Definition assign_row (fx : list (string * cell)) (r : list (string * cell))
    : list (string * cell) :=
  fold_left (fun r kc => dict_set (fst kc) (snd kc) r) fx r.

(** The container after [_combine_pars] has run on nested parameters
    [ps] with varied table [v] and fixed mapping [fx]. *)
Definition with_fixed_columns (self ps : DataDict) (fx : list (string * cell))
    (v : DataFrame) : DataDict :=
  dict_set "parameters"
           (VDataDict (dict_set "varied" (VTable (assign_columns fx v)) ps)) self.

(** The file that [save] writes for a top-level plain mapping. *)
Definition json_name (key : string) : string := key ++ ".json".

(** A container all of whose sections are plain mappings (a log and
    flat parameters, say). *)
Definition all_mappings (self : DataDict) : Prop :=
  forall k v, In (k, v) self -> exists m, v = VMapping m.

(** The keys are file names that [load] stores at top level. *)
Definition plain_keys (self : DataDict) : Prop :=
  forall k, In k (keys self) ->
            lacks "/" k = true
            /\ Py.contains "variables_" (json_name k) = false
            /\ Py.contains "parameters_" (json_name k) = false.

(** The JSON encoder and the decoder agree on the sections of the
    container: what [json.dump] leaves in a file, [json.load] reads
    back as the same value. *)
Definition json_round_trip (json_dump : value -> file * result unit) (self : DataDict)
    : Prop :=
  forall k v, In (k, v) self -> as_json (fst (json_dump v)) = Some v.

(** ** The printed form of a container *)

Definition newline : string := String "010"%char EmptyString.

(** [f"{len(...)}"] *)
Definition count_text (n : nat) : string := Py.str (Z.of_nat n).

(** The plural ending chosen by [... if lv != 1 else ...]. *)
Definition plural (n : nat) (many one : string) : string :=
  if Nat.eqb n 1 then one else many.

(** What [__repr__] appends for one value after the key; a nested
    container is printed by [__repr__(indent=True)], whose lines are
    indented by four spaces at every depth.  (The values of this
    development include no Python list.) *)
Fixpoint describe (v : value) : string :=
  match v with
  | VTable d =>
      "DataFrame with " ++ count_text (List.length (columns d))
      ++ " variable" ++ plural (List.length (columns d)) "s" ""
      ++ " and " ++ count_text (df_len d)
      ++ " row" ++ plural (df_len d) "s" ""
  | VDataDict es =>
      (fix lines (es : list (string * value)) : string :=
         match es with
         | [] => ""
         | (k, v) :: r => newline ++ "    " ++ "'" ++ k ++ "': " ++ describe v ++ lines r
         end) es
  | VMapping m =>
      "Dictionary with " ++ count_text (List.length (keys m))
      ++ " key" ++ plural (List.length (keys m)) "s" ""
  | _ => "Object of type " ++ class_text v
  end.

(** The loop of [__repr__] over the items. *)
Fixpoint repr_lines (i : string) (es : list (string * value)) : string :=
  match es with
  | [] => ""
  | (k, v) :: r => newline ++ i ++ "'" ++ k ++ "': " ++ describe v ++ repr_lines i r
  end.

Definition __repr__ (self : DataDict) (indent : bool) : string :=
  (if indent then "" else "DataDict {")
  ++ repr_lines (if indent then "    " else "") self
  ++ (if indent then "" else newline ++ "}").

(** The number of entries of a container, those of its nested
    containers included. *)
Fixpoint entry_count (v : value) : nat :=
  match v with
  | VDataDict es =>
      (fix count (es : list (string * value)) : nat :=
         match es with
         | [] => 0%nat
         | (_, v) :: r => S (entry_count v + count r)
         end) es
  | _ => 0%nat
  end.

(** No key, at any depth, contains a line break. *)
Fixpoint single_line_keys (v : value) : bool :=
  match v with
  | VDataDict es =>
      (fix all (es : list (string * value)) : bool :=
         match es with
         | [] => true
         | (k, v) :: r => lacks "010" k && single_line_keys v && all r
         end) es
  | _ => true
  end.

(** The number of line breaks in a text. *)
Fixpoint line_breaks (s : string) : nat :=
  match s with
  | EmptyString => 0%nat
  | String a t => ((if Ascii.eqb a "010" then 1 else 0) + line_breaks t)%nat
  end.

(** A single run: a log, a flat parameters mapping, one variables
    table and a measures table. *)
Definition run_sections (lg p : list (string * cell)) (v m : DataFrame) : DataDict :=
  [("log", VMapping lg); ("parameters", VMapping p);
   ("variables", VTable v); ("measures", VTable m)].

(** The files that [save] writes for a single run. *)
Definition run_files : list string :=
  ["log.json"; "parameters.json"; "variables.csv"; "measures.csv"].

Fixpoint distinct (l : list string) : bool :=
  match l with
  | [] => true
  | x :: r => negb (Py.mem x r) && distinct r
  end.

(** The names of the index levels of a table whose levels are all
    named. *)
Definition level_names (t : DataFrame) : list string :=
  match Pandas.named (index_names t) with
  | Some ks => ks
  | None => []
  end.

(** A table whose index [load_file] recognises: its levels carry
    distinct recognised index names; no column carries such a name;
    every row gives one value per level and binds column labels
    only. *)
Definition recognised_index (t : DataFrame) : bool :=
  match Pandas.named (index_names t) with
  | None => false
  | Some ks =>
      negb (Nat.eqb (List.length ks) 0)
      && distinct ks
      && forallb (fun k => Py.mem k i_cols) ks
      && forallb (fun c => negb (Py.mem c i_cols)) (columns t)
      && forallb (fun r : row =>
                    Nat.eqb (List.length (fst r)) (List.length ks)
                    && forallb (fun c => Py.mem c (columns t)) (keys (snd r)))
                 (rows t)
  end.

(** The index levels in the order of [i_cols], and whether the table
    has them in that order. *)
Definition load_order (t : DataFrame) : list string :=
  filter (fun i => Py.mem i (level_names t)) i_cols.

Definition in_load_order (t : DataFrame) : bool :=
  list_eqb String.eqb (level_names t) (load_order t).

(** The value a row has at the index level [k]. *)
Definition level_value (t : DataFrame) (k : string) (r : row) : cell :=
  match dict_get k (combine (level_names t) (fst r)) with
  | Some x => x
  | None => CNaN
  end.

(** The table with its index levels put in the order of [i_cols]:
    the same columns and records, and in each row's index the same
    value for each level. *)
Definition reordered (t : DataFrame) : DataFrame :=
  mkDF (map Some (load_order t)) (columns t)
       (map (fun r : row => (map (fun k => level_value t k r) (load_order t), snd r))
            (rows t)).

(** The CSV encoder and decoder agree on a table: the file reads back
    as the table with its index levels as leading columns, which is
    what [reset_index] makes of it. *)
Definition csv_round_trip (to_csv : DataFrame -> file) (t : DataFrame) : Prop :=
  exists flat, Pandas.reset_index t = Ok flat /\ as_csv (to_csv t) = Some flat.

(** The orders of a listing: any rearrangement of the entries. *)
Definition rearranges (ls : Os.enumeration) : Prop :=
  forall names, Permutation (ls names) names.

(** ** Sample data *)

(** Two listing orders: oldest entry first, and newest entry first. *)
Definition as_created : Os.enumeration := fun names => names.
Definition newest_first : Os.enumeration := @rev string.


Definition sample_agents : DataFrame :=
  mkDF [Some "obj_id"; Some "t"] ["x"; "y"]
       [([CInt 1; CInt 0], [("x", CInt 5); ("y", CInt 7)]);
        ([CInt 1; CInt 1], [("x", CInt 6); ("y", CInt 8)])].

Definition sample_envs : DataFrame :=
  mkDF [Some "obj_id"; Some "t"] ["z"]
       [([CInt 9; CInt 0], [("z", CStr "on")])].

Definition sample_varied : DataFrame :=
  mkDF [None] ["x"]
       [([CInt 0], [("x", CInt 10)]);
        ([CInt 1], [("x", CInt 20)]);
        ([CInt 2], [("x", CInt 30)])].

Definition sample_measures : DataFrame :=
  mkDF [Some "run_id"] ["m"]
       [([CInt 0], [("m", CInt 4)]); ([CInt 1], [("m", CInt 5)])].

(** An experiment with nested parameters and two iterations. *)
Definition sample_experiment : DataDict :=
  [("log", VMapping [("name", CStr "sample"); ("iterations", CInt 2)]);
   ("parameters", VDataDict [("fixed", VMapping [("a", CInt 1)]);
                             ("varied", VTable sample_varied)]);
   ("measures", VTable sample_measures)].

(** Stand-ins for the three abstract table operations, to run the
    examples: a positional column join, no reindexing, and a filter
    that keeps every row. *)
Definition sample_concat_columns (a b : DataFrame) : result DataFrame :=
  Ok (mkDF (index_names a) (columns a ++ columns b)
           (map (fun rq : row * row => (fst (fst rq), (snd (fst rq) ++ snd (snd rq))%list))
                (combine (rows a) (rows b)))).

Definition sample_reindex_level (level : string) (p v : DataFrame) : result DataFrame :=
  Ok p.

Definition sample_query_scenario (scenarios : list string) (d : DataFrame)
    : result DataFrame :=
  Ok d.

(** A saved experiment whose measures file is corrupt. *)
Definition sample_fs : FS :=
  mkFS [([], ["out"]);
        (["out"], ["exp_1"]);
        (["out"; "exp_1"], ["log.json"; "measures.csv"; "variables_agent.csv"])]
       [(["out"; "exp_1"; "log.json"],
         mkFile None (Some (VMapping [("name", CStr "exp"); ("iterations", CInt 1)])));
        (["out"; "exp_1"; "measures.csv"], mkFile None None);
        (["out"; "exp_1"; "variables_agent.csv"],
         mkFile (Some (mkDF [None] ["obj_id"; "t"; "x"]
                            [([CInt 0], [("obj_id", CInt 1); ("t", CInt 0); ("x", CInt 5)])]))
                None)].

(** Stand-ins for the two encoders, and an output directory that
    holds two earlier runs of the experiment. *)
Definition sample_to_csv (d : DataFrame) : file := mkFile (Some d) None.

Definition sample_json_dump (v : value) : file * result unit :=
  (mkFile None (Some v), Ok tt).

Definition sample_store : FS :=
  mkFS [([], ["out"]); (["out"], ["exp_1"; "exp_3"; "notes"])] [].

Definition sample_store_1 : FS :=
  snd (save sample_to_csv sample_json_dump as_created sample_experiment (Some "exp") None
            "out" sample_store).

Definition sample_store_2 : FS :=
  snd (save sample_to_csv sample_json_dump as_created sample_experiment (Some "exp") None
            "out" sample_store_1).

(** A directory in which a corrupt top-level [variables] file comes
    before a file of the nested [variables] section. *)
Definition sample_clash_fs : FS :=
  mkFS [([], ["out"]);
        (["out"], ["exp_1"]);
        (["out"; "exp_1"], ["variables.csv"; "variables_agent.csv"])]
       [(["out"; "exp_1"; "variables.csv"], mkFile None None);
        (["out"; "exp_1"; "variables_agent.csv"],
         mkFile (Some (mkDF [None] ["x"] [([CInt 0], [("x", CInt 5)])])) None)].

(** An output directory in which one matching entry has no numeric
    suffix. *)
Definition sample_draft_store : FS :=
  mkFS [([], ["out"]); (["out"], ["exp_1"; "exp_final"])] [].

(** An output directory whose only run of the experiment has id 0. *)
Definition sample_zero_store : FS :=
  mkFS [([], ["out"]); (["out"], ["my_exp_0"; "notes"]); (["out"; "my_exp_0"], [])] [].

(** The exception that ends the replication for a given value of
    [log['iterations']]: a missing key, a count that is not an
    integer, or a count that leaves nothing to concatenate. *)
Definition replication_error (iterations : option cell) : exn :=
  match iterations with
  | None => KeyError "'iterations'"
  | Some (CInt _) => ValueError "No objects to concatenate"
  | Some c => TypeError ("can't multiply sequence by non-int of type '"
                         ++ type_name (VCell c) ++ "'")
  end.

(** The values of [log['iterations']] with which the replication
    cannot succeed. *)
Definition no_replication (iterations : option cell) : Prop :=
  match iterations with
  | Some (CInt n) => n <= 0
  | _ => True
  end.

(** An experiment whose log has lost its iteration count. *)
Definition sample_broken_experiment : DataDict :=
  [("log", VMapping [("name", CStr "sample")]);
   ("parameters", VDataDict [("fixed", VMapping [("a", CInt 1)]);
                             ("varied", VTable sample_varied)])].

(** A single run with a flat parameters mapping. *)
Definition sample_run : DataDict :=
  [("log", VMapping [("name", CStr "run"); ("iterations", CInt 3)]);
   ("parameters", VMapping [("a", CInt 1); ("b", CStr "x")])].

(** The tables whose key passes the object-type filter. *)
Definition of_types (ot : keys_arg) (ts : list (string * DataFrame))
    : list (string * DataFrame) :=
  filter (fun kd : string * DataFrame => key_in (fst kd) ot) ts.

(** The recognised index names among the columns of a table, in the
    order of [i_cols]. *)
Definition index_columns (obj : DataFrame) : list string :=
  filter (fun i => Py.mem i (columns obj)) i_cols.

(** A directory with one table file that has two index columns. *)
Definition sample_csv_fs : FS :=
  mkFS [(["out"; "exp_1"], ["variables.csv"])]
       [(["out"; "exp_1"; "variables.csv"],
         mkFile (Some (mkDF [None] ["t"; "x"; "obj_id"]
                            [([CInt 0], [("t", CInt 0); ("x", CInt 5); ("obj_id", CInt 1)]);
                             ([CInt 1], [("t", CInt 1); ("x", CInt 6); ("obj_id", CInt 1)])]))
                None)].

(** The output directory after the single run has been saved under
    id 7. *)
Definition sample_store_run : FS :=
  snd (save sample_to_csv sample_json_dump as_created sample_run None (Some 7) "out" sample_store).

(** A single run with a variables table and a measures table. *)
Definition sample_single_run : DataDict :=
  [("log", VMapping [("name", CStr "run"); ("iterations", CInt 1)]);
   ("variables",
    VTable (mkDF [Some "t"] ["x"]
                 [([CInt 0], [("x", CInt 5)]); ([CInt 1], [("x", CInt 6)])]));
   ("measures", VTable (mkDF [None] ["m"] [([CInt 0], [("m", CInt 4)])]))].

(** A container with a table, a plain mapping and a nested container. *)
Definition sample_nested : DataDict :=
  [("log", VMapping [("name", CStr "sample")]);
   ("variables", VDataDict [("agent", VTable sample_agents); ("env", VTable sample_envs)]);
   ("measures", VTable sample_measures)].

(** A stand-in for the CSV encoder that writes the index levels as
    leading columns. *)
Definition flat_to_csv (d : DataFrame) : file :=
  mkFile (match Pandas.reset_index d with
          | Ok flat => Some flat
          | Raise _ => None
          end) None.

(** A single run with recognised index names, one whose variables
    have them in another order than [i_cols], and one whose variables
    are indexed by a name of their own. *)
Definition sample_full_run : DataDict :=
  run_sections [("name", CStr "run"); ("iterations", CInt 1)] [("a", CInt 1)]
               sample_agents sample_measures.

Definition sample_by_time : DataFrame :=
  mkDF [Some "t"; Some "obj_id"] ["x"]
       [([CInt 0; CInt 1], [("x", CInt 5)]); ([CInt 1; CInt 1], [("x", CInt 6)])].

Definition sample_time_run : DataDict :=
  run_sections [("name", CStr "run"); ("iterations", CInt 1)] [("a", CInt 1)]
               sample_by_time sample_measures.

Definition sample_steps : DataFrame :=
  mkDF [Some "step"] ["x"] [([CInt 0], [("x", CInt 5)]); ([CInt 1], [("x", CInt 6)])].

Definition sample_step_run : DataDict :=
  run_sections [("name", CStr "run"); ("iterations", CInt 1)] [("a", CInt 1)]
               sample_steps sample_measures.

(** The output directory after each of these runs has been saved
    under id 7. *)
Definition sample_store_time_run : FS :=
  snd (save flat_to_csv sample_json_dump as_created sample_time_run None (Some 7)
            "out" sample_store).

Definition sample_store_full_run : FS :=
  snd (save flat_to_csv sample_json_dump as_created sample_full_run None (Some 7)
            "out" sample_store).

Definition sample_store_step_run : FS :=
  snd (save flat_to_csv sample_json_dump as_created sample_step_run None (Some 7)
            "out" sample_store).

(** * Properties *)

(** ** Variable combiner *)

Lemma level0_tag_rows k d :
  map (fun r : row => hd_error (fst r)) (Pandas.tag_rows k d)
  = List.repeat (Some (CStr k)) (df_len d).
Proof.
  unfold Pandas.tag_rows, df_len.
  induction (rows d) as [|r rs IH]; simpl; [reflexivity|].
  now rewrite IH.
Qed.

Lemma inner_tag_rows k d :
  map (fun r : row => (tl (fst r), snd r)) (Pandas.tag_rows k d) = rows d.
Proof.
  unfold Pandas.tag_rows.
  induction (rows d) as [|[i r] rs IH]; simpl; [reflexivity|].
  now rewrite IH.
Qed.

Lemma length_tag_rows k d : List.length (Pandas.tag_rows k d) = df_len d.
Proof. unfold Pandas.tag_rows, df_len. apply length_map. Qed.

(** C6: when the variables section is a single table, or a container
    holding exactly one table, the variable combiner returns that very
    table, whatever the filters: same index levels, columns and rows,
    no [obj_type] level added. *)
Theorem combine_vars_single_is_identity :
  forall (self : DataDict) (vars : value) (d : DataFrame) (k : string)
         (obj_types var_keys : option keys_arg),
    dict_get "variables" self = Some vars ->
    vars = VTable d \/ vars = VDataDict [(k, VTable d)] ->
    _combine_vars self obj_types var_keys = Ok (VTable d).
Proof.
  intros self vars d k ot vk Hget Hshape.
  unfold _combine_vars, getitem. rewrite Hget. simpl.
  destruct Hshape as [-> | ->]; reflexivity.
Qed.

Lemma combine_vars_single_is_identity_witness :
  _combine_vars [("variables", VDataDict [("agent", VTable sample_agents)])]
                (Some (KStr "env")) (Some (KList ["z"]))
  = Ok (VTable sample_agents).
Proof.
  apply (combine_vars_single_is_identity _ (VDataDict [("agent", VTable sample_agents)])
           sample_agents "agent").
  - reflexivity.
  - right. reflexivity.
Defined.

(** C5: for a variables container of two object-type tables and no
    filters, the variable combiner returns one table whose outermost
    index level is named [obj_type], carries the first key on the rows
    of the first table and the second key on the rows of the second
    (and nothing else), and whose rows are those of the first table
    followed by those of the second, so that the row count is the sum
    of the two. *)
Theorem combine_vars_two_types :
  forall (self : DataDict) (ka kb : string) (ta tb : DataFrame),
    dict_get "variables" self = Some (VDataDict [(ka, VTable ta); (kb, VTable tb)]) ->
    exists df,
      _combine_vars self None None = Ok (VTable df)
      /\ hd_error (index_names df) = Some (Some "obj_type")
      /\ level0 df = (List.repeat (Some (CStr ka)) (df_len ta)
                      ++ List.repeat (Some (CStr kb)) (df_len tb))%list
      /\ inner_rows df = (rows ta ++ rows tb)%list
      /\ df_len df = (df_len ta + df_len tb)%nat.
Proof.
  intros self ka kb ta tb Hget.
  unfold _combine_vars, getitem. rewrite Hget. simpl.
  eexists. split; [reflexivity|].
  unfold level0, inner_rows, df_len at 3. simpl.
  rewrite List.app_nil_r.
  repeat split.
  - now rewrite map_app, !level0_tag_rows.
  - now rewrite map_app, !inner_tag_rows.
  - now rewrite List.length_app, !length_tag_rows.
Qed.

Lemma combine_vars_two_types_witness :
  exists df,
    _combine_vars [("variables", VDataDict [("A", VTable sample_agents);
                                            ("B", VTable sample_envs)])] None None
    = Ok (VTable df)
    /\ hd_error (index_names df) = Some (Some "obj_type")
    /\ level0 df = [Some (CStr "A"); Some (CStr "A"); Some (CStr "B")]
    /\ inner_rows df = (rows sample_agents ++ rows sample_envs)%list
    /\ df_len df = 3%nat.
Proof.
  apply (combine_vars_two_types _ "A" "B" sample_agents sample_envs).
  reflexivity.
Defined.

Lemma mem_true_iff s l : Py.mem s l = true <-> In s l.
Proof.
  unfold Py.mem. rewrite existsb_exists. split.
  - intros [x [Hin Heq]]. apply String.eqb_eq in Heq. now subst.
  - intros Hin. exists s. split; [assumption | apply String.eqb_refl].
Qed.

Lemma union_labels_mem l : forall acc c,
  In c (Pandas.union_labels acc l) <-> In c acc \/ In c l.
Proof.
  induction l as [|x l IH]; intros acc c; simpl.
  - tauto.
  - rewrite IH. destruct (Py.mem x acc) eqn:Hx.
    + apply mem_true_iff in Hx. split; [tauto|].
      intros [H|[H|H]]; subst; auto.
    + rewrite in_app_iff. simpl. tauto.
Qed.

Lemma fold_columns_mem ds : forall acc c,
  In c (fold_left (fun acc d => Pandas.union_labels acc (columns d)) ds acc)
  <-> In c acc \/ exists d, In d ds /\ In c (columns d).
Proof.
  induction ds as [|d ds IH]; intros acc c; simpl.
  - split; [tauto | intros [H|[d [[] _]]]; assumption].
  - rewrite IH, union_labels_mem. split.
    + intros [[H|H]|[d' [Hd Hc]]]; eauto.
    + intros [H|[d' [[->|Hd] Hc]]]; eauto.
Qed.

Lemma all_columns_mem ds c :
  In c (Pandas.all_columns ds) <-> exists d, In d ds /\ In c (columns d).
Proof.
  unfold Pandas.all_columns. rewrite fold_columns_mem. simpl. tauto.
Qed.

Lemma select_by_columns_tables ks ts :
  ks <> [] ->
  select_by_columns ks (table_entries ts) = Ok (table_entries (with_any_column ks ts)).
Proof.
  intros Hks. induction ts as [|[k d] ts IH]; simpl; [reflexivity|].
  rewrite IH. destruct ks as [|k0 ks]; [contradiction|].
  cbn [any_column columns_of bind snd].
  now destruct (existsb _ (k0 :: ks)).
Qed.

Lemma concat_pieces_tables ts : concat_pieces (table_entries ts) = Ok ts.
Proof.
  induction ts as [|[k d] ts IH]; simpl; [reflexivity|].
  now rewrite IH.
Qed.

Lemma select_by_columns_all ks ts :
  select_by_columns ks (table_entries ts) = Ok (table_entries (with_any_column ks ts)).
Proof.
  destruct ks as [|k0 ks]; [|apply select_by_columns_tables; discriminate].
  induction ts as [|[k d] ts IH]; [reflexivity|].
  cbn [table_entries map select_by_columns any_column fst snd bind].
  fold (table_entries ts). rewrite IH. reflexivity.
Qed.

Lemma concat_entries_tables ts :
  ts <> [] ->
  concat_entries (table_entries ts)
  = Ok (mkDF (None :: Pandas.keyed_names (map snd ts))
             (Pandas.all_columns (map snd ts)) (stacked_rows ts)).
Proof.
  intros Hts. unfold concat_entries.
  destruct ts as [|t ts]; [contradiction|].
  rewrite concat_pieces_tables. reflexivity.
Qed.

Lemma combine_vars_many self es ot vk :
  dict_get "variables" self = Some (VDataDict es) ->
  List.length es <> 1%nat ->
  _combine_vars self ot vk = concat_vars (VDataDict es) ot vk.
Proof.
  intros Hget Hlen. unfold _combine_vars, getitem. rewrite Hget. simpl.
  destruct es as [|[k v] [|e r]]; try reflexivity. now contradiction Hlen.
Qed.

Lemma filter_length_lt {A} (f : A -> bool) l x :
  In x l -> f x = false -> (List.length (filter f l) < List.length l)%nat.
Proof.
  induction l as [|y l IH]; simpl; [contradiction|].
  intros [->|Hin] Hf.
  - rewrite Hf. pose proof (List.filter_length_le f l). lia.
  - specialize (IH Hin Hf). destruct (f y); simpl; lia.
Qed.

Lemma kept_has_present_key ks ts :
  with_any_column ks ts <> [] ->
  exists x, In x ks
            /\ Py.mem x (Pandas.all_columns (map snd (with_any_column ks ts))) = true.
Proof.
  intros Hne. destruct (with_any_column ks ts) as [|[k d] r] eqn:Hkept; [contradiction|].
  assert (Hin : In (k, d) (with_any_column ks ts)) by (rewrite Hkept; now left).
  apply filter_In in Hin. destruct Hin as [_ Hany]. simpl in Hany.
  apply existsb_exists in Hany. destruct Hany as [x [Hx Hmem]].
  exists x. split; [assumption|].
  apply mem_true_iff, all_columns_mem. exists d. split; [now left|].
  now apply mem_true_iff.
Qed.

Lemma dict_get_some_mem {V} k (d : list (string * V)) v :
  dict_get k d = Some v -> Py.mem k (keys d) = true.
Proof.
  induction d as [|[k' v'] d IH]; [discriminate|].
  unfold Py.mem, keys in *. cbn [dict_get map fst existsb].
  destruct (String.eqb k k'); [reflexivity | exact IH].
Qed.




(** ** Parameter combiner *)

Lemma dict_get_set_same {V} k (v : V) d : dict_get k (dict_set k v d) = Some v.
Proof.
  induction d as [|[k' v'] d IH]; cbn [dict_set dict_get].
  - now rewrite String.eqb_refl.
  - destruct (String.eqb k k') eqn:E; cbn [dict_get]; rewrite ?E, ?String.eqb_refl; auto.
Qed.

Lemma dict_get_set_other {V} k k' (v : V) d :
  k <> k' -> dict_get k (dict_set k' v d) = dict_get k d.
Proof.
  intros Hne. apply String.eqb_neq in Hne.
  induction d as [|[k0 v0] d IH]; cbn [dict_set dict_get].
  - now rewrite Hne.
  - destruct (String.eqb k' k0) eqn:E; cbn [dict_get].
    + apply String.eqb_eq in E. subst k0. now rewrite Hne.
    + now rewrite IH.
Qed.

Lemma assign_all_cells (fx : list (string * cell)) : forall d,
  assign_all (map (fun kc : string * cell => (fst kc, VCell (snd kc))) fx) (VTable d)
  = (Ok tt, VTable (assign_columns fx d)).
Proof.
  induction fx as [|[k c] fx IH]; intros d; [reflexivity|].
  cbn [map assign_all setitem fst snd assign_columns fold_left]. apply IH.
Qed.

Lemma renumber_from rs : forall s,
  let numbered := map (fun ir : Z * row => ([CInt (fst ir)], snd (snd ir)))
                      (combine (Pandas.range_from s (List.length rs)) rs) in
  map fst numbered = map (fun i => [CInt i]) (Pandas.range_from s (List.length rs))
  /\ map snd numbered = map snd rs.
Proof.
  induction rs as [|r rs IH]; intros s; [split; reflexivity|].
  cbn [List.length Pandas.range_from combine map fst snd].
  destruct (IH (s + 1)) as [H1 H2]. cbn zeta in H1, H2.
  now rewrite H1, H2.
Qed.

Lemma renumber_index rs :
  map fst (Pandas.renumber rs)
  = map (fun i => [CInt i]) (Pandas.range_from 0 (List.length rs)).
Proof. apply (renumber_from rs 0). Qed.

Lemma renumber_records rs : map snd (Pandas.renumber rs) = map snd rs.
Proof. apply (renumber_from rs 0). Qed.

Lemma concat_copies_table d m :
  m <> 0%nat ->
  concat_copies (List.repeat (VTable d) m)
  = Ok (mkDF (Pandas.common_names (List.repeat d m))
             (Pandas.all_columns (List.repeat d m))
             (List.concat (List.repeat (rows d) m))).
Proof.
  intros Hm.
  assert (Hmap : map (fun _ : value => d) (List.repeat (VTable d) m) = List.repeat d m).
  { clear. induction m; simpl; [reflexivity | now rewrite IHm]. }
  assert (Hrows : flat_map rows (List.repeat d m) = List.concat (List.repeat (rows d) m)).
  { clear. induction m; simpl; [reflexivity | now rewrite IHm]. }
  unfold concat_copies. destruct m as [|k]; [contradiction|].
  cbn [List.repeat]. change (VTable d :: List.repeat (VTable d) k)
    with (List.repeat (VTable d) (S k)).
  rewrite Hmap. unfold Pandas.concat. rewrite Hrows. reflexivity.
Qed.

Lemma length_concat_repeat {A} (l : list A) m :
  List.length (List.concat (List.repeat l m)) = (m * List.length l)%nat.
Proof. induction m; simpl; [reflexivity|]. rewrite List.length_app. lia. Qed.

Lemma map_concat_repeat {A B} (f : A -> B) (l : list A) m :
  map f (List.concat (List.repeat l m)) = List.concat (List.repeat (map f l) m).
Proof. induction m; simpl; [reflexivity|]. now rewrite map_app, IHm. Qed.

Lemma df_len_assign_columns fx : forall d, df_len (assign_columns fx d) = df_len d.
Proof.
  induction fx as [|[c x] fx IH]; intros d; [reflexivity|].
  unfold assign_columns in *. cbn [fold_left fst snd]. rewrite IH.
  unfold Pandas.set_column, df_len. cbn [rows]. apply length_map.
Qed.

Lemma row_get_set_same k v r : row_get k (fst r, dict_set k v (snd r)) = v.
Proof. unfold row_get. cbn [snd]. now rewrite dict_get_set_same. Qed.

(** The parameter combiner on a nested container: the varied table
    with the fixed parameters as columns, stacked once per iteration
    under a fresh index. *)
Lemma combine_pars_nested self ps lg v fx n :
  dict_get "parameters" self = Some (VDataDict ps) ->
  dict_get "varied" ps = Some (VTable v) ->
  dict_get "fixed" ps = Some (VMapping fx) ->
  dict_get "log" self = Some (VMapping lg) ->
  dict_get "iterations" lg = Some (CInt n) ->
  0 < n ->
  let dfp0 := assign_columns fx v in
  exists df,
    fst (_combine_pars self) = Ok df
    /\ index_names df = [Some "run_id"]
    /\ index_column df
       = map (fun i => [CInt i]) (Pandas.range_from 0 (Z.to_nat n * df_len v))
    /\ records df = List.concat (List.repeat (records dfp0) (Z.to_nat n)).
Proof.
  intros Hp Hv Hf Hl Hi Hn dfp0.
  unfold _combine_pars, getattr. rewrite Hp, Hv, Hf. cbn [bind items].
  rewrite assign_all_cells. fold dfp0. cbn [fst].
  unfold replicate, getattr.
  rewrite dict_get_set_other by discriminate. rewrite Hl. cbn [bind subscript].
  rewrite Hi. cbn [bind times].
  rewrite concat_copies_table by lia. cbn [bind].
  eexists. split; [reflexivity|].
  unfold index_column, records.
  cbn [Pandas.set_index_name Pandas.reset_index_drop index_names rows columns].
  split; [reflexivity|]. split.
  - rewrite renumber_index, length_concat_repeat.
    fold (df_len dfp0). unfold dfp0. now rewrite df_len_assign_columns.
  - now rewrite renumber_records, map_concat_repeat.
Qed.

(** The columns of the combined parameters are those of the varied
    table with the fixed parameters assigned. *)
Lemma combine_pars_nested_columns self ps lg v fx n df :
  dict_get "parameters" self = Some (VDataDict ps) ->
  dict_get "varied" ps = Some (VTable v) ->
  dict_get "fixed" ps = Some (VMapping fx) ->
  dict_get "log" self = Some (VMapping lg) ->
  dict_get "iterations" lg = Some (CInt n) ->
  0 < n ->
  fst (_combine_pars self) = Ok df ->
  forall c, In c (columns df) <-> In c (columns (assign_columns fx v)).
Proof.
  intros Hp Hv Hf Hl Hi Hn.
  unfold _combine_pars, getattr. rewrite Hp, Hv, Hf. cbn [bind items].
  rewrite assign_all_cells. cbn [fst].
  unfold replicate, getattr.
  rewrite dict_get_set_other by discriminate. rewrite Hl. cbn [bind subscript].
  rewrite Hi. cbn [bind times].
  rewrite concat_copies_table by lia. cbn [bind].
  intros [= <-] c.
  cbn [Pandas.set_index_name Pandas.reset_index_drop columns].
  rewrite all_columns_mem. split.
  - intros [d [Hd Hc]]. apply repeat_spec in Hd. now subst d.
  - intros Hc. exists (assign_columns fx v). split; [|assumption].
    destruct (Z.to_nat n) as [|k] eqn:Ek; [lia | now left].
Qed.

(** C1: for a nested parameters section with [fixed = {'a': 1}] and
    a varied table of three rows, and [log['iterations'] = 2], the
    parameter combiner returns a table of exactly six rows, with
    column [a] equal to 1 in every row, under a fresh index named
    [run_id] running 0..5, the rows being all rows of the first copy
    followed by all rows of the second.  Its columns are [a] and the
    columns of the varied table, so that the selection of column [a]
    succeeds and holds 1 in each of the six rows. *)
Theorem combine_pars_fixed_and_varied :
  forall (self ps : DataDict) (lg : list (string * cell)) (v : DataFrame),
    dict_get "parameters" self = Some (VDataDict ps) ->
    dict_get "varied" ps = Some (VTable v) ->
    dict_get "fixed" ps = Some (VMapping [("a", CInt 1)]) ->
    dict_get "log" self = Some (VMapping lg) ->
    dict_get "iterations" lg = Some (CInt 2) ->
    df_len v = 3%nat ->
    exists df,
      fst (_combine_pars self) = Ok df
      /\ df_len df = 6%nat
      /\ (forall r, In r (rows df) -> row_get "a" r = CInt 1)
      /\ index_names df = [Some "run_id"]
      /\ index_column df = [[CInt 0]; [CInt 1]; [CInt 2]; [CInt 3]; [CInt 4]; [CInt 5]]
      /\ records df = (records (Pandas.set_column "a" (CInt 1) v)
                       ++ records (Pandas.set_column "a" (CInt 1) v))%list
      /\ (forall c, In c (columns df) <-> c = "a" \/ In c (columns v))
      /\ exists col,
           Pandas.getitem ["a"] df = Ok col
           /\ columns col = ["a"]
           /\ records col = List.repeat [("a", CInt 1)] 6.
Proof.
  intros self ps lg v Hp Hv Hf Hl Hi Hlen.
  destruct (combine_pars_nested self ps lg v [("a", CInt 1)] 2 Hp Hv Hf Hl Hi eq_refl)
    as [df [Hdf [Hnames [Hindex Hrec]]]].
  pose proof (combine_pars_nested_columns self ps lg v [("a", CInt 1)] 2 df
                Hp Hv Hf Hl Hi eq_refl Hdf) as Hcols.
  assert (Hcolumns : forall c, In c (columns df) <-> c = "a" \/ In c (columns v)).
  { intros c. rewrite Hcols.
    change (assign_columns [("a", CInt 1)] v) with (Pandas.set_column "a" (CInt 1) v).
    unfold Pandas.set_column. cbn [columns].
    destruct (Py.mem "a" (columns v)) eqn:Ea.
    - apply mem_true_iff in Ea. split; [tauto | intros [->|H]; assumption].
    - rewrite in_app_iff. cbn [In]. split; [intros [H|[<-|[]]] | intros [->|H]]; tauto. }
  rewrite Hlen in Hindex.
  change (assign_columns [("a", CInt 1)] v) with (Pandas.set_column "a" (CInt 1) v) in Hrec.
  change (Z.to_nat 2) with 2%nat in Hindex, Hrec.
  cbn in Hindex. cbn [List.repeat List.concat] in Hrec.
  rewrite List.app_nil_r in Hrec.
  assert (Hlen6 : df_len df = 6%nat).
  { unfold df_len. unfold index_column in Hindex.
    apply (f_equal (@List.length _)) in Hindex.
    now rewrite length_map in Hindex. }
  assert (Hones : forall r, In r (rows df) -> row_get "a" r = CInt 1).
  { intros r Hr.
    assert (Hin : In (snd r) (records df)) by (unfold records; now apply in_map).
    rewrite Hrec in Hin. apply in_app_or in Hin.
    assert (Hone : In (snd r) (records (Pandas.set_column "a" (CInt 1) v))) by tauto.
    unfold records, Pandas.set_column in Hone. cbn [rows] in Hone.
    rewrite map_map in Hone. cbn [snd] in Hone.
    apply in_map_iff in Hone. destruct Hone as [r0 [Heq _]].
    unfold row_get. rewrite <- Heq. now rewrite dict_get_set_same. }
  exists df. do 6 (split; [assumption|]). split; [exact Hcolumns|].
  unfold Pandas.getitem, Pandas.missing_labels. cbn [filter].
  assert (Ha : Py.mem "a" (columns df) = true)
    by (apply mem_true_iff, Hcolumns; now left).
  rewrite Ha. cbn [negb]. eexists. split; [reflexivity|]. split; [reflexivity|].
  unfold records. cbn [rows]. rewrite map_map. cbn [snd map].
  unfold df_len in Hlen6. revert Hlen6 Hones. generalize (rows df). intros rs.
  change 6%nat with (List.length (List.repeat tt 6)).
  generalize 6%nat. intros n. cbn [List.length]. rewrite repeat_length.
  intros <- Hones. induction rs as [|r rs IH]; [reflexivity|].
  cbn [map List.length List.repeat]. rewrite (Hones r (or_introl eq_refl)).
  f_equal. apply IH. intros r' Hr'. apply Hones. now right.
Qed.

Lemma combine_pars_fixed_and_varied_witness :
  exists df,
    fst (_combine_pars sample_experiment) = Ok df
    /\ df_len df = 6%nat
    /\ (forall r, In r (rows df) -> row_get "a" r = CInt 1)
    /\ index_names df = [Some "run_id"]
    /\ index_column df = [[CInt 0]; [CInt 1]; [CInt 2]; [CInt 3]; [CInt 4]; [CInt 5]]
    /\ records df = (records (Pandas.set_column "a" (CInt 1) sample_varied)
                     ++ records (Pandas.set_column "a" (CInt 1) sample_varied))%list
    /\ (forall c, In c (columns df) <-> c = "a" \/ In c (columns sample_varied))
    /\ exists col,
         Pandas.getitem ["a"] df = Ok col
         /\ columns col = ["a"]
         /\ records col = List.repeat [("a", CInt 1)] 6.
Proof.
  apply (combine_pars_fixed_and_varied sample_experiment
           [("fixed", VMapping [("a", CInt 1)]); ("varied", VTable sample_varied)]
           [("name", CStr "sample"); ("iterations", CInt 2)] sample_varied);
    reflexivity.
Defined.

(** ** Arrangement engine *)

Lemma check_keys_app self pre l :
  check_keys self (pre ++ l) = let* _ := check_keys self pre in check_keys self l.
Proof.
  induction pre as [|k pre IH]; [reflexivity|].
  cbn [List.app check_keys].
  destruct (negb (Py.mem k (keys self))); [reflexivity|].
  destruct (negb (Py.mem k supported_keys)); [reflexivity | exact IH].
Qed.

(** C4: with explicit [data_keys], the first requested key that is
    not a key of the container, or is one but lies outside
    [variables], [measures], [parameters], makes [arrange] raise a
    lookup error: one naming that key in the first case, one naming
    the key and listing the supported set in the second.  Nothing has
    been processed at that point: the container is as it was. *)
Theorem arrange_rejects_bad_key :
  forall concat_columns reindex_level query_scenario
         (self : DataDict) (data_keys : keys_arg) (pre post : list string) (key : string)
         (var_keys obj_types measure_keys param_keys scenarios : option keys_arg)
         (index : bool),
    make_list data_keys = (pre ++ key :: post)%list ->
    check_keys self pre = Ok tt ->
    Py.mem key (keys self) && Py.mem key supported_keys = false ->
    arrange concat_columns reindex_level query_scenario self (Some data_keys)
            var_keys obj_types measure_keys param_keys scenarios index
    = (Raise (KeyError
                (if Py.mem key (keys self)
                 then "DataDict.arrange doesn't support '" ++ key
                      ++ "'Supported keys are: ['variables', 'measures', 'parameters']"
                 else "DataDict has no key '" ++ key ++ "'")),
       self).
Proof.
  intros cc rl qs self dk pre post key vk ot mk pk sc idx Hlist Hpre Hbad.
  unfold arrange, prepare_keys. rewrite Hlist, check_keys_app, Hpre.
  cbn [bind check_keys].
  destruct (Py.mem key (keys self)); cbn [negb].
  - cbn [andb] in Hbad. rewrite Hbad. reflexivity.
  - reflexivity.
Qed.

Lemma arrange_rejects_bad_key_witness :
  arrange sample_concat_columns sample_reindex_level sample_query_scenario
          sample_experiment
          (Some (KList ["measures"; "log"; "nowhere"])) None None None None None false
  = (Raise (KeyError "DataDict.arrange doesn't support 'log'Supported keys are: ['variables', 'measures', 'parameters']"),
     sample_experiment).
Proof.
  apply (arrange_rejects_bad_key sample_concat_columns sample_reindex_level
           sample_query_scenario sample_experiment
           (KList ["measures"; "log"; "nowhere"]) ["measures"] ["nowhere"] "log");
    reflexivity.
Defined.

(** C2: a parameters-only arrangement does not return a table.  With
    [data_keys = 'parameters'] the working table is never set, and the
    test on its index raises after the parameter table has been
    built; no choice of the other arguments makes the call return.
    The measures branch, by contrast, does start the working table
    when there is none. *)
Theorem arrange_parameters_only_raises :
  (forall concat_columns reindex_level query_scenario (self : DataDict)
          (var_keys obj_types measure_keys param_keys scenarios : option keys_arg)
          (index : bool),
      is_ok (fst (arrange concat_columns reindex_level query_scenario self
                          (Some (KStr "parameters"))
                          var_keys obj_types measure_keys param_keys scenarios index))
      = false)
  /\ fst (arrange sample_concat_columns sample_reindex_level sample_query_scenario
                  sample_experiment (Some (KStr "parameters"))
                  None None None (Some (KList ["a"])) None false)
     = Raise (AttributeError "'NoneType' object has no attribute 'index'").
Proof.
  split; [|reflexivity].
  intros cc rl qs self vk ot mk pk sc idx.
  unfold arrange, prepare_keys. cbn [make_list check_keys].
  destruct (negb (Py.mem "parameters" (keys self))); [reflexivity|].
  change (negb (Py.mem "parameters" supported_keys)) with false.
  cbn [bind]. unfold arrange_variables, arrange_measures, arrange_parameters.
  change (Py.mem "variables" ["parameters"]) with false.
  change (Py.mem "measures" ["parameters"]) with false.
  change (Py.mem "parameters" ["parameters"]) with true.
  cbn [bind]. destruct (_combine_pars self) as [[dfp|e] self']; [|reflexivity].
  cbn [bind fst].
  destruct pk as [pk|]; [destruct (truthy (Some pk)); [destruct (select pk dfp)|]|];
    reflexivity.
Qed.

(** What [arrange] does leave alone: every section other than
    [parameters] is the same after the call, whatever its outcome. *)
Lemma arrange_frame :
  forall concat_columns reindex_level query_scenario (self : DataDict)
         (data_keys var_keys obj_types measure_keys param_keys scenarios : option keys_arg)
         (index : bool) (k : string),
    k <> "parameters" ->
    dict_get k (snd (arrange concat_columns reindex_level query_scenario self
                             data_keys var_keys obj_types measure_keys param_keys
                             scenarios index))
    = dict_get k self.
Proof.
  intros cc rl qs self dk vk ot mk pk sc idx k Hk.
  assert (Hpars : dict_get k (snd (_combine_pars self)) = dict_get k self).
  { unfold _combine_pars.
    destruct (getattr "parameters" self) as [[| | | | |ps]|]; try reflexivity.
    destruct (getattr "varied" ps); [|reflexivity].
    destruct (let* fixed := getattr "fixed" ps in items fixed); [|reflexivity].
    destruct (assign_all _ _) as [[|] dfp0]; cbn [snd];
      now apply dict_get_set_other. }
  unfold arrange. destruct (prepare_keys self dk) as [ks|]; [|reflexivity].
  destruct (let* dfv := _ in _) as [dfv|]; [|reflexivity].
  unfold arrange_parameters. destruct (Py.mem "parameters" ks); [|reflexivity].
  destruct (_combine_pars self) as [r self']. exact Hpars.
Qed.

(** C9: [arrange] is not read-only on a container with nested
    parameters.  [_combine_pars] assigns the fixed parameters as
    columns of the table stored under [parameters.varied] itself, so
    after a call that asks for the parameters that table has gained
    the column [a]; the two other shapes of the parameters section
    are combined without touching the container. *)
Theorem arrange_changes_varied_table :
  forall concat_columns reindex_level query_scenario,
    let after :=
      snd (arrange concat_columns reindex_level query_scenario
                   sample_experiment (Some (KList ["measures"; "parameters"]))
                   None None None None None false) in
    dict_get "parameters" sample_experiment
    = Some (VDataDict [("fixed", VMapping [("a", CInt 1)]);
                       ("varied", VTable sample_varied)])
    /\ dict_get "parameters" after
       = Some (VDataDict [("fixed", VMapping [("a", CInt 1)]);
                          ("varied",
                           VTable (Pandas.set_column "a" (CInt 1) sample_varied))])
    /\ columns sample_varied = ["x"]
    /\ columns (Pandas.set_column "a" (CInt 1) sample_varied) = ["x"; "a"]
    /\ after <> sample_experiment.
Proof.
  intros cc rl qs after. repeat split. subst after. cbv. discriminate.
Qed.

(** ** Loading *)

Lemma load_entry_store path fs self file :
  load_entry path fs self file = store (slot_of file) (load_file path file fs) self.
Proof.
  unfold load_entry, slot_of.
  destruct (Py.contains "variables_" file); [reflexivity|].
  destruct (Py.contains "parameters_" file); reflexivity.
Qed.

Lemma load_file_unreadable path file fs :
  fails_to_decode path file fs = true -> load_file path file fs = VNone.
Proof.
  unfold fails_to_decode, load_file, read_csv, json_load.
  destruct (String.eqb (Py.last_field "." file) "csv") eqn:Ecsv.
  - destruct (Os.read_file (path ++ file) fs) as [c|]; [|reflexivity].
    destruct (as_csv c); [|reflexivity].
    cbn [andb orb]. apply String.eqb_eq in Ecsv. rewrite Ecsv.
    change (String.eqb "csv" "json") with false. discriminate.
  - destruct (String.eqb (Py.last_field "." file) "json"); [|reflexivity].
    destruct (Os.read_file (path ++ file) fs) as [c|]; [|reflexivity].
    destruct (as_json c); [discriminate | reflexivity].
Qed.

Lemma store_spec s v self :
  match s with Nested section _ => nestable self section | Top _ => True end ->
  exists self1,
    store s v self = Ok self1
    /\ slot_get s self1 = Some v
    /\ (forall s', apart s s' -> slot_get s' self1 = slot_get s' self)
    /\ (forall section, s <> Top section -> nestable self section ->
                        nestable self1 section).
Proof.
  destruct s as [k|sec k]; intros Hshape.
  - exists (dict_set k v self). cbn [store slot_get]. split; [reflexivity|].
    split; [apply dict_get_set_same|]. split.
    + intros [k'|sec' k'] [Hne Hsec]; cbn [slot_get].
      * apply dict_get_set_other. congruence.
      * rewrite dict_get_set_other by congruence. reflexivity.
    + intros sec Hne Hn. unfold nestable in *.
      rewrite dict_get_set_other by congruence. exact Hn.
  - cbn [store]. unfold store_nested, getitem. cbv zeta.
    set (self0 := if dict_has sec self then self else dict_set sec (VDataDict []) self).
    assert (Hes : exists es,
               dict_get sec self0 = Some (VDataDict es)
               /\ forall k', dict_get k' es = slot_get (Nested sec k') self).
    { subst self0. unfold dict_has. cbn [slot_get].
      destruct Hshape as [Hnone | [es Hsome]].
      - rewrite Hnone. exists []. split; [apply dict_get_set_same | reflexivity].
      - rewrite Hsome. exists es. split; [assumption | reflexivity]. }
    assert (Hother : forall k', k' <> sec -> dict_get k' self0 = dict_get k' self).
    { intros k' Hk'. subst self0. destruct (dict_has sec self); [reflexivity|].
      now apply dict_get_set_other. }
    destruct Hes as [es [Hget Hold]]. rewrite Hget. cbn [bind setitem].
    eexists. split; [reflexivity|]. cbn [slot_get].
    rewrite dict_get_set_same. split; [apply dict_get_set_same|]. split.
    + intros [k'|sec' k'] [Hne Hsec]; cbn [slot_get].
      * rewrite dict_get_set_other by assumption. now apply Hother.
      * destruct (String.eqb_spec sec' sec) as [->|Hdiff].
        -- rewrite dict_get_set_same, dict_get_set_other by congruence.
           apply Hold.
        -- rewrite dict_get_set_other by assumption.
           now rewrite Hother.
    + intros sec' _ Hn. unfold nestable in *.
      destruct (String.eqb_spec sec' sec) as [->|Hdiff].
      * right. rewrite dict_get_set_same. eauto.
      * rewrite dict_get_set_other by assumption.
        now rewrite Hother.
Qed.

Lemma separate_apart names f f' :
  separate_slots names -> In f names -> In f' names ->
  slot_of f' <> slot_of f -> apart (slot_of f) (slot_of f').
Proof.
  intros [_ Hclash] Hf Hf' Hne. split; [assumption|].
  destruct (slot_of f) as [k|sec k] eqn:Ef, (slot_of f') as [k'|sec' k'] eqn:Ef';
    try exact I.
  - intros ->. apply (Hclash f' sec' k' Hf' Ef').
    rewrite <- Ef. now apply in_map.
  - intros ->. apply (Hclash f sec k Hf Ef).
    rewrite <- Ef'. now apply in_map.
Qed.

Lemma separate_tail f names : separate_slots (f :: names) -> separate_slots names.
Proof.
  intros [Hnd Hclash]. split.
  - now inversion Hnd.
  - intros f' sec k Hin Hs Htop. apply (Hclash f' sec k); [now right | assumption|].
    cbn [map]. now right.
Qed.

Lemma load_entries_spec dir fs names : forall self,
  separate_slots names ->
  (forall f section k, In f names -> slot_of f = Nested section k ->
                       nestable self section) ->
  exists dd,
    load_entries dir fs names self = Ok dd
    /\ (forall f, In f names -> slot_get (slot_of f) dd = Some (load_file dir f fs))
    /\ (forall s, (forall f, In f names -> apart (slot_of f) s) ->
                  slot_get s dd = slot_get s self).
Proof.
  induction names as [|f names IH]; intros self Hsep Hshape.
  - exists self. cbn [load_entries]. split; [reflexivity|].
    split; [intros f [] | reflexivity].
  - cbn [load_entries]. rewrite load_entry_store.
    destruct (store_spec (slot_of f) (load_file dir f fs) self)
      as [self1 [Hstore [Hnew [Hframe Hkeep]]]].
    { destruct (slot_of f) as [k|sec k] eqn:Ef; [exact I|].
      apply (Hshape f sec k); [now left | assumption]. }
    rewrite Hstore. cbn [bind].
    destruct (IH self1 (separate_tail _ _ Hsep)) as [dd [Hrun [Hall Hrest]]].
    { intros f' sec k Hin Hs. apply Hkeep.
      - intros Htop. destruct Hsep as [_ Hclash].
        apply (Hclash f' sec k); [now right | assumption|].
        cbn [map]. now left.
      - apply (Hshape f' sec k); [now right | assumption]. }
    exists dd. split; [assumption|]. split.
    + intros f0 [<-|Hin]; [|now apply Hall].
      rewrite Hrest; [assumption|].
      intros f' Hin'. apply (separate_apart (f :: names)); try assumption.
      * now right.
      * now left.
      * destruct Hsep as [Hnd _]. inversion Hnd as [|? ? Hnotin _]; subst.
        intros Heq. apply Hnotin. rewrite Heq. now apply in_map.
    + intros s Hs. rewrite Hrest.
      * apply Hframe, Hs. now left.
      * intros f' Hin'. apply Hs. now right.
Qed.

Lemma index_columns_present obj : Pandas.missing_labels (index_columns obj) obj = [].
Proof.
  unfold Pandas.missing_labels, index_columns.
  induction i_cols as [|i l IH]; cbn [filter]; [reflexivity|].
  destruct (Py.mem i (columns obj)) eqn:E; cbn [filter]; [|exact IH].
  now rewrite E.
Qed.

Lemma mem_index_columns obj c :
  Py.mem c (columns obj) = true -> Py.mem c (index_columns obj) = Py.mem c i_cols.
Proof.
  intros Hc. unfold index_columns.
  destruct (Py.mem c i_cols) eqn:E.
  - apply mem_true_iff, filter_In. split; [now apply mem_true_iff | assumption].
  - destruct (Py.mem c (filter _ i_cols)) eqn:E'; [|reflexivity].
    apply mem_true_iff, filter_In in E'. destruct E' as [Hin _].
    apply mem_true_iff in Hin. congruence.
Qed.

(** What [load_file] returns for a table file that decodes. *)
Lemma load_file_table dir f fs obj :
  Py.last_field "." f = "csv" ->
  read_csv (dir ++ f) fs = Some obj ->
  exists t,
    load_file dir f fs = VTable t
    /\ df_len t = df_len obj
    /\ match index_columns obj with
       | [] => t = obj
       | ks =>
           index_names t = map Some ks
           /\ columns t = filter (fun c => negb (Py.mem c i_cols)) (columns obj)
           /\ index_column t = map (fun r => map (fun k => row_get k r) ks) (rows obj)
           /\ records t
              = map (fun r : row =>
                       filter (fun kv : string * cell => negb (Py.mem (fst kv) ks)) (snd r))
                    (rows obj)
       end.
Proof.
  intros Hext Hread. unfold load_file. rewrite Hext, Hread.
  change (String.eqb "csv" "csv") with true. cbv iota.
  fold (index_columns obj).
  destruct (index_columns obj) as [|k ks] eqn:Eks.
  - exists obj. repeat split.
  - unfold Pandas.set_index. rewrite <- Eks, index_columns_present.
    eexists. split; [reflexivity|]. unfold df_len, index_column, records.
    cbn [rows index_names columns].
    split; [apply length_map|]. split; [reflexivity|]. split; [|split].
    + apply filter_ext_in. intros c Hc. f_equal.
      apply mem_index_columns. now apply mem_true_iff.
    + rewrite map_map. reflexivity.
    + rewrite map_map. reflexivity.
Qed.

(** What [load_file] returns for a JSON file that decodes. *)
Lemma load_file_json dir f fs v :
  Py.last_field "." f = "json" ->
  json_load (dir ++ f) fs = Some v ->
  load_file dir f fs = v.
Proof.
  intros Hext Hread. unfold load_file. rewrite Hext, Hread. reflexivity.
Qed.

(** C3, as the code has it: when the files of the directory go to
    separate slots, [load] returns a container (no per-file failure
    raises) in which every file of the directory has its slot set:
    to the object [json.load] decoded for a JSON file; for a table
    file, to the table [read_csv] decoded, with its recognised index
    columns promoted to the index and no row lost; and to [None] for
    a file that cannot be opened or decoded, whose key is therefore
    present, bound to [None].  In each case this is what [load_file]
    returned, and the files after a failed one are processed like the
    others. *)
Theorem load_records_every_file :
  forall (ls : Os.enumeration) (fs : FS) (exp_name : option string)
         (exp_id : option Z) (path dir : string) (names : list string),
    load_dir ls exp_name exp_id path fs = Ok dir ->
    Os.listdir ls dir fs = Ok names ->
    separate_slots names ->
    exists dd,
      load ls exp_name exp_id path fs = Ok dd
      /\ (forall f, In f names -> slot_get (slot_of f) dd = Some (load_file dir f fs))
      /\ (forall f v, In f names -> Py.last_field "." f = "json" ->
                      json_load (dir ++ f) fs = Some v ->
                      slot_get (slot_of f) dd = Some v)
      /\ (forall f obj, In f names -> Py.last_field "." f = "csv" ->
                        read_csv (dir ++ f) fs = Some obj ->
                        exists t,
                          slot_get (slot_of f) dd = Some (VTable t)
                          /\ df_len t = df_len obj
                          /\ match index_columns obj with
                             | [] => t = obj
                             | ks =>
                                 index_names t = map Some ks
                                 /\ columns t
                                    = filter (fun c => negb (Py.mem c i_cols)) (columns obj)
                                 /\ index_column t
                                    = map (fun r => map (fun k => row_get k r) ks) (rows obj)
                                 /\ records t
                                    = map (fun r : row =>
                                             filter (fun kv : string * cell =>
                                                       negb (Py.mem (fst kv) ks)) (snd r))
                                          (rows obj)
                             end)
      /\ (forall f, In f names -> fails_to_decode dir f fs = true ->
                    slot_get (slot_of f) dd = Some VNone).
Proof.
  intros ls fs exp_name exp_id path dir names Hdir Hls Hsep.
  destruct (load_entries_spec dir fs names [] Hsep) as [dd [Hrun [Hall _]]].
  { intros f sec k _ _. now left. }
  exists dd. split; [|split; [|split; [|split]]].
  - unfold load, _load. rewrite Hdir. cbn [bind]. rewrite Hls. exact Hrun.
  - exact Hall.
  - intros f v Hin Hext Hread. rewrite (Hall f Hin). f_equal.
    now apply load_file_json.
  - intros f obj Hin Hext Hread.
    destruct (load_file_table dir f fs obj Hext Hread) as [t [Hfile Hshape]].
    exists t. split; [|exact Hshape]. rewrite (Hall f Hin). now f_equal.
  - intros f Hin Hfail. rewrite (Hall f Hin). f_equal.
    now apply load_file_unreadable.
Qed.

Lemma sample_slots_separate :
  separate_slots ["log.json"; "measures.csv"; "variables_agent.csv"].
Proof.
  split.
  - cbv. repeat constructor; cbn; intuition discriminate.
  - intros f sec k Hin Hs Htop.
    cbv in Hin. cbv in Htop.
    destruct Hin as [<-|[<-|[<-|[]]]]; cbv in Hs; try discriminate.
    injection Hs as <- <-.
    destruct Htop as [H|[H|[H|[]]]]; discriminate.
Qed.

Lemma load_records_every_file_witness :
  exists dd,
    load newest_first (Some "exp") (Some 1) "out" sample_fs = Ok dd
    /\ dict_get "log" dd = Some (VMapping [("name", CStr "exp"); ("iterations", CInt 1)])
    /\ dict_get "measures" dd = Some VNone
    /\ (exists t, slot_get (Nested "variables" "agent") dd = Some (VTable t)
                  /\ df_len t = 1%nat
                  /\ index_names t = [Some "obj_id"; Some "t"]
                  /\ columns t = ["x"]
                  /\ index_column t = [[CInt 1; CInt 0]]
                  /\ records t = [[("x", CInt 5)]]).
Proof.
  destruct (load_records_every_file newest_first sample_fs (Some "exp") (Some 1) "out"
              "out/exp_1/" ["variables_agent.csv"; "measures.csv"; "log.json"]
              eq_refl eq_refl)
    as [dd [Hload [_ [Hjson [Hcsv Hfail]]]]].
  - destruct sample_slots_separate as [Hnd Hclash]. split.
    + change (NoDup (rev (map slot_of ["log.json"; "measures.csv"; "variables_agent.csv"]))).
      apply NoDup_rev, Hnd.
    + intros f sec k Hin Hs Htop. apply (Hclash f sec k).
      * cbn in *. tauto.
      * exact Hs.
      * cbn in *. tauto.
  - exists dd. split; [exact Hload|]. split; [|split].
    + apply (Hjson "log.json"); [cbn; tauto | reflexivity | reflexivity].
    + apply (Hfail "measures.csv"); [cbn; tauto | reflexivity].
    + destruct (Hcsv "variables_agent.csv"
                     (mkDF [None] ["obj_id"; "t"; "x"]
                           [([CInt 0], [("obj_id", CInt 1); ("t", CInt 0); ("x", CInt 5)])]))
        as [t [Hslot [Hlen Hshape]]];
        [cbn; tauto | reflexivity | reflexivity |].
      exists t. split; [exact Hslot|]. split; [exact Hlen|]. exact Hshape.
Defined.

(** C3 as stated fails: the key of the file that does not decode is
    not absent from the loaded container. *)
Lemma load_keeps_key_of_failed_file :
  fails_to_decode "out/exp_1/" "measures.csv" sample_fs = true
  /\ ~ (exists dd, load as_created (Some "exp") (Some 1) "out" sample_fs = Ok dd
                   /\ dict_has "measures" dd = false).
Proof.
  split; [reflexivity|].
  intros [dd [Hload Habsent]].
  vm_compute in Hload. injection Hload as <-. discriminate.
Qed.

(** ** Strings and numerals *)

Lemma all_chars_app p a b :
  all_chars p (a ++ b) = all_chars p a && all_chars p b.
Proof.
  induction a as [|c a IH]; cbn [String.append all_chars]; [reflexivity|].
  now rewrite IH, andb_assoc.
Qed.

Lemma all_chars_weaken (p q : ascii -> bool) s :
  (forall a, p a = true -> q a = true) ->
  all_chars p s = true -> all_chars q s = true.
Proof.
  intros Hpq. induction s as [|c s IH]; cbn [all_chars]; [reflexivity|].
  intros H. apply andb_true_iff in H. destruct H as [Hc Hs].
  now rewrite (Hpq c Hc), IH.
Qed.

Lemma string_of_uint_digits u :
  all_chars is_digit (NilEmpty.string_of_uint u) = true.
Proof. induction u; cbn [NilEmpty.string_of_uint all_chars]; auto. Qed.

Lemma str_numeral z : all_chars is_numeral (Py.str z) = true.
Proof.
  assert (Hd : forall u, all_chars is_numeral (NilZero.string_of_uint u) = true).
  { intros u. apply all_chars_weaken with (p := is_digit).
    - intros a Ha. unfold is_numeral. now rewrite Ha.
    - destruct u; try apply string_of_uint_digits. reflexivity. }
  unfold Py.str. destruct (Z.to_int z) as [u|u]; cbn [NilZero.string_of_int all_chars].
  - apply Hd.
  - now rewrite Hd.
Qed.

Lemma numeral_not_space a : is_numeral a = true -> Py.is_space a = false.
Proof.
  destruct a as [[] [] [] [] [] [] [] []]; try discriminate; reflexivity.
Qed.

Lemma digit_not_sign a :
  is_digit a = true -> Ascii.eqb a "-" = false /\ Ascii.eqb a "+" = false.
Proof.
  destruct a as [[] [] [] [] [] [] [] []]; try discriminate; split; reflexivity.
Qed.

Lemma lstrip_id s :
  all_chars (fun a => negb (Py.is_space a)) s = true -> Py.lstrip s = s.
Proof.
  destruct s as [|a s]; [reflexivity|]. cbn [all_chars Py.lstrip].
  intros H. apply andb_true_iff in H. destruct H as [Ha _].
  apply negb_true_iff in Ha. now rewrite Ha.
Qed.

Lemma rstrip_id s :
  all_chars (fun a => negb (Py.is_space a)) s = true -> Py.rstrip s = s.
Proof.
  induction s as [|a s IH]; [reflexivity|]. cbn [all_chars Py.rstrip].
  intros H. apply andb_true_iff in H. destruct H as [Ha Hs].
  rewrite (IH Hs). apply negb_true_iff in Ha. rewrite Ha.
  now destruct s.
Qed.

Lemma strip_numeral s :
  all_chars is_numeral s = true -> Py.rstrip (Py.lstrip s) = s.
Proof.
  intros H.
  assert (H' : all_chars (fun a => negb (Py.is_space a)) s = true).
  { apply all_chars_weaken with (p := is_numeral); [|assumption].
    intros a Ha. now rewrite (numeral_not_space a Ha). }
  now rewrite lstrip_id, rstrip_id.
Qed.

(** [int(str(z)) == z] *)
Lemma int_str z : Py.int (Py.str z) = Some z.
Proof.
  unfold Py.int. rewrite strip_numeral by apply str_numeral.
  pose proof (DecimalZ.of_to z) as Hz.
  unfold Py.str. destruct z as [|p|p]; [reflexivity| |].
  - cbn [Z.to_int NilZero.string_of_int] in *.
    pose proof (NilZero.usu (Pos.to_uint p) (Unsigned.to_uint_nonnil p)) as Hu.
    pose proof (string_of_uint_digits (Pos.to_uint p)) as Hd.
    assert (Hs : NilZero.string_of_uint (Pos.to_uint p)
                 = NilEmpty.string_of_uint (Pos.to_uint p)).
    { pose proof (Unsigned.to_uint_nonnil p). now destruct (Pos.to_uint p). }
    rewrite <- Hs in Hd.
    destruct (NilZero.string_of_uint (Pos.to_uint p)) as [|a t] eqn:Es.
    + discriminate Hu.
    + cbn [all_chars] in Hd. apply andb_true_iff in Hd. destruct Hd as [Ha _].
      destruct (digit_not_sign a Ha) as [Hm Hp]. rewrite Hm, Hp, Hu.
      cbn [option_map]. f_equal. exact Hz.
  - cbn [Z.to_int NilZero.string_of_int] in *.
    pose proof (NilZero.usu (Pos.to_uint p) (Unsigned.to_uint_nonnil p)) as Hu.
    change (Ascii.eqb "-" "-") with true. cbv iota. rewrite Hu.
    cbn [option_map]. f_equal. exact Hz.
Qed.

Lemma prefix_char c a t :
  String.prefix (String c EmptyString) (String a t) = Ascii.eqb a c.
Proof.
  cbn [String.prefix]. destruct (ascii_dec c a) as [->|Hne].
  - rewrite Ascii.eqb_refl. now destruct t.
  - symmetry. apply Ascii.eqb_neq. congruence.
Qed.

Lemma contains_char c s :
  Py.contains (String c EmptyString) s = negb (lacks c s).
Proof.
  unfold lacks. induction s as [|a s IH]; [reflexivity|].
  cbn [Py.contains all_chars]. rewrite prefix_char, IH.
  now destruct (Ascii.eqb a c).
Qed.

Lemma lacks_of_contains c s :
  Py.contains (String c EmptyString) s = false -> lacks c s = true.
Proof. rewrite contains_char. now destruct (lacks c s). Qed.

Lemma split_nonempty c s : Py.split c s <> [].
Proof.
  destruct s as [|a s]; cbn [Py.split]; [discriminate|].
  destruct (Ascii.eqb a c); [discriminate|].
  destruct (Py.split c s); discriminate.
Qed.

Lemma split_app c a b :
  Py.split c (a ++ String c b) = (Py.split c a ++ Py.split c b)%list.
Proof.
  induction a as [|x a IH]; cbn [String.append Py.split].
  - now rewrite Ascii.eqb_refl.
  - rewrite IH. destruct (Ascii.eqb x c); [reflexivity|].
    pose proof (split_nonempty c a) as Hne.
    destruct (Py.split c a); [contradiction | reflexivity].
Qed.

Lemma split_lacks c s : lacks c s = true -> Py.split c s = [s].
Proof.
  unfold lacks. induction s as [|a s IH]; [reflexivity|].
  cbn [all_chars Py.split]. intros H. apply andb_true_iff in H.
  destruct H as [Ha Hs]. apply negb_true_iff in Ha. now rewrite Ha, (IH Hs).
Qed.

Lemma last_field_app c a b :
  lacks c b = true -> Py.last_field c (a ++ String c b) = b.
Proof.
  intros Hb. unfold Py.last_field. rewrite split_app, (split_lacks c b Hb).
  apply List.last_last.
Qed.

Lemma prefix_app a b : String.prefix a (a ++ b) = true.
Proof.
  induction a as [|x a IH]; cbn [String.append String.prefix]; [now destruct b|].
  now destruct (ascii_dec x x).
Qed.

Lemma contains_app a b : Py.contains a (a ++ b) = true.
Proof.
  destruct (a ++ b) eqn:E; cbn [Py.contains]; rewrite <- E, prefix_app; reflexivity.
Qed.

Lemma lacks_app c a b : lacks c (a ++ b) = lacks c a && lacks c b.
Proof. apply all_chars_app. Qed.

Lemma str_lacks c z : is_numeral c = false -> lacks c (Py.str z) = true.
Proof.
  intros Hc. apply all_chars_weaken with (p := is_numeral); [|apply str_numeral].
  intros a Ha. apply negb_true_iff, Ascii.eqb_neq. intros ->. congruence.
Qed.

(** The trailing field of an experiment directory name is its id. *)
Lemma exp_entry_id name id : Py.int (Py.last_field "_" (exp_entry name id)) = Some id.
Proof.
  unfold exp_entry. cbn [String.append].
  rewrite last_field_app by (now apply str_lacks). apply int_str.
Qed.

Lemma numeral_ascii s : all_chars is_numeral s = true -> Py.is_ascii s = true.
Proof.
  induction s as [|a s IH]; cbn [all_chars Py.is_ascii]; [reflexivity|].
  intros H. apply andb_true_iff in H. destruct H as [Ha Hs]. rewrite (IH Hs).
  destruct a as [[] [] [] [] [] [] [] []]; try discriminate; reflexivity.
Qed.

Lemma exp_entry_ascii name id :
  Py.is_ascii (Py.last_field "_" (exp_entry name id)) = true.
Proof.
  unfold exp_entry. cbn [String.append].
  rewrite last_field_app by (now apply str_lacks).
  apply numeral_ascii, str_numeral.
Qed.

Lemma exp_entry_matches name id : Py.contains name (exp_entry name id) = true.
Proof. apply contains_app. Qed.

Lemma exp_entry_component name id :
  lacks "/" name = true -> Os.steps (exp_entry name id) = [exp_entry name id].
Proof.
  intros Hname. unfold Os.steps.
  rewrite split_lacks.
  - cbn [filter]. unfold exp_entry.
    assert (Hp : Os.proper (name ++ "_" ++ Py.str id) = true).
    { unfold Os.proper. destruct name as [|a name]; [reflexivity|].
      cbn [String.append String.eqb]. destruct name; cbn [String.append];
        destruct (Ascii.eqb a "."); reflexivity. }
    now rewrite Hp.
  - unfold exp_entry. rewrite !lacks_app, Hname. cbn [andb].
    rewrite str_lacks by reflexivity. reflexivity.
Qed.

(** ** Experiment ids *)

Lemma parse_ids_app a b :
  parse_ids (a ++ b)
  = let* x := parse_ids a in let* y := parse_ids b in Ok (x ++ y)%list.
Proof.
  induction a as [|s a IH]; cbn [List.app parse_ids bind].
  - now destruct (parse_ids b).
  - destruct (negb (Py.is_ascii (Py.last_field "_" s))); [reflexivity|].
    destruct (Py.int (Py.last_field "_" s)); [|reflexivity].
    rewrite IH. destruct (parse_ids a); [|reflexivity]. cbn [bind].
    now destruct (parse_ids b).
Qed.

Lemma parse_ids_each names : forall ids,
  parse_ids names = Ok ids ->
  Forall2 (fun s i => Py.int (Py.last_field "_" s) = Some i) names ids.
Proof.
  induction names as [|s names IH]; intros ids; cbn [parse_ids].
  - intros [= <-]. constructor.
  - destruct (negb (Py.is_ascii (Py.last_field "_" s))); [discriminate|].
    destruct (Py.int (Py.last_field "_" s)) as [z|] eqn:Ez; [|discriminate].
    destruct (parse_ids names) as [zs|]; [|discriminate].
    cbn [bind]. intros [= <-]. constructor; auto.
Qed.

Lemma parse_ids_ascii names : forall ids,
  parse_ids names = Ok ids ->
  Forall (fun s => Py.is_ascii (Py.last_field "_" s) = true) names.
Proof.
  induction names as [|s names IH]; intros ids; cbn [parse_ids]; [constructor|].
  destruct (Py.is_ascii (Py.last_field "_" s)) eqn:Ea; cbn [negb]; [|discriminate].
  destruct (Py.int (Py.last_field "_" s)) as [z|]; [|discriminate].
  destruct (parse_ids names) as [zs|]; [|discriminate].
  intros _. constructor; eauto.
Qed.

Lemma max_list_start zs : forall z, z <= max_list z zs.
Proof.
  unfold max_list. induction zs as [|y zs IH]; intros z; cbn [fold_left]; [lia|].
  specialize (IH (Z.max z y)). lia.
Qed.

Lemma max_list_upper zs : forall z i, In i (z :: zs) -> i <= max_list z zs.
Proof.
  induction zs as [|y zs IH]; intros z i Hin.
  - destruct Hin as [Hz|[]]. subst. apply max_list_start.
  - change (max_list z (y :: zs)) with (max_list (Z.max z y) zs).
    destruct Hin as [Hz|[Hy|Hin]].
    + subst. pose proof (max_list_start zs (Z.max i y)). lia.
    + subst. pose proof (max_list_start zs (Z.max z i)). lia.
    + apply IH. now right.
Qed.

Lemma max_list_in zs : forall z, In (max_list z zs) (z :: zs).
Proof.
  unfold max_list. induction zs as [|y zs IH]; intros z; cbn [fold_left].
  - now left.
  - destruct (IH (Z.max z y)) as [H|H].
    + rewrite <- H. destruct (Z.max_spec z y) as [[_ ->]|[_ ->]]; cbn; auto.
    + right. now right.
Qed.

Lemma max_list_snoc z zs i :
  max_list z (zs ++ [i]) = Z.max (max_list z zs) i.
Proof. unfold max_list. now rewrite fold_left_app. Qed.

(** [_last_exp_id] follows the rule of the highest id. *)
Lemma last_id_among_highest name names last :
  last_id_among name names = Ok last -> highest_id name names last.
Proof.
  unfold last_id_among, highest_id.
  destruct (filter (Py.contains name) names) as [|m ms] eqn:Ematch.
  - now intros [= <-].
  - destruct (parse_ids (m :: ms)) as [ids|] eqn:Eids; [|discriminate].
    pose proof (parse_ids_each _ _ Eids) as Heach.
    cbn [bind]. destruct ids as [|z zs]; [inversion Heach|].
    intros [= <-]. split.
    + pose proof (max_list_in zs z) as Hin.
      clear - Heach Hin. revert Hin. generalize (max_list z zs). intros top Hin.
      induction Heach as [|s i l l' Hs _ IH]; [contradiction|].
      destruct Hin as [<-|Hin].
      * exists s. split; [now left | assumption].
      * destruct (IH Hin) as [s' [Hs' Hint]]. exists s'. split; [now right | assumption].
    + intros s Hs.
      assert (Hex : exists i, Py.int (Py.last_field "_" s) = Some i /\ In i (z :: zs)).
      { clear - Heach Hs. induction Heach as [|s0 i l l' Hs0 _ IH]; [contradiction|].
        destruct Hs as [<-|Hs].
        - exists i. split; [assumption | now left].
        - destruct (IH Hs) as [i' [Hi' Hin]]. exists i'. split; [assumption | now right]. }
      destruct Hex as [i [Hi Hin]]. exists i. split; [assumption|].
      now apply max_list_upper.
Qed.

(** Once the directory of the next id is listed, it holds the highest
    id. *)
Lemma last_id_among_next name names last :
  last_id_among name names = Ok last ->
  last_id_among name (names ++ [exp_entry name (last + 1)]) = Ok (last + 1).
Proof.
  unfold last_id_among. rewrite filter_app. cbn [filter].
  rewrite exp_entry_matches.
  destruct (filter (Py.contains name) names) as [|m ms] eqn:Ematch.
  - intros [= <-]. cbn [List.app parse_ids]. rewrite exp_entry_ascii, exp_entry_id.
    reflexivity.
  - destruct (parse_ids (m :: ms)) as [ids|] eqn:Eids; [|discriminate].
    pose proof (parse_ids_each _ _ Eids) as Heach.
    cbn [bind]. destruct ids as [|z zs]; [inversion Heach|].
    intros [= <-].
    change ((m :: ms) ++ [exp_entry name (max_list z zs + 1)])%list
      with (m :: (ms ++ [exp_entry name (max_list z zs + 1)]))%list.
    change (m :: (ms ++ [exp_entry name (max_list z zs + 1)]))%list
      with ((m :: ms) ++ [exp_entry name (max_list z zs + 1)])%list.
    destruct ((m :: ms) ++ [exp_entry name (max_list z zs + 1)])%list eqn:Eapp;
      [discriminate|]. rewrite <- Eapp.
    rewrite parse_ids_app, Eids. cbn [bind parse_ids].
    rewrite exp_entry_ascii, exp_entry_id.
    cbn [negb bind List.app]. rewrite max_list_snoc. f_equal. lia.
Qed.

(** ** The order of a listing *)

Lemma parse_ids_total names :
  (forall s, In s names ->
             Py.is_ascii (Py.last_field "_" s) = true
             /\ exists i, Py.int (Py.last_field "_" s) = Some i) ->
  exists ids, parse_ids names = Ok ids.
Proof.
  induction names as [|s names IH]; intros Hall; [now exists []|].
  cbn [parse_ids]. destruct (Hall s (or_introl eq_refl)) as [-> [i ->]].
  destruct IH as [ids ->]; [intros s' Hs'; apply Hall; now right|].
  now exists (i :: ids).
Qed.

Lemma last_id_among_total name names :
  (forall s, In s (filter (Py.contains name) names) ->
             Py.is_ascii (Py.last_field "_" s) = true
             /\ exists i, Py.int (Py.last_field "_" s) = Some i) ->
  exists last, last_id_among name names = Ok last.
Proof.
  intros Hall. unfold last_id_among.
  destruct (filter (Py.contains name) names) as [|m ms] eqn:Ef; [now exists 0|].
  destruct (parse_ids_total (m :: ms) Hall) as [ids Hids]. rewrite Hids. cbn [bind].
  destruct ids as [|z zs]; eauto.
Qed.

Lemma last_id_among_parsed name names last :
  last_id_among name names = Ok last ->
  forall s, In s (filter (Py.contains name) names) ->
            Py.is_ascii (Py.last_field "_" s) = true
            /\ exists i, Py.int (Py.last_field "_" s) = Some i.
Proof.
  unfold last_id_among.
  destruct (filter (Py.contains name) names) as [|m ms]; [intros _ s []|].
  destruct (parse_ids (m :: ms)) as [ids|] eqn:Eids; [|discriminate].
  intros _ s Hs. split.
  - pose proof (parse_ids_ascii _ _ Eids) as Hascii.
    rewrite Forall_forall in Hascii. now apply Hascii.
  - pose proof (parse_ids_each _ _ Eids) as Heach. clear - Heach Hs.
    induction Heach as [|s0 i l l' Hs0 _ IH]; [contradiction|].
    destruct Hs as [<-|Hs]; eauto.
Qed.

(** Two listings with the same entries give the same highest id. *)
Lemma last_id_among_same_entries name names names' last :
  (forall s, In s names <-> In s names') ->
  last_id_among name names = Ok last ->
  last_id_among name names' = Ok last.
Proof.
  intros Hsame Hlast.
  pose proof (last_id_among_highest _ _ _ Hlast) as Hhigh.
  assert (Hmatch : forall s, In s (filter (Py.contains name) names)
                             <-> In s (filter (Py.contains name) names')).
  { intros s. rewrite !filter_In, Hsame. reflexivity. }
  assert (Hparse : forall s, In s (filter (Py.contains name) names') ->
                             Py.is_ascii (Py.last_field "_" s) = true
                             /\ exists i, Py.int (Py.last_field "_" s) = Some i).
  { intros s Hs. apply Hmatch in Hs.
    now apply (last_id_among_parsed name names last). }
  destruct (last_id_among_total name names' Hparse) as [last' Hlast'].
  rewrite Hlast'. f_equal.
  pose proof (last_id_among_highest _ _ _ Hlast') as Hhigh'.
  unfold highest_id in Hhigh, Hhigh'.
  destruct (filter (Py.contains name) names) as [|m ms] eqn:Ef,
           (filter (Py.contains name) names') as [|m' ms'] eqn:Ef'.
  - congruence.
  - exfalso. apply (proj2 (Hmatch m')). now left.
  - exfalso. apply (proj1 (Hmatch m)). now left.
  - destruct Hhigh as [[s [Hs Hz]] Hupper], Hhigh' as [[s' [Hs' Hz']] Hupper'].
    destruct (Hupper' s (proj1 (Hmatch s) Hs)) as [i [Hi Hle]].
    destruct (Hupper s' (proj2 (Hmatch s') Hs')) as [i' [Hi' Hle']].
    rewrite Hz in Hi. rewrite Hz' in Hi'. injection Hi as <-. injection Hi' as <-. lia.
Qed.

Lemma rearranges_in ls names s : rearranges ls -> In s (ls names) <-> In s names.
Proof.
  intros Hls. split; apply Permutation_in; [apply Hls | apply Permutation_sym, Hls].
Qed.

Lemma as_created_rearranges : rearranges as_created.
Proof. intros names. apply Permutation_refl. Qed.

Lemma newest_first_rearranges : rearranges newest_first.
Proof. intros names. apply Permutation_sym, Permutation_rev. Qed.

(** The highest id is the same in whatever order the directory is
    listed. *)
Lemma last_id_among_listed ls name names last :
  rearranges ls ->
  last_id_among name (ls names) = Ok last <-> last_id_among name names = Ok last.
Proof.
  intros Hls. split; apply last_id_among_same_entries; intros s.
  - now apply rearranges_in.
  - symmetry. now apply rearranges_in.
Qed.

(** ** The file system *)

Lemma location_eqb_spec a : forall b, reflect (a = b) (location_eqb a b).
Proof.
  induction a as [|x a IH]; intros [|y b]; cbn [location_eqb]; try (constructor; congruence).
  destruct (String.eqb_spec x y) as [->|Hne]; cbn [andb].
  - destruct (IH b) as [->|Hne]; constructor; congruence.
  - constructor. congruence.
Qed.

Lemma location_eqb_refl a : location_eqb a a = true.
Proof. now destruct (location_eqb_spec a a). Qed.

Lemma location_eqb_neq a b : a <> b -> location_eqb a b = false.
Proof. intros H. now destruct (location_eqb_spec a b). Qed.

Lemma at_get_set_same {V} k (v : V) t : at_get k (at_set k v t) = Some v.
Proof.
  induction t as [|[k' v'] t IH]; cbn [at_set at_get].
  - now rewrite location_eqb_refl.
  - destruct (location_eqb k k') eqn:E; cbn [at_get];
      rewrite ?E, ?location_eqb_refl; auto.
Qed.

Lemma at_get_set_other {V} k k' (v : V) t :
  k <> k' -> at_get k (at_set k' v t) = at_get k t.
Proof.
  intros Hne. apply location_eqb_neq in Hne.
  induction t as [|[k0 v0] t IH]; cbn [at_set at_get].
  - now rewrite Hne.
  - destruct (location_eqb_spec k' k0) as [<-|Hk]; cbn [at_get].
    + now rewrite Hne.
    + now rewrite IH.
Qed.

Lemma add_entry_get parent name fs l :
  l <> parent ->
  at_get l (dirs (Os.add_entry parent name fs)) = at_get l (dirs fs).
Proof.
  intros Hne. unfold Os.add_entry.
  destruct (at_get parent (dirs fs)) as [names|]; [|reflexivity].
  destruct (Py.mem name names); [reflexivity|].
  cbn [dirs]. now apply at_get_set_other.
Qed.

Lemma add_entry_exists parent name fs l :
  Os.exists_dir l (Os.add_entry parent name fs) = Os.exists_dir l fs.
Proof.
  unfold Os.exists_dir.
  destruct (location_eqb_spec l parent) as [->|Hne].
  - unfold Os.add_entry.
    destruct (at_get parent (dirs fs)) as [names|] eqn:E; [|now rewrite E].
    destruct (Py.mem name names); [now rewrite E|].
    cbn [dirs]. now rewrite at_get_set_same.
  - now rewrite add_entry_get.
Qed.

Lemma add_entry_listing parent name names fs :
  at_get parent (dirs fs) = Some names ->
  Py.mem name names = false ->
  at_get parent (dirs (Os.add_entry parent name fs)) = Some (names ++ [name])%list.
Proof.
  intros Hget Hmem. unfold Os.add_entry. rewrite Hget, Hmem.
  cbn [dirs]. apply at_get_set_same.
Qed.

Lemma ensure_dir_exists rl : forall fs,
  Os.exists_dir (rev rl) fs = true -> Os.ensure_dir rl fs = fs.
Proof.
  destruct rl as [|n above]; intros fs H; cbn [Os.ensure_dir]; [reflexivity|].
  now rewrite H.
Qed.

Lemma snoc_neq {A} (l : list A) x : l <> (l ++ [x])%list.
Proof.
  intros H. apply (f_equal (@List.length A)) in H.
  rewrite List.length_app in H. cbn in H. lia.
Qed.

(** A directory that [makedirs] creates starts empty. *)
Lemma ensure_dir_fresh n above fs :
  Os.exists_dir (rev (n :: above)) fs = false ->
  at_get (rev (n :: above)) (dirs (Os.ensure_dir (n :: above) fs)) = Some [].
Proof.
  intros H. cbn [Os.ensure_dir]. rewrite H.
  rewrite add_entry_get.
  - cbn [dirs]. apply at_get_set_same.
  - cbn [rev]. intros Heq. symmetry in Heq. now apply snoc_neq in Heq.
Qed.

Lemma comps_app a b :
  a <> EmptyString ->
  Os.comps (a ++ String "/" b) = (Os.comps a ++ Os.steps b)%list.
Proof.
  intros Ha. unfold Os.comps, Os.steps.
  rewrite split_app, filter_app, List.app_assoc. f_equal. f_equal.
  destruct a as [|c a]; [contradiction|].
  cbn [String.append]. now rewrite !prefix_char.
Qed.

Lemma append_assoc (a b c : string) : (a ++ b) ++ c = a ++ (b ++ c).
Proof. induction a as [|x a IH]; cbn [String.append]; [reflexivity | now rewrite IH]. Qed.

(** A file name that ends in an extension is a genuine component. *)
Lemma steps_with_extension ext s :
  Py.split "/" ext = [ext] -> Os.proper ext = true -> Os.steps (s ++ ext) <> [].
Proof.
  intros Hsplit Hproper.
  assert (Hex : exists x, In x (Py.split "/" (s ++ ext)) /\ Os.proper x = true).
  { induction s as [|a s IH]; cbn [String.append].
    - exists ext. rewrite Hsplit. split; [now left | assumption].
    - destruct IH as [x [Hin Hx]]. cbn [Py.split].
      destruct (Ascii.eqb a "/"); [exists x; split; [now right | assumption]|].
      destruct (Py.split "/" (s ++ ext)) as [|h r]; [contradiction|].
      destruct Hin as [<-|Hin].
      + exists (String a h). split; [now left|].
        unfold Os.proper in *. cbn [String.eqb].
        destruct h; [discriminate|]. cbn [String.eqb].
        now destruct (Ascii.eqb a ".").
      + exists x. split; [now right | assumption]. }
  destruct Hex as [x [Hin Hx]]. unfold Os.steps. intros Hnil.
  assert (Hf : In x (filter Os.proper (Py.split "/" (s ++ ext))))
    by (apply filter_In; now split).
  now rewrite Hnil in Hf.
Qed.

Lemma keeps_refl l fs : keeps l fs fs.
Proof. split; reflexivity. Qed.

Lemma keeps_trans l fs1 fs2 fs3 : keeps l fs1 fs2 -> keeps l fs2 fs3 -> keeps l fs1 fs3.
Proof.
  intros [H1 H2] [H3 H4]. split.
  - now rewrite H3.
  - intros l'. now rewrite H4.
Qed.

(** Files written below a directory do not show in the listings
    above it. *)
Lemma write_file_keeps dir rest f fs l :
  dir <> EmptyString -> Os.steps rest <> [] ->
  (List.length l < List.length (Os.comps dir))%nat ->
  keeps l fs (snd (Os.write_file (dir ++ String "/" rest) f fs)).
Proof.
  intros Hdir Hrest Hlen. unfold Os.write_file.
  rewrite comps_app by assumption.
  destruct (Os.exists_dir _ fs); [|apply keeps_refl].
  cbn [snd]. split.
  - rewrite add_entry_get; [reflexivity|].
    rewrite List.removelast_app by assumption. intros ->.
    rewrite List.length_app in Hlen. lia.
  - intros l'. now rewrite add_entry_exists.
Qed.

Lemma csv_component s : Os.steps (s ++ ".csv") <> [].
Proof. now apply steps_with_extension. Qed.

Lemma json_component s : Os.steps (s ++ ".json") <> [].
Proof. now apply steps_with_extension. Qed.

Section SaveKeeps.
Variable to_csv : DataFrame -> file.
Variable json_dump : value -> file * result unit.
Variable dir : string.
Variable l : location.
Hypothesis Hdir : dir <> EmptyString.
Hypothesis Hlen : (List.length l < List.length (Os.comps dir))%nat.

Lemma dump_to_keeps rest o fs :
  Os.steps rest <> [] ->
  keeps l fs (snd (dump_to json_dump (dir ++ String "/" rest) o fs)).
Proof.
  intros Hrest. unfold dump_to. destruct (json_dump o) as [f r].
  pose proof (write_file_keeps dir rest f fs l Hdir Hrest Hlen) as Hw.
  destruct (Os.write_file (dir ++ String "/" rest) f fs) as [[u|e] fs']; exact Hw.
Qed.

Lemma for_each_keeps {A} (body : A -> FS -> result unit * FS) xs :
  (forall x fs, keeps l fs (snd (body x fs))) ->
  forall fs, keeps l fs (snd (for_each body xs fs)).
Proof.
  intros Hbody. induction xs as [|x xs IH]; intros fs; cbn [for_each].
  - apply keeps_refl.
  - specialize (Hbody x fs). unfold and_then.
    destruct (body x fs) as [[u|e] fs']; cbn [snd] in *; [|assumption].
    eapply keeps_trans; [eassumption | apply IH].
Qed.

Lemma save_inner_keeps key ko fs :
  keeps l fs (snd (save_inner to_csv json_dump dir key ko fs)).
Proof.
  destruct ko as [k o]. unfold save_inner.
  destruct o; try apply keeps_refl.
  - cbn [String.append].
    replace (key ++ String "_" (k ++ ".csv")) with ((key ++ String "_" k) ++ ".csv").
    + apply write_file_keeps; auto using csv_component.
    + rewrite append_assoc. reflexivity.
  - cbn [String.append].
    replace (key ++ String "_" (k ++ ".json")) with ((key ++ String "_" k) ++ ".json").
    + apply dump_to_keeps, json_component.
    + rewrite append_assoc. reflexivity.
  - cbn [String.append].
    replace (key ++ String "_" (k ++ ".json")) with ((key ++ String "_" k) ++ ".json").
    + apply dump_to_keeps, json_component.
    + rewrite append_assoc. reflexivity.
Qed.

Lemma save_entry_keeps ko fs :
  keeps l fs (snd (save_entry to_csv json_dump dir ko fs)).
Proof.
  destruct ko as [key o]. unfold save_entry.
  destruct o; try apply keeps_refl.
  - cbn [String.append]. apply write_file_keeps; auto using csv_component.
  - cbn [String.append]. apply dump_to_keeps, json_component.
  - apply for_each_keeps. intros x fs'. apply save_inner_keeps.
Qed.

End SaveKeeps.

Lemma ensure_dir_mono rl : forall fs l,
  Os.exists_dir l fs = true -> Os.exists_dir l (Os.ensure_dir rl fs) = true.
Proof.
  induction rl as [|n above IH]; intros fs l H; cbn [Os.ensure_dir]; [assumption|].
  destruct (Os.exists_dir (rev (n :: above)) fs); [assumption|].
  rewrite add_entry_exists. unfold Os.exists_dir. cbn [dirs].
  destruct (location_eqb_spec l (rev (n :: above))) as [->|Hne].
  - now rewrite at_get_set_same.
  - rewrite at_get_set_other by assumption. apply (IH fs l H).
Qed.

(** The entry of the next id is not yet listed. *)
Lemma next_entry_unlisted name names last :
  last_id_among name names = Ok last ->
  Py.mem (exp_entry name (last + 1)) names = false.
Proof.
  intros Hlast. apply last_id_among_highest in Hlast.
  destruct (Py.mem (exp_entry name (last + 1)) names) eqn:Hmem; [|reflexivity].
  apply mem_true_iff in Hmem.
  assert (Hin : In (exp_entry name (last + 1)) (filter (Py.contains name) names)).
  { apply filter_In. split; [assumption | apply exp_entry_matches]. }
  unfold highest_id in Hlast.
  destruct (filter (Py.contains name) names) as [|m ms]; [contradiction|].
  destruct Hlast as [_ Hupper]. destruct (Hupper _ Hin) as [i [Hi Hle]].
  rewrite exp_entry_id in Hi. injection Hi as <-. lia.
Qed.

(** What the first statement of [save] leaves of the target path. *)
Lemma base_path_ready path here fs fs' :
  (if Py.mem path here then (Ok tt, fs) else Os.makedirs path fs) = (Ok tt, fs') ->
  listing path fs' = listing path fs
  /\ forall l, Os.exists_dir l fs = true -> Os.exists_dir l fs' = true.
Proof.
  destruct (Py.mem path here).
  - intros [= <-]. split; auto.
  - unfold Os.makedirs. destruct path as [|c p]; [discriminate|].
    destruct (Os.exists_dir (Os.comps (String c p)) fs) eqn:Hex; [discriminate|].
    intros [= <-]. split; [|intros l; apply ensure_dir_mono].
    unfold listing. unfold Os.exists_dir in Hex.
    destruct (at_get (Os.comps (String c p)) (dirs fs)) eqn:Hget; [discriminate|].
    destruct (rev (Os.comps (String c p))) as [|n above] eqn:Hrev.
    + cbn [Os.ensure_dir]. now rewrite Hget.
    + assert (Hl : Os.comps (String c p) = rev (n :: above))
        by (now rewrite <- Hrev, rev_involutive).
      rewrite Hl, ensure_dir_fresh; [reflexivity|].
      unfold Os.exists_dir. now rewrite <- Hl, Hget.
Qed.

Lemma save_creates_next to_csv json_dump ls self given exp_name path fs fs1 :
  rearranges ls ->
  given_name self given = Ok exp_name ->
  lacks "/" (Py.replace " " "_" exp_name) = true ->
  save to_csv json_dump ls self given None path fs = (Ok tt, fs1) ->
  exists last,
    last_id_among (Py.replace " " "_" exp_name) (listing path fs) = Ok last
    /\ listing path fs1
       = (listing path fs ++ [exp_entry (Py.replace " " "_" exp_name) (last + 1)])%list
    /\ Os.exists_dir
         (Os.comps path ++ [exp_entry (Py.replace " " "_" exp_name) (last + 1)])%list
         fs1 = true
    /\ Os.exists_dir
         (Os.comps path ++ [exp_entry (Py.replace " " "_" exp_name) (last + 1)])%list
         fs = false.
Proof.
  set (name := Py.replace " " "_" exp_name). intros Hls Hgiven Hname.
  unfold save. destruct (Os.listdir ls "." fs) as [here|]; [|discriminate].
  destruct (if Py.mem path here then (Ok tt, fs) else Os.makedirs path fs)
    as [[u|e] fs_mid] eqn:Ebase; cbn [and_then]; [|discriminate].
  destruct u. destruct (base_path_ready _ _ _ _ Ebase) as [Hlisting Hmono].
  unfold save_target. rewrite Hgiven. cbn [bind]. fold name. unfold _last_exp_id.
  destruct (Os.listdir ls path fs_mid) as [listed|] eqn:Els; cbn [bind]; [|discriminate].
  destruct (last_id_among name listed) as [last|] eqn:Elisted; cbn [bind]; [|discriminate].
  assert (Hpath : path <> EmptyString
                  /\ exists names, at_get (Os.comps path) (dirs fs_mid) = Some names
                                   /\ listed = ls names).
  { unfold Os.listdir in Els. destruct path; [discriminate|].
    destruct (at_get _ (dirs fs_mid)) as [names|]; [|discriminate].
    injection Els as <-. split; [discriminate | now exists names]. }
  destruct Hpath as [Hpath [names [Hget ->]]].
  assert (Elast : last_id_among name names = Ok last)
    by (now apply (last_id_among_listed ls)).
  assert (Hnames : listing path fs = names).
  { rewrite <- Hlisting. unfold listing. now rewrite Hget. }
  set (entry := exp_entry name (last + 1)).
  assert (Hdir : exp_dir path name (last + 1) = path ++ String "/" entry) by reflexivity.
  assert (Hcomps : Os.comps (exp_dir path name (last + 1))
                   = (Os.comps path ++ [entry])%list).
  { rewrite Hdir, comps_app by assumption. unfold entry.
    now rewrite exp_entry_component. }
  assert (Hnonempty : exp_dir path name (last + 1) <> EmptyString).
  { rewrite Hdir. destruct path; [contradiction | discriminate]. }
  unfold Os.makedirs.
  destruct (exp_dir path name (last + 1)) as [|c rest] eqn:Edir; [contradiction|].
  rewrite <- Edir in *. rewrite Hcomps.
  destruct (Os.exists_dir (Os.comps path ++ [entry])%list fs_mid) eqn:Hex;
    cbn [and_then]; [discriminate|].
  rewrite rev_app_distr. cbn [rev List.app Os.ensure_dir].
  rewrite rev_involutive, Hex.
  rewrite ensure_dir_exists
    by (rewrite rev_involutive; unfold Os.exists_dir; now rewrite Hget).
  set (fs2 := Os.add_entry (Os.comps path) entry _).
  assert (Hget2 : at_get (Os.comps path) (dirs fs2) = Some (names ++ [entry])%list).
  { apply add_entry_listing.
    - cbn [dirs]. rewrite at_get_set_other by apply snoc_neq. assumption.
    - apply next_entry_unlisted. assumption. }
  assert (Hex2 : Os.exists_dir (Os.comps path ++ [entry])%list fs2 = true).
  { unfold fs2. rewrite add_entry_exists. unfold Os.exists_dir. cbn [dirs].
    now rewrite at_get_set_same. }
  intros Hrun.
  assert (Hkeeps : keeps (Os.comps path) fs2 fs1).
  { pose proof (for_each_keeps (Os.comps path)
                  (save_entry to_csv json_dump (exp_dir path name (last + 1))) self
                  (fun x fs' => save_entry_keeps to_csv json_dump
                                  (exp_dir path name (last + 1)) (Os.comps path)
                                  Hnonempty
                                  ltac:(rewrite Hcomps, List.length_app; cbn; lia)
                                  x fs') fs2) as Hk.
    rewrite Hrun in Hk. exact Hk. }
  destruct Hkeeps as [Hsame Hdirs].
  exists last. rewrite Hnames. split; [assumption|]. split; [|split].
  - unfold listing. now rewrite Hsame, Hget2.
  - now rewrite Hdirs.
  - destruct (Os.exists_dir (Os.comps path ++ [entry])%list fs) eqn:Hold; [|exact Hold].
    apply Hmono in Hold. congruence.
Qed.

(** C8: a [save] without an explicit [exp_id] takes one more than the
    highest id found under the target path, that is, among the
    entries whose name contains the experiment name, the greatest
    trailing underscore-delimited integer, or zero when no entry
    matches; it creates the directory of that id.  A second such
    [save] for the same experiment name therefore finds the first
    directory's id as the highest one and creates the directory of
    the id one greater. *)
Theorem save_takes_next_id :
  forall to_csv json_dump (ls : Os.enumeration) (self1 self2 : DataDict)
         (given1 given2 : option string) (exp_name path : string) (fs fs1 fs2 : FS),
    rearranges ls ->
    given_name self1 given1 = Ok exp_name ->
    given_name self2 given2 = Ok exp_name ->
    lacks "/" (Py.replace " " "_" exp_name) = true ->
    save to_csv json_dump ls self1 given1 None path fs = (Ok tt, fs1) ->
    save to_csv json_dump ls self2 given2 None path fs1 = (Ok tt, fs2) ->
    let name := Py.replace " " "_" exp_name in
    exists id,
      highest_id name (listing path fs) (id - 1)
      /\ listing path fs1 = (listing path fs ++ [exp_entry name id])%list
      /\ Os.exists_dir (Os.comps path ++ [exp_entry name id])%list fs = false
      /\ Os.exists_dir (Os.comps path ++ [exp_entry name id])%list fs1 = true
      /\ highest_id name (listing path fs1) id
      /\ listing path fs2 = (listing path fs1 ++ [exp_entry name (id + 1)])%list
      /\ Os.exists_dir (Os.comps path ++ [exp_entry name (id + 1)])%list fs1 = false
      /\ Os.exists_dir (Os.comps path ++ [exp_entry name (id + 1)])%list fs2 = true.
Proof.
  intros to_csv json_dump ls self1 self2 given1 given2 exp_name path fs fs1 fs2
         Hperm Hg1 Hg2 Hname Hsave1 Hsave2 name.
  destruct (save_creates_next _ _ _ _ _ _ _ _ _ Hperm Hg1 Hname Hsave1)
    as [last [Hlast [Hls1 [Hnew1 Hold1]]]].
  destruct (save_creates_next _ _ _ _ _ _ _ _ _ Hperm Hg2 Hname Hsave2)
    as [last2 [Hlast2 [Hls2 [Hnew2 Hold2]]]].
  fold name in Hlast, Hls1, Hnew1, Hold1, Hlast2, Hls2, Hnew2, Hold2.
  assert (Hnext : last2 = last + 1).
  { rewrite Hls1, (last_id_among_next name _ last Hlast) in Hlast2. congruence. }
  subst last2. exists (last + 1).
  replace (last + 1 - 1) with last by lia.
  repeat split; try assumption.
  - now apply last_id_among_highest.
  - apply last_id_among_highest. rewrite Hls1. now apply last_id_among_next.
Qed.

Lemma save_takes_next_id_witness :
  exists id,
    highest_id "exp" (listing "out" sample_store) (id - 1)
    /\ listing "out" sample_store_1 = (listing "out" sample_store ++ [exp_entry "exp" id])%list
    /\ Os.exists_dir (Os.comps "out" ++ [exp_entry "exp" id])%list sample_store = false
    /\ Os.exists_dir (Os.comps "out" ++ [exp_entry "exp" id])%list sample_store_1 = true
    /\ highest_id "exp" (listing "out" sample_store_1) id
    /\ listing "out" sample_store_2
       = (listing "out" sample_store_1 ++ [exp_entry "exp" (id + 1)])%list
    /\ Os.exists_dir (Os.comps "out" ++ [exp_entry "exp" (id + 1)])%list sample_store_1
       = false
    /\ Os.exists_dir (Os.comps "out" ++ [exp_entry "exp" (id + 1)])%list sample_store_2
       = true.
Proof.
  apply (save_takes_next_id sample_to_csv sample_json_dump newest_first
           sample_experiment sample_experiment (Some "exp") (Some "exp")
           "exp" "out" sample_store sample_store_1 sample_store_2);
    try reflexivity.
  intros names. apply Permutation_sym, Permutation_rev.
Defined.

(** ** Remarks on the edges of the statements above *)

(** Outside separate slots a per-file failure can end the whole load:
    the [None] stored under [variables] for the corrupt file is not a
    container the next file could be stored in. *)
Remark load_raises_on_section_clash :
  load as_created (Some "exp") (Some 1) "out" sample_clash_fs
  = Raise (TypeError "'NoneType' object does not support item assignment").
Proof. reflexivity. Qed.

(** The parameter combiner on a flat mapping or a table builds its
    result without touching the container. *)
Remark combine_pars_flat_keeps_container self m d :
  dict_get "parameters" self = Some (VMapping m)
  \/ dict_get "parameters" self = Some (VTable d) ->
  snd (_combine_pars self) = self.
Proof.
  unfold _combine_pars, getattr. intros [H|H]; rewrite H; reflexivity.
Qed.

(** * Further properties *)

(** ** Experiment ids, continued *)

Lemma parse_ids_fails names :
  (forall s, In s names -> Py.is_ascii (Py.last_field "_" s) = true) ->
  (exists s, In s names /\ Py.int (Py.last_field "_" s) = None) ->
  exists bad,
    In bad names
    /\ Py.int (Py.last_field "_" bad) = None
    /\ parse_ids names = Raise (invalid_literal (Py.last_field "_" bad)).
Proof.
  induction names as [|s names IH]; intros Hascii [s0 [Hin Hnone]]; [contradiction|].
  cbn [parse_ids]. rewrite (Hascii s (or_introl eq_refl)). cbn [negb].
  destruct (Py.int (Py.last_field "_" s)) as [z|] eqn:Ez.
  - destruct Hin as [<-|Hin]; [congruence|].
    destruct IH as [bad [Hbad [Hint Hparse]]].
    { intros s' Hs'. apply Hascii. now right. }
    { now exists s0. }
    exists bad. rewrite Hparse. repeat split; [now right | assumption].
  - exists s. repeat split; [now left | assumption].
Qed.

(** X1: when the entries of the target path whose name contains the
    experiment name end in ASCII text, and one of them does not end in
    an underscore-delimited integer, the id discovery raises the
    [ValueError] of [int] on such an entry, in whatever order the
    directory is listed; a [save] without an explicit id then raises
    it too and writes nothing. *)
Theorem save_rejects_non_integer_suffix :
  forall to_csv json_dump (ls : Os.enumeration) (self : DataDict) (given : option string)
         (exp_name path : string) (fs : FS) (here names : list string) (s : string),
    Os.listdir ls "." fs = Ok here ->
    Py.mem path here = true ->
    Os.listdir ls path fs = Ok names ->
    given_name self given = Ok exp_name ->
    (forall s', In s' names -> Py.contains (Py.replace " " "_" exp_name) s' = true ->
                Py.is_ascii (Py.last_field "_" s') = true) ->
    In s names ->
    Py.contains (Py.replace " " "_" exp_name) s = true ->
    Py.int (Py.last_field "_" s) = None ->
    exists bad,
      In bad names
      /\ Py.contains (Py.replace " " "_" exp_name) bad = true
      /\ Py.int (Py.last_field "_" bad) = None
      /\ _last_exp_id ls (Py.replace " " "_" exp_name) path fs
         = Raise (invalid_literal (Py.last_field "_" bad))
      /\ save to_csv json_dump ls self given None path fs
         = (Raise (invalid_literal (Py.last_field "_" bad)), fs).
Proof.
  intros to_csv json_dump ls self given exp_name path fs here names s
         Hhere Hmem Hls Hgiven Hascii Hin Hmatch Hnone.
  set (name := Py.replace " " "_" exp_name) in *.
  destruct (parse_ids_fails (filter (Py.contains name) names)) as [bad [Hbad [Hint Hparse]]].
  { intros s' Hs'. apply filter_In in Hs'. now apply Hascii. }
  { exists s. split; [apply filter_In; now split | assumption]. }
  assert (Hlast : _last_exp_id ls name path fs
                  = Raise (invalid_literal (Py.last_field "_" bad))).
  { unfold _last_exp_id. rewrite Hls. cbn [bind]. unfold last_id_among.
    destruct (filter (Py.contains name) names) as [|m ms] eqn:Ef; [contradiction|].
    now rewrite Hparse. }
  apply filter_In in Hbad. destruct Hbad as [Hbad Hbadmatch].
  exists bad. split; [assumption|]. split; [assumption|]. split; [assumption|].
  split; [assumption|].
  unfold save. rewrite Hhere, Hmem. cbn [and_then].
  unfold save_target. rewrite Hgiven. cbn [bind]. fold name.
  now rewrite Hlast.
Qed.

Lemma save_rejects_non_integer_suffix_witness :
  exists bad,
    In bad ["exp_final"; "exp_1"]
    /\ Py.contains "exp" bad = true
    /\ Py.int (Py.last_field "_" bad) = None
    /\ _last_exp_id newest_first "exp" "out" sample_draft_store
       = Raise (invalid_literal (Py.last_field "_" bad))
    /\ save sample_to_csv sample_json_dump newest_first sample_experiment (Some "exp") None
            "out" sample_draft_store
       = (Raise (invalid_literal (Py.last_field "_" bad)), sample_draft_store).
Proof.
  apply (save_rejects_non_integer_suffix sample_to_csv sample_json_dump newest_first
           sample_experiment (Some "exp") "exp" "out" sample_draft_store
           ["out"] ["exp_final"; "exp_1"] "exp_final");
    try reflexivity.
  - intros s' [<-|[<-|[]]] _; reflexivity.
  - now left.
Defined.

(** X2: the id discovery looks at every entry whose name contains the
    experiment name, wherever it does: once such an entry, ending in
    ASCII text, is added to the entries, the highest id is its
    trailing integer [k] if nothing matched before and the greater of
    the two otherwise, and the [ValueError] of [int] when the entry
    does not end in an integer; an entry that does not contain the name
    changes nothing. *)
Theorem last_id_among_snoc :
  forall (name : string) (names : list string) (last : Z) (e : string),
    last_id_among name names = Ok last ->
    Py.is_ascii (Py.last_field "_" e) = true ->
    last_id_among name (names ++ [e])
    = if Py.contains name e
      then match Py.int (Py.last_field "_" e) with
           | Some k =>
               match filter (Py.contains name) names with
               | [] => Ok k
               | _ => Ok (Z.max last k)
               end
           | None => Raise (invalid_literal (Py.last_field "_" e))
           end
      else Ok last.
Proof.
  intros name names last e Hlast Hascii.
  unfold last_id_among in *. rewrite filter_app. cbn [filter].
  destruct (Py.contains name e); [|now rewrite List.app_nil_r].
  destruct (filter (Py.contains name) names) as [|m ms] eqn:Ematch.
  - cbn [List.app parse_ids]. rewrite Hascii. cbn [negb].
    destruct (Py.int (Py.last_field "_" e)); reflexivity.
  - destruct (parse_ids (m :: ms)) as [ids|] eqn:Eids; [|discriminate].
    pose proof (parse_ids_each _ _ Eids) as Heach.
    cbn [bind] in Hlast. destruct ids as [|z zs]; [inversion Heach|].
    injection Hlast as <-.
    destruct ((m :: ms) ++ [e])%list eqn:Eapp; [discriminate|]. rewrite <- Eapp.
    rewrite parse_ids_app, Eids. cbn [bind parse_ids]. rewrite Hascii. cbn [negb].
    destruct (Py.int (Py.last_field "_" e)) as [k|]; [|reflexivity].
    cbn [bind List.app]. now rewrite max_list_snoc.
Qed.

Lemma last_id_among_snoc_witness :
  last_id_among "exp" (["exp_1"; "notes"] ++ ["my_exp_old_7"]) = Ok 7.
Proof.
  exact (last_id_among_snoc "exp" ["exp_1"; "notes"] 1 "my_exp_old_7" eq_refl eq_refl).
Defined.

(** ** Resolving the directory of a load *)

Lemma discovery_of_zero_fails ls exp_name path fs :
  _last_exp_id ls (Py.replace " " "_" exp_name) path fs = Ok 0 ->
  load ls (Some exp_name) None path fs
  = Raise (AgentpyError ("No experiment found with name '"
                         ++ Py.replace " " "_" exp_name
                         ++ "' in path '" ++ path ++ "'")).
Proof.
  intros Hzero. unfold load, _load, load_dir. now rewrite Hzero.
Qed.

(** X3: [load] never reads the directory of id 0.  Whatever id is
    passed, the directory it resolves carries a non-zero id; an id of
    0 is taken as no id at all, and a discovery that ends on 0 (no
    matching entry, or a highest id of 0) is the domain error. *)
Theorem load_dir_never_zero :
  forall (ls : Os.enumeration) (exp_name : string) (exp_id : option Z) (path : string)
         (fs : FS),
    let name := Py.replace " " "_" exp_name in
    load_dir ls (Some exp_name) (Some 0) path fs = load_dir ls (Some exp_name) None path fs
    /\ (_last_exp_id ls name path fs = Ok 0 ->
        load ls (Some exp_name) None path fs
        = Raise (AgentpyError ("No experiment found with name '" ++ name
                               ++ "' in path '" ++ path ++ "'")))
    /\ forall dir,
         load_dir ls (Some exp_name) exp_id path fs = Ok dir ->
         exists i, i <> 0 /\ dir = path ++ "/" ++ name ++ "_" ++ Py.str i ++ "/".
Proof.
  intros ls exp_name exp_id path fs name. split; [reflexivity|]. split.
  - apply discovery_of_zero_fails.
  - intros dir. unfold load_dir. fold name.
    assert (Hdiscover :
              forall i,
                (let* last := _last_exp_id ls name path fs in
                 if Z.eqb last 0
                 then Raise (AgentpyError ("No experiment found with name '" ++ name
                                           ++ "' in path '" ++ path ++ "'"))
                 else Ok last) = Ok i -> i <> 0).
    { intros i. destruct (_last_exp_id ls name path fs) as [last|]; [|discriminate].
      cbn [bind]. destruct (Z.eqb_spec last 0); [discriminate|]. congruence. }
    destruct exp_id as [i|].
    + destruct (Z.eqb_spec i 0) as [->|Hne].
      * destruct (let* last := _ in _) as [j|] eqn:Ej; [|discriminate].
        cbn [bind]. intros [= <-]. exists j. split; [now apply Hdiscover | reflexivity].
      * cbn [bind]. intros [= <-]. exists i. split; [assumption | reflexivity].
    + destruct (let* last := _ in _) as [j|] eqn:Ej; [|discriminate].
      cbn [bind]. intros [= <-]. exists j. split; [now apply Hdiscover | reflexivity].
Qed.

(** X4: with no entry of the target path containing the experiment
    name, a [load] without id raises the domain error naming the
    experiment and the path; so it does when the only matching
    directory is the one of id 0. *)
Theorem load_without_match_fails :
  forall (ls : Os.enumeration) (exp_name path : string) (fs : FS) (names : list string),
    Os.listdir ls path fs = Ok names ->
    filter (Py.contains (Py.replace " " "_" exp_name)) names = []
    \/ filter (Py.contains (Py.replace " " "_" exp_name)) names
       = [exp_entry (Py.replace " " "_" exp_name) 0] ->
    load ls (Some exp_name) None path fs
    = Raise (AgentpyError ("No experiment found with name '"
                           ++ Py.replace " " "_" exp_name
                           ++ "' in path '" ++ path ++ "'")).
Proof.
  intros ls exp_name path fs names Hls Hmatch.
  apply discovery_of_zero_fails.
  unfold _last_exp_id. rewrite Hls. cbn [bind]. unfold last_id_among.
  destruct Hmatch as [-> | ->]; [reflexivity|].
  cbn [parse_ids]. rewrite exp_entry_ascii, exp_entry_id. reflexivity.
Qed.

Lemma load_without_match_fails_witness :
  load newest_first (Some "my exp") None "out" sample_zero_store
  = Raise (AgentpyError "No experiment found with name 'my_exp' in path 'out'").
Proof.
  apply (load_without_match_fails newest_first "my exp" "out" sample_zero_store
           ["notes"; "my_exp_0"]).
  - reflexivity.
  - right. reflexivity.
Defined.

(** ** Saving, continued *)

Lemma exp_dir_nonempty path name i : exp_dir path name i <> EmptyString.
Proof. unfold exp_dir. destruct path; discriminate. Qed.

(** X5: [save] never writes into an existing experiment directory:
    with an explicit id whose directory is already there it raises
    [FileExistsError] before anything is written. *)
Theorem save_never_overwrites :
  forall to_csv json_dump (ls : Os.enumeration) (self : DataDict) (given : option string)
         (exp_name path : string) (i : Z) (fs : FS) (here : list string),
    Os.listdir ls "." fs = Ok here ->
    Py.mem path here = true ->
    given_name self given = Ok exp_name ->
    Os.exists_dir (Os.comps (exp_dir path (Py.replace " " "_" exp_name) i)) fs = true ->
    save to_csv json_dump ls self given (Some i) path fs
    = (Raise (FileExistsError (exp_dir path (Py.replace " " "_" exp_name) i)), fs).
Proof.
  intros to_csv json_dump ls self given exp_name path i fs here Hhere Hmem Hgiven Hex.
  unfold save. rewrite Hhere, Hmem. cbn [and_then].
  unfold save_target. rewrite Hgiven. cbn [bind].
  unfold Os.makedirs.
  pose proof (exp_dir_nonempty path (Py.replace " " "_" exp_name) i) as Hne.
  destruct (exp_dir path (Py.replace " " "_" exp_name) i) eqn:E; [contradiction|].
  now rewrite Hex.
Qed.

Lemma save_never_overwrites_witness :
  save sample_to_csv sample_json_dump as_created sample_experiment (Some "my exp") (Some 0)
       "out" sample_zero_store
  = (Raise (FileExistsError "out/my_exp_0"), sample_zero_store).
Proof.
  apply (save_never_overwrites sample_to_csv sample_json_dump as_created sample_experiment
           (Some "my exp") "my exp" "out" 0 sample_zero_store ["out"]);
    reflexivity.
Defined.

(** X6: the target path is looked up by name in the listing of the
    working directory, so a path that is not a plain entry name there
    (a nested one, say) is always created; when that directory
    exists already, [save] raises [FileExistsError] and writes
    nothing, whatever the other arguments. *)
Theorem save_fails_on_existing_unlisted_path :
  forall to_csv json_dump (ls : Os.enumeration) (self : DataDict) (given : option string)
         (exp_id : option Z) (path : string) (fs : FS) (here : list string),
    Os.listdir ls "." fs = Ok here ->
    Py.mem path here = false ->
    path <> EmptyString ->
    Os.exists_dir (Os.comps path) fs = true ->
    save to_csv json_dump ls self given exp_id path fs = (Raise (FileExistsError path), fs).
Proof.
  intros to_csv json_dump ls self given exp_id path fs here Hhere Hmem Hne Hex.
  unfold save. rewrite Hhere, Hmem. unfold Os.makedirs.
  destruct path; [contradiction|]. now rewrite Hex.
Qed.

Lemma save_fails_on_existing_unlisted_path_witness :
  save sample_to_csv sample_json_dump as_created sample_experiment (Some "exp") None
       "out/my_exp_0" sample_zero_store
  = (Raise (FileExistsError "out/my_exp_0"), sample_zero_store).
Proof.
  apply (save_fails_on_existing_unlisted_path sample_to_csv sample_json_dump as_created
           sample_experiment (Some "exp") None "out/my_exp_0" sample_zero_store ["out"]);
    try reflexivity.
  discriminate.
Defined.

Lemma save_needs_a_path to_csv json_dump ls self given fs fs1 :
  save to_csv json_dump ls self given None EmptyString fs <> (Ok tt, fs1).
Proof.
  unfold save. destruct (Os.listdir ls "." fs) as [here|]; [|discriminate].
  destruct (Py.mem "" here); cbn [Os.makedirs and_then]; [|discriminate].
  unfold save_target. destruct (given_name self given); cbn [bind]; discriminate.
Qed.

(** X7: a [load] without id after a [save] without id reads the
    directory that this [save] created, provided the new id is not 0
    (that is, the highest id before was not -1). *)
Theorem load_finds_last_save :
  forall to_csv json_dump (ls : Os.enumeration) (self : DataDict) (given : option string)
         (exp_name path : string) (fs fs1 : FS),
    rearranges ls ->
    given_name self given = Ok exp_name ->
    lacks "/" (Py.replace " " "_" exp_name) = true ->
    save to_csv json_dump ls self given None path fs = (Ok tt, fs1) ->
    last_id_among (Py.replace " " "_" exp_name) (listing path fs) <> Ok (-1) ->
    exists id,
      Os.exists_dir (Os.comps path ++ [exp_entry (Py.replace " " "_" exp_name) id])%list
                    fs = false
      /\ Os.exists_dir (Os.comps path ++ [exp_entry (Py.replace " " "_" exp_name) id])%list
                       fs1 = true
      /\ load_dir ls (Some exp_name) None path fs1
         = Ok (path ++ "/" ++ exp_entry (Py.replace " " "_" exp_name) id ++ "/").
Proof.
  intros to_csv json_dump ls self given exp_name path fs fs1 Hperm Hgiven Hname Hsave Hlast.
  destruct (save_creates_next _ _ _ _ _ _ _ _ _ Hperm Hgiven Hname Hsave)
    as [last [Hamong [Hls [Hnew Hold]]]].
  set (name := Py.replace " " "_" exp_name) in *.
  exists (last + 1). split; [assumption|]. split; [assumption|].
  assert (Hpath : path <> EmptyString).
  { intros ->. exact (save_needs_a_path _ _ _ _ _ _ _ Hsave). }
  unfold load_dir. fold name. unfold _last_exp_id, Os.listdir.
  destruct path as [|c p]; [contradiction|].
  unfold listing in Hls at 1.
  destruct (at_get (Os.comps (String c p)) (dirs fs1)) as [names1|];
    [|destruct (listing (String c p) fs); cbn in Hls; discriminate Hls].
  cbn [bind]. rewrite Hls.
  rewrite (proj2 (last_id_among_listed ls name _ (last + 1) Hperm)
                 (last_id_among_next name _ last Hamong)).
  cbn [bind].
  destruct (Z.eqb_spec (last + 1) 0) as [Hz|_];
    [|cbn [bind]; unfold exp_entry; now rewrite !append_assoc].
  exfalso. apply Hlast. rewrite Hamong. f_equal. lia.
Qed.

Lemma load_finds_last_save_witness :
  exists id,
    Os.exists_dir (Os.comps "out" ++ [exp_entry "exp" id])%list sample_store = false
    /\ Os.exists_dir (Os.comps "out" ++ [exp_entry "exp" id])%list sample_store_1 = true
    /\ load_dir newest_first (Some "exp") None "out" sample_store_1
       = Ok ("out" ++ "/" ++ exp_entry "exp" id ++ "/").
Proof.
  apply (load_finds_last_save sample_to_csv sample_json_dump newest_first sample_experiment
           (Some "exp") "exp" "out" sample_store sample_store_1);
    try reflexivity.
  - intros names. apply Permutation_sym, Permutation_rev.
  - vm_compute. discriminate.
Defined.

(** ** Arrangement engine, continued *)

Lemma combine_pars_keeps_unless_nested self :
  (forall ps, dict_get "parameters" self <> Some (VDataDict ps)) ->
  snd (_combine_pars self) = self.
Proof.
  intros Hflat. unfold _combine_pars, getattr.
  destruct (dict_get "parameters" self) as [[| | | | |ps]|]; try reflexivity.
  now contradiction (Hflat ps).
Qed.

(** X8: [arrange] returns the container exactly as it received it
    whenever the parameters are not requested, or are requested but
    are not a nested container (a flat mapping, a table, anything
    else, or missing): only the combination of nested parameters
    writes to it. *)
Theorem arrange_keeps_container :
  forall concat_columns reindex_level query_scenario (self : DataDict)
         (data_keys var_keys obj_types measure_keys param_keys scenarios : option keys_arg)
         (index : bool),
    (forall ps, dict_get "parameters" self <> Some (VDataDict ps))
    \/ (exists dk, data_keys = Some dk /\ Py.mem "parameters" (make_list dk) = false) ->
    snd (arrange concat_columns reindex_level query_scenario self
                 data_keys var_keys obj_types measure_keys param_keys scenarios index)
    = self.
Proof.
  intros cc rl qs self dk vk ot mk pk sc idx Hcase.
  unfold arrange.
  destruct (prepare_keys self dk) as [ks|] eqn:Eks; [|reflexivity].
  destruct (let* dfv := _ in _) as [dfv|]; [|reflexivity].
  unfold arrange_parameters.
  destruct (Py.mem "parameters" ks) eqn:Emem; [|reflexivity].
  destruct Hcase as [Hflat | [dk' [-> Hnot]]].
  - pose proof (combine_pars_keeps_unless_nested self Hflat) as Hkeep.
    destruct (_combine_pars self) as [r self']. exact Hkeep.
  - unfold prepare_keys in Eks.
    destruct (check_keys self (make_list dk')); [|discriminate].
    cbn [bind] in Eks. injection Eks as <-. congruence.
Qed.

Lemma arrange_keeps_container_witness :
  snd (arrange sample_concat_columns sample_reindex_level sample_query_scenario
               sample_experiment (Some (KStr "measures")) None None None None None false)
  = sample_experiment.
Proof.
  apply arrange_keeps_container. right. exists (KStr "measures"). split; reflexivity.
Defined.

Lemma check_keys_supported self : forall ks,
  (forall k, In k ks -> Py.mem k (keys self) = true /\ Py.mem k supported_keys = true) ->
  check_keys self ks = Ok tt.
Proof.
  induction ks as [|k ks IH]; intros Hall; [reflexivity|].
  cbn [check_keys]. destruct (Hall k (or_introl eq_refl)) as [-> ->].
  cbn [negb]. apply IH. intros k' Hk'. apply Hall. now right.
Qed.

(** X9: leaving [data_keys] out is the same as asking for the
    supported sections that the container has, in the order of its
    keys: the same result and the same container afterwards. *)
Theorem arrange_default_keys :
  forall concat_columns reindex_level query_scenario (self : DataDict)
         (var_keys obj_types measure_keys param_keys scenarios : option keys_arg)
         (index : bool),
    arrange concat_columns reindex_level query_scenario self
            None var_keys obj_types measure_keys param_keys scenarios index
    = arrange concat_columns reindex_level query_scenario self
              (Some (KList (filter (fun k => Py.mem k supported_keys) (keys self))))
              var_keys obj_types measure_keys param_keys scenarios index.
Proof.
  intros cc rl qs self vk ot mk pk sc idx.
  unfold arrange, prepare_keys. cbn [make_list].
  rewrite check_keys_supported; [reflexivity|].
  intros k Hk. apply filter_In in Hk. destruct Hk as [Hin Hsup].
  split; [now apply mem_true_iff | assumption].
Qed.

(** X10: on a container that has none of the three supported sections
    the default arrangement has no working table: it returns [None]
    when the index is kept, and otherwise raises on resetting the
    index of [None]; a scenario filter raises on the query before
    that.  The container is unchanged. *)
Theorem arrange_without_sections :
  forall concat_columns reindex_level query_scenario (self : DataDict)
         (var_keys obj_types measure_keys param_keys scenarios : option keys_arg)
         (index : bool),
    filter (fun k => Py.mem k supported_keys) (keys self) = [] ->
    arrange concat_columns reindex_level query_scenario self
            None var_keys obj_types measure_keys param_keys scenarios index
    = (if truthy scenarios
       then Raise (AttributeError "'NoneType' object has no attribute 'query'")
       else if index then Ok VNone
       else Raise (AttributeError "'NoneType' object has no attribute 'reset_index'"),
       self).
Proof.
  intros cc rl qs self vk ot mk pk sc idx Hnone.
  unfold arrange, prepare_keys. rewrite Hnone.
  unfold arrange_variables, arrange_measures, arrange_parameters, arrange_finish.
  cbn [Py.mem existsb bind].
  destruct sc as [sc|]; [destruct (truthy (Some sc))|]; destruct idx; reflexivity.
Qed.

Lemma arrange_without_sections_witness :
  arrange sample_concat_columns sample_reindex_level sample_query_scenario
          [("log", VMapping [("name", CStr "sample")])]
          None None None None None None false
  = (Raise (AttributeError "'NoneType' object has no attribute 'reset_index'"),
     [("log", VMapping [("name", CStr "sample")])]).
Proof.
  apply (arrange_without_sections sample_concat_columns sample_reindex_level
           sample_query_scenario [("log", VMapping [("name", CStr "sample")])]
           None None None None None false).
  reflexivity.
Defined.

(** ** Parameter combiner, continued *)

Lemma dict_set_same_value {V} k (v : V) d :
  dict_get k d = Some v -> dict_set k v d = d.
Proof.
  induction d as [|[k' v'] d IH]; cbn [dict_get dict_set]; [discriminate|].
  destruct (String.eqb_spec k k') as [->|Hne].
  - now intros [= ->].
  - intros H. now rewrite IH.
Qed.

Lemma dict_set_twice {V} k (v : V) d : dict_set k v (dict_set k v d) = dict_set k v d.
Proof. apply dict_set_same_value, dict_get_set_same. Qed.

Lemma rows_assign_columns fx : forall d,
  rows (assign_columns fx d)
  = map (fun r : row => (fst r, assign_row fx (snd r))) (rows d).
Proof.
  unfold assign_columns, assign_row.
  induction fx as [|[k c] fx IH]; intros d; cbn [fold_left fst snd].
  - induction (rows d) as [|[i r] rs IHr]; cbn [map fst snd]; [reflexivity|].
    now rewrite <- IHr.
  - rewrite IH. unfold Pandas.set_column. cbn [rows]. rewrite map_map. reflexivity.
Qed.

Lemma index_names_assign_columns fx : forall d,
  index_names (assign_columns fx d) = index_names d.
Proof.
  unfold assign_columns.
  induction fx as [|[k c] fx IH]; intros d; cbn [fold_left]; [reflexivity|].
  now rewrite IH.
Qed.

Lemma columns_assign_keep fx : forall d,
  (forall k, In k (keys fx) -> Py.mem k (columns d) = true) ->
  columns (assign_columns fx d) = columns d.
Proof.
  unfold assign_columns, keys.
  induction fx as [|[k c] fx IH]; intros d Hall; cbn [fold_left fst snd]; [reflexivity|].
  assert (Hk : Py.mem k (columns d) = true) by (apply Hall; now left).
  assert (Hd : Pandas.set_column k c d
               = mkDF (index_names d) (columns d)
                      (map (fun r : row => (fst r, dict_set k c (snd r))) (rows d))).
  { unfold Pandas.set_column. now rewrite Hk. }
  rewrite IH; rewrite Hd; cbn [columns]; [reflexivity|].
  intros k' Hk'. apply Hall. now right.
Qed.

Lemma columns_assign_has fx : forall d k,
  In k (keys fx) \/ Py.mem k (columns d) = true ->
  Py.mem k (columns (assign_columns fx d)) = true.
Proof.
  unfold assign_columns, keys.
  induction fx as [|[k0 c0] fx IH]; intros d k; cbn [fold_left map fst snd].
  - intros [[]|H]. exact H.
  - intros H. apply IH.
    destruct H as [[<-|Hin]|Hmem]; [right | now left | right].
    + unfold Pandas.set_column. cbn [columns].
      destruct (Py.mem k0 (columns d)) eqn:E; [assumption|].
      apply mem_true_iff, in_or_app. right. now left.
    + unfold Pandas.set_column. cbn [columns].
      destruct (Py.mem k0 (columns d)); [assumption|].
      apply mem_true_iff, in_or_app. left. now apply mem_true_iff.
Qed.

Lemma assign_row_other fx : forall r k,
  ~ In k (keys fx) -> dict_get k (assign_row fx r) = dict_get k r.
Proof.
  unfold assign_row, keys.
  induction fx as [|[k0 c0] fx IH]; intros r k Hk; cbn [fold_left fst snd]; [reflexivity|].
  rewrite IH by (intros H; apply Hk; now right).
  apply dict_get_set_other. intros ->. apply Hk. now left.
Qed.

Lemma assign_row_get fx : forall r k c,
  NoDup (keys fx) -> In (k, c) fx -> dict_get k (assign_row fx r) = Some c.
Proof.
  induction fx as [|[k0 c0] fx IH]; intros r k c Hnd Hin; [contradiction|].
  inversion Hnd as [|? ? Hnotin Hnd']; subst.
  change (assign_row ((k0, c0) :: fx) r) with (assign_row fx (dict_set k0 c0 r)).
  destruct Hin as [[= <- <-]|Hin].
  - rewrite assign_row_other by assumption. apply dict_get_set_same.
  - now apply IH.
Qed.

Lemma assign_row_fixpoint fx r :
  (forall k c, In (k, c) fx -> dict_get k r = Some c) -> assign_row fx r = r.
Proof.
  unfold assign_row. induction fx as [|[k c] fx IH]; intros Hall; [reflexivity|].
  cbn [fold_left fst snd]. rewrite dict_set_same_value by (apply Hall; now left).
  apply IH. intros k' c' Hin. apply Hall. now right.
Qed.

Lemma assign_columns_twice fx d :
  NoDup (keys fx) -> assign_columns fx (assign_columns fx d) = assign_columns fx d.
Proof.
  intros Hnd.
  assert (Hfields : forall a b : DataFrame,
             index_names a = index_names b -> columns a = columns b ->
             rows a = rows b -> a = b).
  { intros [] []; cbn; congruence. }
  apply Hfields.
  - apply index_names_assign_columns.
  - apply columns_assign_keep. intros k Hk. apply columns_assign_has. now left.
  - rewrite rows_assign_columns, rows_assign_columns, map_map. cbn [fst snd].
    apply map_ext. intros [i r]. cbn [fst snd]. f_equal.
    apply assign_row_fixpoint. intros k c Hin. now apply assign_row_get.
Qed.

Lemma combine_pars_nested_run self ps fx v :
  dict_get "parameters" self = Some (VDataDict ps) ->
  dict_get "varied" ps = Some (VTable v) ->
  dict_get "fixed" ps = Some (VMapping fx) ->
  _combine_pars self
  = (replicate (with_fixed_columns self ps fx v) (VTable (assign_columns fx v)),
     with_fixed_columns self ps fx v).
Proof.
  intros Hp Hv Hf. unfold _combine_pars, getattr. rewrite Hp, Hv, Hf.
  cbn [bind items]. now rewrite assign_all_cells.
Qed.

Lemma replicate_ignores_parameters self x dfp0 :
  replicate (dict_set "parameters" x self) dfp0 = replicate self dfp0.
Proof.
  unfold replicate, getattr. now rewrite dict_get_set_other by discriminate.
Qed.

(** X11: the write of [_combine_pars] into the container is idempotent.
    For nested parameters with a varied table and a fixed mapping, a
    second call finds the container as the first call left it, leaves
    it so, and returns the same outcome as the first. *)
Theorem combine_pars_twice :
  forall (self ps : DataDict) (fx : list (string * cell)) (v : DataFrame),
    dict_get "parameters" self = Some (VDataDict ps) ->
    dict_get "varied" ps = Some (VTable v) ->
    dict_get "fixed" ps = Some (VMapping fx) ->
    NoDup (keys fx) ->
    snd (_combine_pars (snd (_combine_pars self))) = snd (_combine_pars self)
    /\ fst (_combine_pars (snd (_combine_pars self))) = fst (_combine_pars self).
Proof.
  intros self ps fx v Hp Hv Hf Hnd.
  rewrite (combine_pars_nested_run self ps fx v Hp Hv Hf). cbn [fst snd].
  assert (Hrun : _combine_pars (with_fixed_columns self ps fx v)
                 = (replicate (with_fixed_columns self ps fx v)
                              (VTable (assign_columns fx v)),
                    with_fixed_columns self ps fx v)).
  { rewrite (combine_pars_nested_run _ (dict_set "varied" (VTable (assign_columns fx v)) ps)
               fx (assign_columns fx v)).
    - unfold with_fixed_columns. rewrite !assign_columns_twice by assumption.
      rewrite !dict_set_twice.
      now rewrite replicate_ignores_parameters.
    - unfold with_fixed_columns. apply dict_get_set_same.
    - apply dict_get_set_same.
    - rewrite dict_get_set_other by discriminate. assumption. }
  rewrite Hrun. split; reflexivity.
Qed.

Lemma combine_pars_twice_witness :
  snd (_combine_pars (snd (_combine_pars sample_experiment)))
  = snd (_combine_pars sample_experiment)
  /\ fst (_combine_pars (snd (_combine_pars sample_experiment)))
     = fst (_combine_pars sample_experiment).
Proof.
  apply (combine_pars_twice sample_experiment
           [("fixed", VMapping [("a", CInt 1)]); ("varied", VTable sample_varied)]
           [("a", CInt 1)] sample_varied); try reflexivity.
  repeat constructor. intros [].
Defined.

Lemma replicate_fails self lg it dfp0 :
  dict_get "log" self = Some (VMapping lg) ->
  dict_get "iterations" lg = it ->
  no_replication it ->
  replicate self dfp0 = Raise (replication_error it).
Proof.
  intros Hl Hi Hno. unfold replicate, getattr. rewrite Hl. cbn [bind subscript].
  rewrite Hi. destruct it as [[n| | |]|]; try reflexivity.
  cbn [bind times]. cbn in Hno.
  replace (Z.to_nat n) with 0%nat by lia. reflexivity.
Qed.

(** X12: when the replication fails (no [iterations] in the log, a
    count that is not an integer, or a count of zero or less), the
    call on nested parameters raises, but the fixed parameters have
    been written into the stored varied table all the same. *)
Theorem combine_pars_writes_before_failing :
  forall (self ps : DataDict) (fx lg : list (string * cell)) (v : DataFrame)
         (it : option cell),
    dict_get "parameters" self = Some (VDataDict ps) ->
    dict_get "varied" ps = Some (VTable v) ->
    dict_get "fixed" ps = Some (VMapping fx) ->
    dict_get "log" self = Some (VMapping lg) ->
    dict_get "iterations" lg = it ->
    no_replication it ->
    _combine_pars self
    = (Raise (replication_error it), with_fixed_columns self ps fx v).
Proof.
  intros self ps fx lg v it Hp Hv Hf Hl Hi Hno.
  rewrite (combine_pars_nested_run self ps fx v Hp Hv Hf). f_equal.
  unfold with_fixed_columns. rewrite replicate_ignores_parameters.
  now apply replicate_fails with (lg := lg).
Qed.

Lemma combine_pars_writes_before_failing_witness :
  _combine_pars sample_broken_experiment
  = (Raise (KeyError "'iterations'"),
     with_fixed_columns sample_broken_experiment
       [("fixed", VMapping [("a", CInt 1)]); ("varied", VTable sample_varied)]
       [("a", CInt 1)] sample_varied).
Proof.
  apply (combine_pars_writes_before_failing sample_broken_experiment
           [("fixed", VMapping [("a", CInt 1)]); ("varied", VTable sample_varied)]
           [("a", CInt 1)] [("name", CStr "sample")] sample_varied None);
    first [reflexivity | exact I].
Defined.

(** X13: a flat parameters mapping with at least one entry and [n]
    iterations, [n] positive, gives [n] rows, each holding the
    mapping's values, under the fresh index [run_id] = 0..n-1; the
    container is not touched. *)
Theorem combine_pars_flat_mapping :
  forall (self : DataDict) (m lg : list (string * cell)) (n : Z),
    dict_get "parameters" self = Some (VMapping m) ->
    m <> [] ->
    dict_get "log" self = Some (VMapping lg) ->
    dict_get "iterations" lg = Some (CInt n) ->
    0 < n ->
    exists df,
      _combine_pars self = (Ok df, self)
      /\ index_names df = [Some "run_id"]
      /\ index_column df = map (fun i => [CInt i]) (Pandas.range_from 0 (Z.to_nat n))
      /\ records df = List.repeat m (Z.to_nat n).
Proof.
  intros self m lg n Hp Hm Hl Hi Hn.
  unfold _combine_pars, getattr. rewrite Hp.
  unfold replicate, getattr. rewrite Hl. cbn [bind subscript]. rewrite Hi.
  cbn [bind times]. rewrite concat_copies_table by lia. cbn [bind].
  eexists. split; [reflexivity|].
  unfold index_column, records.
  cbn [Pandas.set_index_name Pandas.reset_index_drop index_names rows].
  split; [reflexivity|].
  assert (Hrows : rows (one_row_table m) = [([CInt 0], m)])
    by (unfold one_row_table; destruct m; [contradiction | reflexivity]).
  rewrite Hrows. split.
  - rewrite renumber_index, length_concat_repeat. cbn [List.length].
    now rewrite Nat.mul_1_r.
  - rewrite renumber_records, map_concat_repeat. cbn [map snd].
    generalize (Z.to_nat n). intros k.
    induction k; cbn [List.repeat List.concat List.app]; [reflexivity | now rewrite IHk].
Qed.

Lemma combine_pars_flat_mapping_witness :
  exists df,
    _combine_pars sample_run = (Ok df, sample_run)
    /\ index_names df = [Some "run_id"]
    /\ index_column df = map (fun i => [CInt i]) (Pandas.range_from 0 (Z.to_nat 3))
    /\ records df = List.repeat [("a", CInt 1); ("b", CStr "x")] (Z.to_nat 3).
Proof.
  apply (combine_pars_flat_mapping sample_run [("a", CInt 1); ("b", CStr "x")]
           [("name", CStr "run"); ("iterations", CInt 3)] 3);
    try reflexivity.
  discriminate.
Defined.

(** ** Variable combiner, continued *)

Lemma select_by_type_tables ot ts :
  select_by_type ot (table_entries ts) = table_entries (of_types ot ts).
Proof.
  unfold select_by_type, table_entries, of_types.
  induction ts as [|[k d] ts IH]; cbn [map filter fst snd]; [reflexivity|].
  destruct (key_in k ot); cbn [map fst snd]; now rewrite IH.
Qed.

Lemma stacked_rows_tagged ts r :
  In r (stacked_rows ts) ->
  exists k d, In (k, d) ts /\ hd_error (fst r) = Some (CStr k).
Proof.
  unfold stacked_rows. intros Hin. apply in_flat_map in Hin.
  destruct Hin as [[k d] [Hkd Hr]]. exists k, d. split; [assumption|].
  unfold Pandas.tag_rows in Hr. cbn [fst snd] in Hr.
  apply in_map_iff in Hr. destruct Hr as [r0 [<- _]]. reflexivity.
Qed.

Lemma length_stacked_rows ts :
  List.length (stacked_rows ts) = list_sum (map (fun kd => df_len (snd kd)) ts).
Proof.
  unfold stacked_rows. induction ts as [|[k d] ts IH]; cbn [flat_map map list_sum fst snd];
    [reflexivity|].
  now rewrite List.length_app, length_tag_rows, IH.
Qed.

(** X14: with an object-type filter and no column filter over a
    variables container of several tables, the combined table stacks
    exactly the tables whose key passes the filter (a member of the
    list, or a substring of the string, given): every row carries the
    key of such a table in the [obj_type] level, and the row count
    is the sum of their lengths. *)
Theorem combine_vars_obj_types :
  forall (self : DataDict) (ts : list (string * DataFrame)) (ot : keys_arg),
    dict_get "variables" self = Some (VDataDict (table_entries ts)) ->
    List.length ts <> 1%nat ->
    of_types ot ts <> [] ->
    exists df,
      _combine_vars self (Some ot) None = Ok (VTable df)
      /\ hd_error (index_names df) = Some (Some "obj_type")
      /\ rows df = stacked_rows (of_types ot ts)
      /\ (forall r, In r (rows df) ->
                    exists k, key_in k ot = true /\ hd_error (fst r) = Some (CStr k))
      /\ df_len df = list_sum (map (fun kd => df_len (snd kd)) (of_types ot ts)).
Proof.
  intros self ts ot Hget Hlen Hsel.
  assert (Hl : List.length (table_entries ts) <> 1%nat)
    by (unfold table_entries; now rewrite length_map).
  rewrite (combine_vars_many self _ (Some ot) None Hget Hl).
  unfold concat_vars. cbn [items bind].
  replace (map (fun kc : string * value => kc) (table_entries ts))
    with (table_entries ts) by (symmetry; apply map_id).
  rewrite select_by_type_tables, concat_entries_tables by assumption.
  cbn [bind]. eexists. split; [reflexivity|].
  cbn [Pandas.set_level0_name index_names rows hd_error]. unfold df_len at 1. cbn [rows].
  repeat split.
  - intros r Hr. destruct (stacked_rows_tagged _ _ Hr) as [k [d [Hkd Hhd]]].
    exists k. split; [|assumption].
    unfold of_types in Hkd. apply filter_In in Hkd. now destruct Hkd.
  - apply length_stacked_rows.
Qed.

Lemma combine_vars_obj_types_witness :
  exists df,
    _combine_vars [("variables",
                    VDataDict (table_entries [("agent", sample_agents);
                                              ("env", sample_envs);
                                              ("city", sample_envs)]))]
                  (Some (KStr "agents, city")) None
    = Ok (VTable df)
    /\ hd_error (index_names df) = Some (Some "obj_type")
    /\ rows df = stacked_rows [("agent", sample_agents); ("city", sample_envs)]
    /\ (forall r, In r (rows df) ->
                  exists k, key_in k (KStr "agents, city") = true
                            /\ hd_error (fst r) = Some (CStr k))
    /\ df_len df = 3%nat.
Proof.
  apply (combine_vars_obj_types
           [("variables",
             VDataDict (table_entries [("agent", sample_agents); ("env", sample_envs);
                                       ("city", sample_envs)]))]
           [("agent", sample_agents); ("env", sample_envs); ("city", sample_envs)]
           (KStr "agents, city")).
  - reflexivity.
  - cbn. lia.
  - vm_compute. discriminate.
Defined.

(** ** Loading, continued *)

(** X15: a table file that decodes comes back with exactly its
    recognised index columns promoted: the index levels are the names
    of [i_cols] found among the columns, in the order of [i_cols];
    these columns leave the column list, every other column stays;
    each row's index holds its values in those columns; no row is
    lost.  With no recognised column the decoded table is returned as
    it is. *)
Theorem load_file_promotes_index :
  forall (dir f : string) (fs : FS) (obj : DataFrame),
    Py.last_field "." f = "csv" ->
    read_csv (dir ++ f) fs = Some obj ->
    exists t,
      load_file dir f fs = VTable t
      /\ df_len t = df_len obj
      /\ match index_columns obj with
         | [] => t = obj
         | ks =>
             index_names t = map Some ks
             /\ columns t = filter (fun c => negb (Py.mem c i_cols)) (columns obj)
             /\ index_column t = map (fun r => map (fun k => row_get k r) ks) (rows obj)
         end.
Proof.
  intros dir f fs obj Hext Hread. unfold load_file. rewrite Hext, Hread.
  change (String.eqb "csv" "csv") with true. cbv iota.
  fold (index_columns obj).
  destruct (index_columns obj) as [|k ks] eqn:Eks.
  - exists obj. repeat split.
  - unfold Pandas.set_index. rewrite <- Eks, index_columns_present.
    eexists. split; [reflexivity|]. unfold df_len, index_column. cbn [rows index_names columns].
    split; [apply length_map|]. split; [reflexivity|]. split.
    + apply filter_ext_in. intros c Hc. f_equal.
      apply mem_index_columns. now apply mem_true_iff.
    + rewrite map_map. reflexivity.
Qed.

Lemma load_file_promotes_index_witness :
  exists t,
    load_file "out/exp_1/" "variables.csv" sample_csv_fs = VTable t
    /\ df_len t = 2%nat
    /\ index_names t = [Some "obj_id"; Some "t"]
    /\ columns t = ["x"]
    /\ index_column t = [[CInt 1; CInt 0]; [CInt 1; CInt 1]].
Proof.
  destruct (load_file_promotes_index "out/exp_1/" "variables.csv" sample_csv_fs
              (mkDF [None] ["t"; "x"; "obj_id"]
                    [([CInt 0], [("t", CInt 0); ("x", CInt 5); ("obj_id", CInt 1)]);
                     ([CInt 1], [("t", CInt 1); ("x", CInt 6); ("obj_id", CInt 1)])])
              eq_refl eq_refl) as [t [Hfile [Hlen Hshape]]].
  exists t. split; [exact Hfile|]. split; [exact Hlen|]. exact Hshape.
Defined.

Lemma length_append a b :
  String.length (a ++ b) = (String.length a + String.length b)%nat.
Proof. induction a as [|c a IH]; cbn [String.append String.length]; [reflexivity | now rewrite IH]. Qed.

Lemma substring_none s : String.substring 0 0 s = EmptyString.
Proof. now destruct s. Qed.

Lemma substring_prefix a b : String.substring 0 (String.length a) (a ++ b) = a.
Proof.
  induction a as [|c a IH]; cbn [String.append String.length String.substring].
  - apply substring_none.
  - now rewrite IH.
Qed.

(** X16: the key that [_load] cuts out of a file name undoes the
    naming of [save]: for any key, and any extension without a dot,
    the file name [key.ext] gives back [key], dots in the key
    included. *)
Theorem stem_of_saved_name :
  forall (key ext : string),
    lacks "." ext = true ->
    Py.last_field "." (key ++ "." ++ ext) = ext
    /\ stem (key ++ "." ++ ext) = key.
Proof.
  intros key ext Hext. cbn [String.append].
  assert (Hlast : Py.last_field "." (key ++ String "." ext) = ext)
    by now apply last_field_app.
  split; [assumption|].
  unfold stem, Py.drop_last. rewrite Hlast, length_append. cbn [String.length].
  replace (String.length key + S (String.length ext) - (String.length ext + 1))%nat
    with (String.length key) by lia.
  apply substring_prefix.
Qed.

Lemma stem_of_saved_name_witness :
  Py.last_field "." ("run.v2" ++ "." ++ "csv") = "csv"
  /\ stem ("run.v2" ++ "." ++ "csv") = "run.v2".
Proof. apply (stem_of_saved_name "run.v2" "csv"). reflexivity. Defined.

(** X17: a directory entry without a dot in its name has the whole
    name as its extension and the empty string as its key: unless the
    name is itself [csv] or [json] or routes to a nested section, it
    is recorded under the key [''] with value [None], so that all
    such entries share one key. *)
Theorem load_entry_without_extension :
  forall (dir f : string) (fs : FS) (self : DataDict),
    lacks "." f = true ->
    Py.contains "variables_" f = false ->
    Py.contains "parameters_" f = false ->
    f <> "csv" -> f <> "json" ->
    load_entry dir fs self f = Ok (dict_set "" VNone self).
Proof.
  intros dir f fs self Hdot Hvar Hpar Hcsv Hjson.
  assert (Hext : Py.last_field "." f = f).
  { unfold Py.last_field. now rewrite split_lacks. }
  unfold load_entry. rewrite Hvar, Hpar. f_equal.
  unfold stem, Py.drop_last, load_file. rewrite Hext.
  replace (String.length f - (String.length f + 1))%nat with 0%nat by lia.
  rewrite substring_none.
  apply String.eqb_neq in Hcsv, Hjson. now rewrite Hcsv, Hjson.
Qed.

Lemma load_entry_without_extension_witness :
  load_entry "out/exp_1/" sample_fs [("log", VNone)] "README"
  = Ok [("log", VNone); ("", VNone)].
Proof.
  apply (load_entry_without_extension "out/exp_1/" "README" sample_fs [("log", VNone)]);
    first [reflexivity | discriminate].
Defined.

(** ** Saving and loading plain mappings *)

Lemma last_field_json k : Py.last_field "." (json_name k) = "json".
Proof. unfold json_name. now apply last_field_app. Qed.

Lemma stem_json k : stem (json_name k) = k.
Proof.
  unfold stem, Py.drop_last. rewrite last_field_json.
  unfold json_name. rewrite length_append. cbn [String.length].
  replace (String.length k + 5 - (4 + 1))%nat with (String.length k) by lia.
  apply substring_prefix.
Qed.

Lemma json_name_inj k k' : json_name k = json_name k' -> k = k'.
Proof. intros H. now rewrite <- (stem_json k), <- (stem_json k'), H. Qed.

Lemma json_name_component k :
  lacks "/" k = true -> Os.steps (json_name k) = [json_name k].
Proof.
  intros Hk. unfold Os.steps. rewrite split_lacks.
  - cbn [filter].
    assert (Hp : Os.proper (json_name k) = true).
    { unfold json_name, Os.proper. destruct k as [|a k]; [reflexivity|].
      cbn [String.append String.eqb]. destruct k; cbn [String.append];
        destruct (Ascii.eqb a "."); reflexivity. }
    now rewrite Hp.
  - unfold json_name. now rewrite lacks_app, Hk.
Qed.

Lemma comps_json_file dir k :
  dir <> EmptyString -> lacks "/" k = true ->
  Os.comps (dir ++ "/" ++ k ++ ".json") = (Os.comps dir ++ [json_name k])%list.
Proof.
  intros Hdir Hk. cbn [String.append].
  change (k ++ ".json") with (json_name k).
  now rewrite comps_app, json_name_component.
Qed.

Lemma comps_trailing_slash dir :
  dir <> EmptyString -> Os.comps (dir ++ "/") = Os.comps dir.
Proof.
  intros Hdir. cbn [String.append]. rewrite comps_app by assumption.
  cbn. apply List.app_nil_r.
Qed.

Lemma comps_exp_dir_nonempty path name i : Os.comps (exp_dir path name i) <> [].
Proof.
  unfold exp_dir.
  change (path ++ "/" ++ name ++ "_" ++ Py.str i)
    with (path ++ String "/" (name ++ ("_" ++ Py.str i))).
  destruct (string_dec path EmptyString) as [->|Hne].
  - cbn [String.append]. unfold Os.comps. rewrite prefix_char.
    change (Ascii.eqb "/" "/") with true. discriminate.
  - rewrite comps_app by assumption.
    intros H. apply app_eq_nil in H. destruct H as [_ H]. revert H.
    apply steps_with_extension.
    + apply split_lacks. cbn [String.append]. unfold lacks. cbn [all_chars].
      apply (str_lacks "/" i). reflexivity.
    + reflexivity.
Qed.

Lemma add_entry_files parent name fs : files (Os.add_entry parent name fs) = files fs.
Proof.
  unfold Os.add_entry. destruct (at_get parent (dirs fs)); [|reflexivity].
  now destruct (Py.mem name _).
Qed.

Lemma mem_app s a b : Py.mem s (a ++ b)%list = Py.mem s a || Py.mem s b.
Proof. unfold Py.mem. apply existsb_app. Qed.

Lemma mem_false_iff s l : Py.mem s l = false <-> ~ In s l.
Proof.
  rewrite <- mem_true_iff. destruct (Py.mem s l); split; congruence.
Qed.

Section SaveMappings.
Variable to_csv : DataFrame -> file.
Variable json_dump : value -> file * result unit.
Variable dir : string.
Hypothesis Hdir : dir <> EmptyString.

(** One plain mapping is written to its own file of the directory. *)
Lemma save_entry_mapping k m fs names0 :
  lacks "/" k = true ->
  at_get (Os.comps dir) (dirs fs) = Some names0 ->
  Py.mem (json_name k) names0 = false ->
  exists fs',
    save_entry to_csv json_dump dir (k, VMapping m) fs
    = (snd (json_dump (VMapping m)), fs')
    /\ at_get (Os.comps dir) (dirs fs') = Some (names0 ++ [json_name k])%list
    /\ files fs' = at_set (Os.comps dir ++ [json_name k])%list
                          (fst (json_dump (VMapping m))) (files fs).
Proof.
  intros Hk Hget Hmem. unfold save_entry, dump_to.
  destruct (json_dump (VMapping m)) as [f r]. cbn [fst snd].
  unfold Os.write_file. rewrite comps_json_file by assumption.
  rewrite List.removelast_last, List.last_last.
  unfold Os.exists_dir at 1. rewrite Hget.
  eexists. split; [reflexivity|]. split.
  - now apply add_entry_listing.
  - now rewrite add_entry_files.
Qed.

Lemma save_mappings_run entries : forall fs fs1 names0,
  all_mappings entries ->
  (forall k, In k (keys entries) -> lacks "/" k = true) ->
  NoDup (keys entries) ->
  at_get (Os.comps dir) (dirs fs) = Some names0 ->
  (forall k, In k (keys entries) -> Py.mem (json_name k) names0 = false) ->
  for_each (save_entry to_csv json_dump dir) entries fs = (Ok tt, fs1) ->
  at_get (Os.comps dir) (dirs fs1) = Some (names0 ++ map json_name (keys entries))%list
  /\ (forall k v, In (k, v) entries ->
                  at_get (Os.comps dir ++ [json_name k])%list (files fs1)
                  = Some (fst (json_dump v)))
  /\ (forall loc, (forall k, In k (keys entries) ->
                             loc <> (Os.comps dir ++ [json_name k])%list) ->
                  at_get loc (files fs1) = at_get loc (files fs)).
Proof.
  induction entries as [|[k v] rest IH]; intros fs fs1 names0 Hall Hkeys Hnd Hget Hfresh Hrun.
  - cbn [for_each] in Hrun. injection Hrun as <-.
    cbn [keys map]. rewrite List.app_nil_r.
    split; [assumption|]. split; [intros k v []|reflexivity].
  - destruct (Hall k v (or_introl eq_refl)) as [m ->].
    unfold keys in *. cbn [map fst] in *.
    inversion Hnd as [|? ? Hnotin Hnd']; subst.
    destruct (save_entry_mapping k m fs names0) as [fs' [Hstep [Hget' Hfiles']]];
      [apply Hkeys; now left | assumption | apply Hfresh; now left |].
    cbn [for_each] in Hrun. rewrite Hstep in Hrun. unfold and_then in Hrun.
    destruct (snd (json_dump (VMapping m))) as [[]|e]; [|discriminate].
    destruct (IH fs' fs1 (names0 ++ [json_name k])%list) as [Hls [Hwritten Hframe]];
      try assumption.
    + intros k' v' Hin. apply (Hall k' v'). now right.
    + intros k' Hin. apply Hkeys. now right.
    + intros k' Hin. rewrite mem_app, (Hfresh k' (or_intror Hin)). cbn [orb].
      apply mem_false_iff. intros [Heq|[]]. apply json_name_inj in Heq. congruence.
    + split; [|split].
      * now rewrite Hls, <- List.app_assoc.
      * intros k' v' [[= <- <-]|Hin]; [|now apply Hwritten with (v := v')].
        rewrite Hframe, Hfiles'; [apply at_get_set_same|].
        intros k' Hin Heq. apply app_inv_head in Heq. injection Heq as Heq.
        apply json_name_inj in Heq. congruence.
      * intros loc Hloc. rewrite Hframe, Hfiles'.
        -- apply at_get_set_other. apply Hloc. now left.
        -- intros k' Hin. apply Hloc. now right.
Qed.

End SaveMappings.

Lemma dict_set_fresh {V} k (v : V) d :
  dict_get k d = None -> dict_set k v d = (d ++ [(k, v)])%list.
Proof.
  induction d as [|[k' v'] d IH]; cbn [dict_get dict_set List.app]; [reflexivity|].
  destruct (String.eqb k k'); [discriminate|]. intros H. now rewrite IH.
Qed.

Lemma dict_get_snoc_other {V} k k' (v : V) d :
  k <> k' -> dict_get k d = None -> dict_get k (d ++ [(k', v)])%list = None.
Proof.
  intros Hne. apply String.eqb_neq in Hne.
  induction d as [|[k0 v0] d IH]; cbn [dict_get List.app].
  - now rewrite Hne.
  - destruct (String.eqb k k0); [discriminate | exact IH].
Qed.

(** Storing entries with new, distinct keys one after the other
    appends them. *)
Lemma store_all_fresh {V} (entries : list (string * V)) : forall acc,
  NoDup (keys entries) ->
  (forall k, In k (keys entries) -> dict_get k acc = None) ->
  fold_left (fun a kv => dict_set (fst kv) (snd kv) a) entries acc
  = (acc ++ entries)%list.
Proof.
  unfold keys. induction entries as [|[k v] rest IH]; intros acc Hnd Hfresh;
    cbn [fold_left map fst snd] in *.
  - now rewrite List.app_nil_r.
  - inversion Hnd as [|? ? Hnotin Hnd']; subst.
    rewrite dict_set_fresh by (apply Hfresh; now left).
    rewrite IH; [now rewrite <- List.app_assoc | assumption|].
    intros k' Hin. apply dict_get_snoc_other; [congruence | apply Hfresh; now right].
Qed.

Lemma load_entry_mapping dir fs k v f acc :
  dir <> EmptyString ->
  lacks "/" k = true ->
  Py.contains "variables_" (json_name k) = false ->
  Py.contains "parameters_" (json_name k) = false ->
  at_get (Os.comps dir ++ [json_name k])%list (files fs) = Some f ->
  as_json f = Some v ->
  load_entry (dir ++ "/") fs acc (json_name k) = Ok (dict_set k v acc).
Proof.
  intros Hdir Hk Hvar Hpar Hfile Hjson.
  unfold load_entry. rewrite Hvar, Hpar, stem_json. do 2 f_equal.
  unfold load_file. rewrite last_field_json.
  change (String.eqb "json" "csv") with false.
  change (String.eqb "json" "json") with true. cbv iota.
  unfold json_load, Os.read_file.
  rewrite append_assoc. unfold json_name at 1.
  rewrite comps_json_file by assumption. now rewrite Hfile, Hjson.
Qed.

Lemma load_mappings_run json_dump dir fs entries : forall acc,
  dir <> EmptyString ->
  plain_keys entries ->
  json_round_trip json_dump entries ->
  (forall k v, In (k, v) entries ->
               at_get (Os.comps dir ++ [json_name k])%list (files fs)
               = Some (fst (json_dump v))) ->
  load_entries (dir ++ "/") fs (map json_name (keys entries)) acc
  = Ok (fold_left (fun a kv => dict_set (fst kv) (snd kv) a) entries acc).
Proof.
  intros acc Hdir. revert acc.
  induction entries as [|[k v] rest IH]; intros acc Hplain Hcodec Hfiles; [reflexivity|].
  unfold keys. cbn [map fst load_entries fold_left snd].
  destruct (Hplain k (or_introl eq_refl)) as [Hk [Hvar Hpar]].
  rewrite (load_entry_mapping dir fs k v (fst (json_dump v)) acc Hdir Hk Hvar Hpar).
  - cbn [bind]. apply IH.
    + intros k' Hin. apply Hplain. now right.
    + intros k' v' Hin. apply Hcodec with (k := k'). now right.
    + intros k' v' Hin. apply Hfiles. now right.
  - apply Hfiles. now left.
  - apply Hcodec with (k := k). now left.
Qed.

Lemma dict_get_in {V} k (v : V) d :
  NoDup (keys d) -> In (k, v) d -> dict_get k d = Some v.
Proof.
  unfold keys. induction d as [|[k' v'] d IH]; intros Hnd Hin; [contradiction|].
  cbn [map fst] in Hnd. inversion Hnd as [|? ? Hnotin Hnd']; subst.
  cbn [dict_get]. destruct Hin as [[= -> ->]|Hin]; [now rewrite String.eqb_refl|].
  destruct (String.eqb_spec k k') as [->|_]; [|now apply IH].
  exfalso. apply Hnotin. change k' with (fst (k', v)). now apply in_map.
Qed.

Lemma dict_get_found {V} k (v : V) d : dict_get k d = Some v -> In (k, v) d.
Proof.
  induction d as [|[k' v'] d IH]; [discriminate|]. cbn [dict_get].
  destruct (String.eqb_spec k k') as [->|_]; [intros [= ->]; now left|].
  intros H. right. now apply IH.
Qed.

(** Two dictionaries with the same entries answer every lookup
    alike. *)
Lemma dict_get_rearranged {V} (d d' : list (string * V)) k :
  NoDup (keys d) -> Permutation d d' -> dict_get k d' = dict_get k d.
Proof.
  intros Hnd Hperm.
  assert (Hnd' : NoDup (keys d')).
  { unfold keys in *. apply (Permutation_NoDup (l := map fst d)); [|assumption].
    now apply Permutation_map. }
  destruct (dict_get k d) as [v|] eqn:E.
  - apply dict_get_in; [assumption|].
    apply (Permutation_in _ Hperm). now apply dict_get_found.
  - destruct (dict_get k d') as [v'|] eqn:E'; [|reflexivity].
    apply dict_get_found in E'.
    apply (Permutation_in _ (Permutation_sym Hperm)) in E'.
    apply (dict_get_in _ _ _ Hnd) in E'. congruence.
Qed.

(** X18: a container made of plain mappings survives the trip through
    the file system, in whatever order the directory is listed.  If
    its keys are distinct, contain no path separator and do not route
    to a nested section, and the JSON decoder reads back what the
    encoder writes, then after a [save] under an explicit non-zero id
    that returned, [load] with the same name, id and path returns a
    container with the same entries: every key is bound to the value
    it had.  The order of the keys is that of the listing. *)
Theorem load_after_save_mappings :
  forall to_csv json_dump (ls : Os.enumeration) (self : DataDict) (given : option string)
         (exp_name path : string) (i : Z) (fs fs1 : FS),
    rearranges ls ->
    given_name self given = Ok exp_name ->
    all_mappings self ->
    NoDup (keys self) ->
    plain_keys self ->
    json_round_trip json_dump self ->
    i <> 0 ->
    save to_csv json_dump ls self given (Some i) path fs = (Ok tt, fs1) ->
    exists dd,
      load ls (Some exp_name) (Some i) path fs1 = Ok dd
      /\ Permutation dd self
      /\ (forall k, dict_get k dd = dict_get k self)
      /\ map json_name (keys dd) = ls (map json_name (keys self)).
Proof.
  intros to_csv json_dump ls self given exp_name path i fs fs1
         Hperm Hgiven Hall Hnd Hplain Hcodec Hi Hsave.
  set (name := Py.replace " " "_" exp_name).
  set (dir := exp_dir path name i).
  assert (Hdir : dir <> EmptyString) by apply exp_dir_nonempty.
  (* what the save left behind *)
  assert (Hleft : at_get (Os.comps dir) (dirs fs1) = Some (map json_name (keys self))
                  /\ forall k v, In (k, v) self ->
                                 at_get (Os.comps dir ++ [json_name k])%list (files fs1)
                                 = Some (fst (json_dump v))).
  { unfold save in Hsave. destruct (Os.listdir ls "." fs) as [here|]; [|discriminate].
    destruct (if Py.mem path here then (Ok tt, fs) else Os.makedirs path fs)
      as [[[]|e] fs_mid]; cbn [and_then] in Hsave; [|discriminate].
    unfold save_target in Hsave. rewrite Hgiven in Hsave. cbn [bind] in Hsave.
    fold name dir in Hsave. unfold Os.makedirs in Hsave.
    destruct dir as [|c rest] eqn:Edir; [contradiction|]. rewrite <- Edir in *.
    destruct (Os.exists_dir (Os.comps dir) fs_mid) eqn:Hex;
      cbn [and_then] in Hsave; [discriminate|].
    pose proof (comps_exp_dir_nonempty path name i) as Hne. fold dir in Hne.
    destruct (rev (Os.comps dir)) as [|n above] eqn:Hrev.
    { apply (f_equal (@rev string)) in Hrev. rewrite rev_involutive in Hrev.
      contradiction. }
    assert (Hl : Os.comps dir = rev (n :: above))
      by (now rewrite <- Hrev, rev_involutive).
    assert (Hfresh : at_get (Os.comps dir) (dirs (Os.ensure_dir (n :: above) fs_mid))
                     = Some []).
    { rewrite Hl. apply ensure_dir_fresh. now rewrite <- Hl. }
    destruct (save_mappings_run to_csv json_dump dir Hdir self _ fs1 []
                Hall (fun k Hk => proj1 (Hplain k Hk)) Hnd Hfresh
                (fun _ _ => eq_refl) Hsave) as [Hls [Hwritten _]].
    split; assumption. }
  destruct Hleft as [Hls Hwritten].
  (* the entries in the order of the listing *)
  destruct (Permutation_map_inv (fun kv : string * value => json_name (fst kv)) self
              (l1 := ls (map json_name (keys self))))
    as [listed [Hlisted Hsame]].
  { unfold keys. rewrite map_map. rewrite <- (map_map fst json_name). apply Hperm. }
  assert (Hnames : ls (map json_name (keys self)) = map json_name (keys listed))
    by (rewrite Hlisted; unfold keys; now rewrite map_map).
  assert (Hnd' : NoDup (keys listed)).
  { unfold keys in *. apply (Permutation_NoDup (l := map fst self)); [|assumption].
    now apply Permutation_map. }
  exists listed. split; [|split; [|split]].
  - unfold load, _load, load_dir. fold name.
    destruct (Z.eqb_spec i 0) as [|_]; [contradiction|]. cbn [bind].
    replace (path ++ "/" ++ name ++ "_" ++ Py.str i ++ "/") with (dir ++ "/").
    2:{ unfold dir, exp_dir. rewrite !append_assoc. cbn [String.append].
        now rewrite ?append_assoc. }
    unfold Os.listdir. destruct (dir ++ "/") eqn:Eslash.
    { destruct dir; [contradiction | discriminate]. }
    rewrite <- Eslash, comps_trailing_slash, Hls by assumption. cbn [bind].
    rewrite Hnames.
    rewrite (load_mappings_run json_dump dir fs1 listed [] Hdir).
    + f_equal. apply (store_all_fresh listed []); [assumption | reflexivity].
    + intros k Hk. apply Hplain. unfold keys in *.
      apply (Permutation_in k (Permutation_sym (Permutation_map fst Hsame))). exact Hk.
    + intros k v Hin. apply (Hcodec k).
      apply (Permutation_in _ (Permutation_sym Hsame)). exact Hin.
    + intros k v Hin. apply Hwritten.
      apply (Permutation_in _ (Permutation_sym Hsame)). exact Hin.
  - now apply Permutation_sym.
  - intros k. now apply dict_get_rearranged.
  - now symmetry.
Qed.

Lemma load_after_save_mappings_witness :
  exists dd,
    load newest_first (Some "run") (Some 7) "out" sample_store_run = Ok dd
    /\ Permutation dd sample_run
    /\ (forall k, dict_get k dd = dict_get k sample_run)
    /\ map json_name (keys dd) = newest_first (map json_name (keys sample_run)).
Proof.
  apply (load_after_save_mappings sample_to_csv sample_json_dump newest_first sample_run
           None "run" "out" 7 sample_store sample_store_run).
  - intros names. apply Permutation_sym, Permutation_rev.
  - reflexivity.
  - intros k v [[= <- <-]|[[= <- <-]|[]]]; eexists; reflexivity.
  - repeat constructor; cbn; intuition discriminate.
  - intros k [<-|[<-|[]]]; repeat split; reflexivity.
  - intros k v _. reflexivity.
  - discriminate.
  - reflexivity.
Defined.

(** ** Stacking measures and variables *)

Lemma level_labels_named multi cols names : forall i ks,
  Pandas.named names = Some ks -> Pandas.level_labels multi cols i names = ks.
Proof.
  induction names as [|[n|] names IH]; intros i ks; cbn [Pandas.named Pandas.level_labels].
  - now intros [= <-].
  - destruct (Pandas.named names) as [ks'|] eqn:E; [|discriminate].
    cbn [option_map]. intros [= <-]. now rewrite (IH (i + 1) ks').
  - discriminate.
Qed.

Lemma length_range_from n : forall s, List.length (Pandas.range_from s n) = n.
Proof. induction n; intros s; cbn [Pandas.range_from List.length]; [reflexivity | now rewrite IHn]. Qed.

Lemma reset_index_columns d d' ks :
  Pandas.named (index_names d) = Some ks ->
  Pandas.reset_index d = Ok d' ->
  columns d' = (ks ++ columns d)%list /\ df_len d' = df_len d.
Proof.
  intros Hnamed. unfold Pandas.reset_index.
  rewrite (level_labels_named _ _ _ 0 ks Hnamed).
  destruct (Pandas.first_taken (rev ks) (columns d)); [discriminate|].
  intros [= <-]. cbn [columns]. split; [reflexivity|].
  unfold df_len, Pandas.renumber. cbn [rows].
  rewrite length_map, length_combine, length_range_from, length_map.
  apply Nat.min_id.
Qed.

Lemma reset_index_length d d' : Pandas.reset_index d = Ok d' -> df_len d' = df_len d.
Proof.
  unfold Pandas.reset_index.
  destruct (Pandas.first_taken _ (columns d)); [discriminate|].
  intros [= <-]. unfold df_len, Pandas.renumber. cbn [rows].
  rewrite length_map, length_combine, length_range_from, length_map.
  apply Nat.min_id.
Qed.

(** X19: asked for variables and measures, with the index kept,
    [arrange] stacks the two tables row-wise after turning their
    indexes into columns, the measures rows above the variable rows,
    and then restores the index levels of the variables table: the
    result has those index names, as many rows as both tables
    together, the measures columns before the variables columns, and
    reads each row's index from the columns of those names.  The
    container is returned as it was. *)
Theorem arrange_stacks_measures_on_variables :
  forall concat_columns reindex_level query_scenario (self : DataDict)
         (v m v' m' : DataFrame) (ks : list string),
    dict_get "variables" self = Some (VTable v) ->
    dict_get "measures" self = Some (VTable m) ->
    Pandas.named (index_names v) = Some ks ->
    Pandas.reset_index v = Ok v' ->
    Pandas.reset_index m = Ok m' ->
    exists r,
      arrange concat_columns reindex_level query_scenario self
              (Some (KList ["variables"; "measures"])) None None None None None true
      = (Ok (VTable r), self)
      /\ index_names r = index_names v
      /\ df_len r = (df_len m + df_len v)%nat
      /\ columns r = filter (fun c => negb (Py.mem c ks))
                            (Pandas.all_columns [m'; v'])
      /\ index_column r
         = map (fun row => map (fun k => row_get k row) ks) (rows m' ++ rows v')%list.
Proof.
  intros cc rl qs self v m v' m' ks Hv Hm Hnamed Hrv Hrm.
  destruct (reset_index_columns v v' ks Hnamed Hrv) as [Hcols Hlenv].
  pose proof (reset_index_length m m' Hrm) as Hlenm.
  unfold arrange, prepare_keys. cbn [make_list check_keys].
  rewrite (dict_get_some_mem "variables" self _ Hv),
          (dict_get_some_mem "measures" self _ Hm).
  change (negb (Py.mem "variables" supported_keys)) with false.
  change (negb (Py.mem "measures" supported_keys)) with false.
  cbn [negb bind].
  unfold arrange_variables, arrange_measures, arrange_parameters, arrange_finish.
  change (Py.mem "variables" ["variables"; "measures"]) with true.
  change (Py.mem "measures" ["variables"; "measures"]) with true.
  change (Py.mem "parameters" ["variables"; "measures"]) with false.
  cbv iota. unfold _combine_vars, getitem, getattr. rewrite Hv, Hm.
  cbn [bind is_none table_of]. rewrite Hrm, Hrv. cbn [bind Pandas.concat].
  rewrite Hnamed. unfold Pandas.set_index.
  assert (Hmissing : Pandas.missing_labels ks
                       (mkDF (Pandas.common_names [m'; v'])
                             (Pandas.all_columns [m'; v'])
                             (flat_map rows [m'; v'])) = []).
  { unfold Pandas.missing_labels. cbn [columns].
    assert (Hall : forall k, In k ks ->
                     negb (Py.mem k (Pandas.all_columns [m'; v'])) = false).
    { intros k Hk. apply negb_false_iff, mem_true_iff, all_columns_mem.
      exists v'. split; [right; now left|]. rewrite Hcols. apply in_or_app. now left. }
    clear - Hall. induction ks as [|k ks IH]; [reflexivity|].
    cbn [filter]. rewrite (Hall k (or_introl eq_refl)).
    apply IH. intros k' Hk'. apply Hall. now right. }
  rewrite Hmissing. cbn [bind negb]. eexists. split; [reflexivity|].
  unfold df_len at 1, index_column. cbn [index_names columns rows flat_map].
  rewrite List.app_nil_r. repeat split.
  - clear - Hnamed. revert ks Hnamed.
    induction (index_names v) as [|[n|] names IH]; intros ks; cbn [Pandas.named].
    + now intros [= <-].
    + destruct (Pandas.named names) as [ks'|] eqn:E; [|discriminate].
      cbn [option_map]. intros [= <-]. cbn [map]. now rewrite (IH ks').
    + discriminate.
  - rewrite length_map, List.length_app. unfold df_len in *. now rewrite Hlenm, Hlenv.
  - now rewrite map_map.
Qed.

Lemma arrange_stacks_measures_on_variables_witness :
  exists r,
    arrange sample_concat_columns sample_reindex_level sample_query_scenario
            sample_single_run
            (Some (KList ["variables"; "measures"])) None None None None None true
    = (Ok (VTable r), sample_single_run)
    /\ index_names r = [Some "t"]
    /\ df_len r = 3%nat
    /\ columns r = ["index"; "m"; "x"]
    /\ index_column r = [[CNaN]; [CInt 0]; [CInt 1]].
Proof.
  destruct (arrange_stacks_measures_on_variables
              sample_concat_columns sample_reindex_level sample_query_scenario
              sample_single_run
              (mkDF [Some "t"] ["x"]
                    [([CInt 0], [("x", CInt 5)]); ([CInt 1], [("x", CInt 6)])])
              (mkDF [None] ["m"] [([CInt 0], [("m", CInt 4)])])
              _ _ ["t"] eq_refl eq_refl eq_refl eq_refl eq_refl)
    as [r [Hrun Hshape]].
  exists r. split; [exact Hrun | exact Hshape].
Defined.

(** ** The printed form *)

Lemma line_breaks_app a b : line_breaks (a ++ b) = (line_breaks a + line_breaks b)%nat.
Proof.
  induction a as [|c a IH]; cbn [String.append line_breaks]; [reflexivity|].
  rewrite IH. lia.
Qed.

Lemma lacks_line_breaks s : lacks "010" s = true -> line_breaks s = 0%nat.
Proof.
  unfold lacks. induction s as [|c s IH]; cbn [all_chars line_breaks]; [reflexivity|].
  intros H. apply andb_true_iff in H. destruct H as [Hc Hs].
  apply negb_true_iff in Hc. now rewrite Hc, IH.
Qed.

Lemma count_text_breaks n : line_breaks (count_text n) = 0%nat.
Proof. apply lacks_line_breaks, str_lacks. reflexivity. Qed.

Lemma plural_breaks n : line_breaks (plural n "s" "") = 0%nat.
Proof. unfold plural. now destruct (Nat.eqb n 1). Qed.

Lemma append_empty s : s ++ "" = s.
Proof. induction s as [|c s IH]; cbn [String.append]; [reflexivity | now rewrite IH]. Qed.

Lemma describe_breaks :
  forall v, single_line_keys v = true -> line_breaks (describe v) = entry_count v.
Proof.
  fix IH 1. intros [| c | d | d | m | es] H.
  - reflexivity.
  - now destruct c.
  - cbn [describe entry_count].
    now rewrite !line_breaks_app, !count_text_breaks, !plural_breaks.
  - reflexivity.
  - cbn [describe entry_count].
    now rewrite !line_breaks_app, !count_text_breaks, !plural_breaks.
  - cbn [describe entry_count single_line_keys] in *. revert H. revert es.
    fix IHes 1. intros [|[k v] r] H; [reflexivity|].
    apply andb_true_iff in H. destruct H as [H Hr].
    apply andb_true_iff in H. destruct H as [Hk Hv].
    rewrite !line_breaks_app, (lacks_line_breaks k Hk), (IH v Hv), (IHes r Hr).
    reflexivity.
Qed.

Lemma repr_lines_breaks i es :
  lacks "010" i = true ->
  single_line_keys (VDataDict es) = true ->
  line_breaks (repr_lines i es) = entry_count (VDataDict es).
Proof.
  intros Hi. induction es as [|[k v] r IH]; [reflexivity|].
  cbn [single_line_keys entry_count repr_lines] in *.
  intros H. apply andb_true_iff in H. destruct H as [H Hr].
  apply andb_true_iff in H. destruct H as [Hk Hv].
  rewrite !line_breaks_app, (lacks_line_breaks i Hi), (lacks_line_breaks k Hk),
          (describe_breaks v Hv), (IH Hr).
  reflexivity.
Qed.

(** X20: the printed form of a container has one line per entry,
    those of nested containers at any depth included, after the
    opening line and before the closing brace, as long as no key
    contains a line break; and a nested container is printed inside
    its parent exactly as [__repr__(indent=True)] prints it. *)
Theorem repr_one_line_per_entry :
  forall (self : DataDict),
    single_line_keys (VDataDict self) = true ->
    line_breaks (__repr__ self false) = S (entry_count (VDataDict self))
    /\ line_breaks (__repr__ self true) = entry_count (VDataDict self)
    /\ describe (VDataDict self) = __repr__ self true.
Proof.
  intros self H. unfold __repr__. split; [|split].
  - rewrite !line_breaks_app, repr_lines_breaks by (reflexivity || assumption).
    cbn. lia.
  - rewrite !line_breaks_app, repr_lines_breaks by (reflexivity || assumption).
    cbn. lia.
  - cbn [String.append]. rewrite append_empty. clear H.
    cbn [describe].
    induction self as [|[k v] r IH]; [reflexivity|].
    cbn [repr_lines]. now rewrite IH.
Qed.

Lemma repr_one_line_per_entry_witness :
  line_breaks (__repr__ sample_nested false) = S (entry_count (VDataDict sample_nested))
  /\ line_breaks (__repr__ sample_nested true) = entry_count (VDataDict sample_nested)
  /\ describe (VDataDict sample_nested) = __repr__ sample_nested true.
Proof. apply (repr_one_line_per_entry sample_nested). reflexivity. Defined.

(** ** File names of nested sections *)

Lemma replace_from_skip old new s1 : forall k,
  Py.replace_from old new (s1 ++ k) (String.length s1) = Py.replace_from old new k 0.
Proof.
  induction s1 as [|c s1 IH]; intros k; cbn [String.append String.length Py.replace_from].
  - reflexivity.
  - apply IH.
Qed.

Lemma replace_prefix c old new k :
  Py.replace (String c old) new (String c old ++ k)
  = new ++ Py.replace (String c old) new k.
Proof.
  unfold Py.replace. change (String c old ++ k) with (String c (old ++ k)).
  cbn [Py.replace_from].
  assert (Hp : String.prefix (String c old) (String c (old ++ k)) = true)
    by apply (prefix_app (String c old) k).
  rewrite Hp. cbn [String.length].
  replace (S (String.length old) - 1)%nat with (String.length old) by lia.
  now rewrite replace_from_skip.
Qed.

Lemma replace_absent old new s :
  Py.contains old s = false -> Py.replace old new s = s.
Proof.
  unfold Py.replace. induction s as [|a s IH]; [reflexivity|].
  cbn [Py.contains Py.replace_from]. intros H. apply orb_false_iff in H.
  destruct H as [Hp Hs]. rewrite Hp. now rewrite IH.
Qed.

Lemma nested_variables_slot k ext :
  lacks "." ext = true ->
  slot_of ("variables_" ++ k ++ "." ++ ext)
  = Nested "variables" (Py.replace "variables_" "" k).
Proof.
  intros Hext. unfold slot_of. rewrite contains_app. f_equal.
  assert (Hstem : stem ("variables_" ++ k ++ "." ++ ext) = "variables_" ++ k).
  { unfold stem, Py.drop_last.
    replace ("variables_" ++ k ++ "." ++ ext) with (("variables_" ++ k) ++ String "." ext)
      by (now rewrite append_assoc).
    rewrite last_field_app by assumption.
    rewrite length_append. cbn [String.length].
    replace (String.length ("variables_" ++ k) + S (String.length ext)
             - (String.length ext + 1))%nat
      with (String.length ("variables_" ++ k)) by lia.
    apply substring_prefix. }
  rewrite Hstem. apply (replace_prefix "v" "ariables_" "" k).
Qed.



(** With a key that holds ['variables_'] the table does not come back
    under its key. *)
Remark nested_variables_key_not_restored :
  load_entry "out/exp_1/" sample_fs [] "variables_my_variables_agent.csv"
  = store_nested "variables" "my_agent"
                 (load_file "out/exp_1/" "variables_my_variables_agent.csv" sample_fs) [].
Proof. reflexivity. Qed.

(** ** Variable combiner: the empty column filter *)

Lemma select_by_no_columns es : select_by_columns [] es = Ok [].
Proof.
  induction es as [|[k v] es IH]; [reflexivity|].
  cbn [select_by_columns any_column bind]. now rewrite IH.
Qed.

(** X22: an empty list of column names is a filter, not the absence
    of one: over a container of several entries it keeps no table,
    and the concatenation of nothing raises [ValueError], whatever
    the entries and the object-type filter are. *)
Theorem combine_vars_empty_var_keys :
  forall (self : DataDict) (es : list (string * value)) (obj_types : option keys_arg),
    dict_get "variables" self = Some (VDataDict es) ->
    List.length es <> 1%nat ->
    _combine_vars self obj_types (Some (KList []))
    = Raise (ValueError "No objects to concatenate").
Proof.
  intros self es ot Hget Hlen.
  rewrite (combine_vars_many self es ot (Some (KList [])) Hget Hlen).
  unfold concat_vars.
  assert (Hitems : (match ot with
                    | None => items (VDataDict es)
                    | Some _ => items (VDataDict es)
                    end) = Ok es) by now destruct ot.
  destruct ot; cbn [items bind make_list]; rewrite select_by_no_columns; reflexivity.
Qed.

Lemma combine_vars_empty_var_keys_witness :
  _combine_vars [("variables",
                  VDataDict [("A", VTable sample_agents); ("B", VTable sample_envs)])]
                None (Some (KList []))
  = Raise (ValueError "No objects to concatenate").
Proof.
  apply (combine_vars_empty_var_keys _
           [("A", VTable sample_agents); ("B", VTable sample_envs)] None).
  - reflexivity.
  - cbn. lia.
Defined.

(** ** Experiment ids and the order of the listing *)

(** X23: the id that the discovery returns does not depend on the
    order in which the directory is listed: two listings with the
    same entries (each as often in one as in the other) give the same
    highest id. *)
Theorem last_id_among_any_order :
  forall (name : string) (names names' : list string) (last : Z),
    (forall s, In s names <-> In s names') ->
    last_id_among name names = Ok last ->
    last_id_among name names' = Ok last.
Proof.
  intros name names names' last Hsame Hlast.
  now apply (last_id_among_same_entries name names names').
Qed.

Lemma last_id_among_any_order_witness :
  last_id_among "exp" ["notes"; "exp_3"; "exp_1"; "exp_3"] = Ok 3.
Proof.
  apply (last_id_among_any_order "exp" ["exp_1"; "exp_3"; "notes"]).
  - intros s. cbn. intuition.
  - reflexivity.
Defined.

(** ** Arranging the measures alone *)

(** X25: asked for the measures alone, with a list of measure names
    and the index kept, [arrange] returns the measures table cut down
    to exactly these columns, with its index and all its rows, when
    the table has them all, and otherwise raises the lookup error of
    the projection; the container is returned as it was. *)
Theorem arrange_measures_only :
  forall concat_columns reindex_level query_scenario (self : DataDict)
         (m : DataFrame) (ks : list string)
         (var_keys obj_types param_keys : option keys_arg),
    dict_get "measures" self = Some (VTable m) ->
    ks <> [] ->
    arrange concat_columns reindex_level query_scenario self
            (Some (KStr "measures")) var_keys obj_types (Some (KList ks)) param_keys
            None true
    = (match Pandas.missing_labels ks m with
       | [] => Ok (VTable (mkDF (index_names m) ks (map (project_row ks) (rows m))))
       | miss =>
           Raise (KeyError
                    (if Nat.eqb (List.length miss) (List.length ks)
                     then "None of [Index(" ++ Py.repr_list ks
                          ++ ", dtype='object')] are in the [columns]"
                     else Py.repr_list miss ++ " not in index"))
       end, self).
Proof.
  intros cc rl qs self m ks vk ot pk Hm Hks.
  unfold arrange, prepare_keys. cbn [make_list check_keys].
  rewrite (dict_get_some_mem "measures" self _ Hm).
  change (negb (Py.mem "measures" supported_keys)) with false.
  cbn [negb bind].
  unfold arrange_variables, arrange_measures, arrange_parameters, arrange_finish.
  change (Py.mem "variables" ["measures"]) with false.
  change (Py.mem "measures" ["measures"]) with true.
  change (Py.mem "parameters" ["measures"]) with false.
  cbv iota. unfold getattr. rewrite Hm. cbn [bind].
  assert (Htruthy : truthy (Some (KList ks)) = true)
    by (destruct ks; [contradiction | reflexivity]).
  rewrite Htruthy. cbn [select_value select]. unfold Pandas.getitem.
  destruct (Pandas.missing_labels ks m) as [|x miss]; [reflexivity|].
  now destruct (Nat.eqb (List.length (x :: miss)) (List.length ks)).
Qed.

Lemma arrange_measures_only_witness :
  arrange sample_concat_columns sample_reindex_level sample_query_scenario
          sample_experiment (Some (KStr "measures")) None None
          (Some (KList ["m"; "n"])) None None true
  = (Raise (KeyError "['n'] not in index"), sample_experiment).
Proof.
  apply (arrange_measures_only sample_concat_columns sample_reindex_level
           sample_query_scenario sample_experiment sample_measures ["m"; "n"]
           None None None).
  - reflexivity.
  - discriminate.
Defined.

Lemma arrange_frame_witness :
  dict_get "measures"
           (snd (arrange sample_concat_columns sample_reindex_level sample_query_scenario
                         sample_experiment (Some (KList ["measures"; "parameters"]))
                         None None None None None false))
  = dict_get "measures" sample_experiment.
Proof.
  apply (arrange_frame sample_concat_columns sample_reindex_level sample_query_scenario
           sample_experiment (Some (KList ["measures"; "parameters"]))
           None None None None None false "measures").
  discriminate.
Defined.

(** ** The round trip of a single run *)

Lemma named_names names ks : Pandas.named names = Some ks -> names = map Some ks.
Proof.
  revert ks. induction names as [|[n|] names IH]; intros ks; cbn [Pandas.named].
  - now intros [= <-].
  - destruct (Pandas.named names) as [r|]; [|discriminate].
    cbn [option_map]. intros [= <-]. cbn [map]. f_equal. now apply IH.
  - discriminate.
Qed.

Lemma list_eqb_eq (a : list string) : forall b, list_eqb String.eqb a b = true -> a = b.
Proof.
  induction a as [|x a IH]; intros [|y b]; cbn [list_eqb]; try discriminate; [reflexivity|].
  intros H. apply andb_true_iff in H. destruct H as [Hx Hr].
  apply String.eqb_eq in Hx. subst y. f_equal. now apply IH.
Qed.

Lemma first_taken_none labels cols :
  (forall l, In l labels -> Py.mem l cols = false) ->
  Pandas.first_taken labels cols = None.
Proof.
  induction labels as [|l labels IH]; intros H; cbn [Pandas.first_taken]; [reflexivity|].
  rewrite (H l (or_introl eq_refl)). apply IH. intros l' Hl'. apply H. now right.
Qed.

Lemma i_cols_distinct : NoDup i_cols.
Proof. unfold i_cols. repeat constructor; cbn; intuition discriminate. Qed.

(** Looking the levels up in a record that starts with them gives the
    index tuple back. *)
Lemma lookup_levels ks : forall idx rec,
  NoDup ks -> List.length idx = List.length ks ->
  map (fun k => row_get k (idx, (combine ks idx ++ rec)%list)) ks = idx.
Proof.
  unfold row_get. cbn [snd].
  induction ks as [|k ks IH]; intros [|x idx] rec Hnd Hlen; try discriminate; [reflexivity|].
  inversion Hnd as [|? ? Hnotin Hnd']; subst.
  cbn [combine List.app map dict_get]. rewrite String.eqb_refl. f_equal.
  etransitivity; [|apply (IH idx rec Hnd'); cbn in Hlen; lia].
  apply map_ext_in. intros k' Hk'.
  destruct (String.eqb_spec k' k) as [->|_]; [contradiction | reflexivity].
Qed.

Lemma keep_columns ks (rec : list (string * cell)) :
  (forall c, In c (keys rec) -> Py.mem c ks = false) ->
  filter (fun kv : string * cell => negb (Py.mem (fst kv) ks)) rec = rec.
Proof.
  unfold keys. induction rec as [|[c x] rec IH]; intros Hrec; [reflexivity|].
  cbn [filter fst]. rewrite (Hrec c (or_introl eq_refl)). cbn [negb]. f_equal.
  apply IH. intros c' Hc'. apply Hrec. now right.
Qed.

Lemma drop_levels ks : forall ks0 idx (rec : list (string * cell)),
  incl ks0 ks ->
  (forall c, In c (keys rec) -> Py.mem c ks = false) ->
  filter (fun kv : string * cell => negb (Py.mem (fst kv) ks)) (combine ks0 idx ++ rec)%list
  = rec.
Proof.
  induction ks0 as [|k ks0 IH]; intros idx rec Hincl Hrec.
  - now apply keep_columns.
  - destruct idx as [|x idx]; [now apply keep_columns|].
    cbn [combine List.app filter fst].
    assert (Hk : Py.mem k ks = true) by (apply mem_true_iff, Hincl; now left).
    rewrite Hk. cbn [negb]. apply IH; [|assumption].
    intros c Hc. apply Hincl. now right.
Qed.

Lemma map_renumber {B} (g : list (string * cell) -> B) rs :
  map (fun r : row => g (snd r)) (Pandas.renumber rs) = map (fun r : row => g (snd r)) rs.
Proof.
  transitivity (map g (map snd (Pandas.renumber rs))); [symmetry; apply map_map|].
  rewrite renumber_records. apply map_map.
Qed.

Lemma distinct_nodup l : distinct l = true -> NoDup l.
Proof.
  induction l as [|x l IH]; cbn [distinct]; intros H; constructor.
  - apply andb_true_iff in H. destruct H as [H _].
    now apply negb_true_iff, mem_false_iff in H.
  - apply andb_true_iff in H. now apply IH.
Qed.

Lemma dict_get_app {V} k (a b : list (string * V)) :
  dict_get k (a ++ b)%list
  = match dict_get k a with Some x => Some x | None => dict_get k b end.
Proof.
  induction a as [|[k' v'] a IH]; cbn [List.app dict_get]; [reflexivity|].
  now destruct (String.eqb k k').
Qed.

Lemma dict_get_combine (ks : list string) : forall (idx : list cell) k,
  List.length idx = List.length ks -> In k ks ->
  exists x, dict_get k (combine ks idx) = Some x.
Proof.
  induction ks as [|k0 ks IH]; intros [|x idx] k Hlen Hin; try discriminate;
    [contradiction|].
  cbn [combine dict_get]. destruct (String.eqb_spec k k0) as [_|Hne]; [eauto|].
  apply IH; [cbn in Hlen; lia|]. destruct Hin as [Heq|Hin]; [congruence | assumption].
Qed.

Lemma filter_none {A} (f : A -> bool) l :
  (forall x, In x l -> f x = false) -> filter f l = [].
Proof.
  induction l as [|x l IH]; intros H; [reflexivity|]. cbn [filter].
  rewrite (H x (or_introl eq_refl)). apply IH. intros y Hy. apply H. now right.
Qed.

Lemma filter_all {A} (f : A -> bool) l :
  (forall x, In x l -> f x = true) -> filter f l = l.
Proof.
  induction l as [|x l IH]; intros H; [reflexivity|]. cbn [filter].
  rewrite (H x (or_introl eq_refl)). f_equal. apply IH. intros y Hy. apply H. now right.
Qed.

Section Recognised.
Variable t : DataFrame.
Hypothesis Hrec : recognised_index t = true.

Lemma recognised_facts :
  index_names t = map Some (level_names t)
  /\ level_names t <> []
  /\ NoDup (level_names t)
  /\ (forall k, In k (level_names t) -> In k i_cols)
  /\ (forall c, In c (columns t) -> Py.mem c i_cols = false)
  /\ (forall r, In r (rows t) ->
                List.length (fst r) = List.length (level_names t)
                /\ forall c, In c (keys (snd r)) -> In c (columns t)).
Proof.
  unfold recognised_index in Hrec. unfold level_names.
  destruct (Pandas.named (index_names t)) as [ks|] eqn:Hnamed; [|discriminate].
  apply andb_true_iff in Hrec. destruct Hrec as [H Hrows].
  apply andb_true_iff in H. destruct H as [H Hcols].
  apply andb_true_iff in H. destruct H as [H Hsub].
  apply andb_true_iff in H. destruct H as [Hne Hnd].
  rewrite forallb_forall in Hsub, Hcols, Hrows.
  split; [now apply named_names|]. split; [intros ->; discriminate|].
  split; [now apply distinct_nodup|].
  split; [intros k Hk; now apply mem_true_iff, Hsub|].
  split; [intros c Hc; now apply negb_true_iff, Hcols|].
  intros r Hr. specialize (Hrows r Hr). apply andb_true_iff in Hrows.
  destruct Hrows as [Hlen Hbinds]. apply Nat.eqb_eq in Hlen.
  rewrite forallb_forall in Hbinds. split; [assumption|].
  intros c Hc. now apply mem_true_iff, Hbinds.
Qed.

Lemma load_order_levels k : In k (load_order t) <-> In k (level_names t).
Proof.
  destruct recognised_facts as [_ [_ [_ [Hsub _]]]].
  unfold load_order. rewrite filter_In, mem_true_iff. split; [tauto|].
  intros Hk. split; [now apply Hsub | assumption].
Qed.

(** A table that has its index levels in the order of [i_cols] is its
    own reordering. *)
Lemma reordered_in_order : in_load_order t = true -> reordered t = t.
Proof.
  intros Horder. apply list_eqb_eq in Horder.
  destruct recognised_facts as [Hnames [_ [Hnd [_ [_ Hrows]]]]].
  unfold reordered. rewrite <- Horder, <- Hnames.
  destruct t as [names cols rws]. cbn [index_names columns rows] in *. f_equal.
  rewrite <- (map_id rws) at 2. apply map_ext_in. intros [idx rec] Hr.
  destruct (Hrows _ Hr) as [Hlen _]. cbn [fst snd] in *. f_equal.
  unfold level_value. cbn [fst].
  set (ks := level_names {| index_names := names; columns := cols; rows := rws |}) in *.
  pose proof (lookup_levels ks idx [] Hnd Hlen) as Hlook.
  unfold row_get in Hlook. cbn [snd] in Hlook. rewrite List.app_nil_r in Hlook.
  exact Hlook.
Qed.

(** [load_file] undoes the flattening of a table with a recognised
    index, up to the order of the index levels. *)
Lemma load_file_restores dir f fs flat :
  Py.last_field "." f = "csv" ->
  read_csv (dir ++ f) fs = Some flat ->
  Pandas.reset_index t = Ok flat ->
  load_file dir f fs = VTable (reordered t).
Proof.
  intros Hext Hread Hflat.
  destruct recognised_facts as [Hnames [Hne [Hnd [Hsub [Hcols Hrows]]]]].
  set (ks := level_names t) in *.
  assert (Hnamed : Pandas.named (index_names t) = Some ks).
  { unfold ks, level_names. unfold recognised_index in Hrec.
    now destruct (Pandas.named (index_names t)). }
  assert (Hapart : forall k, In k ks -> Py.mem k (columns t) = false).
  { intros k Hk. apply mem_false_iff. intros Hc.
    apply Hcols, mem_false_iff in Hc. now apply Hc, Hsub. }
  (* the flat table *)
  unfold Pandas.reset_index in Hflat.
  rewrite (level_labels_named _ _ _ 0 ks Hnamed) in Hflat.
  rewrite first_taken_none in Hflat
    by (intros l Hl; apply Hapart; now apply in_rev).
  injection Hflat as <-.
  (* what load_file makes of it *)
  unfold load_file. rewrite Hext, Hread.
  change (String.eqb "csv" "csv") with true. cbv iota. cbn [columns].
  assert (Hfound : filter (fun i => Py.mem i (ks ++ columns t)%list) i_cols = load_order t).
  { unfold load_order. fold ks. apply filter_ext_in. intros i Hi. rewrite mem_app.
    destruct (Py.mem i (columns t)) eqn:Ei; [|apply orb_false_r].
    apply mem_true_iff, Hcols, mem_false_iff in Ei. contradiction. }
  rewrite Hfound.
  destruct (load_order t) as [|k0 order'] eqn:Eorder.
  { destruct ks as [|k ks'] eqn:Eks; [contradiction|].
    assert (Hk : In k (load_order t)) by (apply load_order_levels; fold ks; rewrite Eks; now left).
    rewrite Eorder in Hk. contradiction. }
  rewrite <- Eorder.
  unfold Pandas.set_index, Pandas.missing_labels. cbn [columns rows].
  rewrite filter_none.
  2:{ intros k Hk. apply negb_false_iff, mem_true_iff, in_or_app. left.
      now apply load_order_levels. }
  f_equal. unfold reordered. f_equal.
  - rewrite filter_app, filter_none, filter_all; [reflexivity | |].
    + intros c Hc. apply negb_true_iff, mem_false_iff. intros Hin.
      apply load_order_levels in Hin. apply Hapart, mem_false_iff in Hin. contradiction.
    + intros k Hk. apply negb_false_iff, mem_true_iff. now apply load_order_levels.
  - rewrite (map_renumber
               (fun rec => (map (fun k => match dict_get k rec with
                                          | Some x => x
                                          | None => CNaN
                                          end) (load_order t),
                            filter (fun kv : string * cell =>
                                      negb (Py.mem (fst kv) (load_order t))) rec))).
    rewrite map_map. cbn [snd].
    apply map_ext_in. intros [idx rec] Hr.
    destruct (Hrows _ Hr) as [Hlen Hbinds]. cbn [fst snd] in *. f_equal.
    + apply map_ext_in. intros k Hk. unfold level_value. cbn [fst]. fold ks.
      rewrite dict_get_app.
      destruct (dict_get_combine ks idx k Hlen) as [x ->]; [|reflexivity].
      now apply load_order_levels.
    + apply drop_levels.
      * intros k Hk. now apply load_order_levels.
      * intros c Hc. apply mem_false_iff. intros Hin.
        apply load_order_levels in Hin. apply Hapart, mem_false_iff in Hin.
        apply Hin. now apply Hbinds.
Qed.

End Recognised.

(** *** [arrange] reads the container through its lookups *)

Lemma mem_keys {V} k (d : list (string * V)) : Py.mem k (keys d) = dict_has k d.
Proof.
  unfold dict_has, Py.mem, keys.
  induction d as [|[k' v'] d IH]; [reflexivity|].
  cbn [map fst existsb dict_get]. destruct (String.eqb k k'); [reflexivity | exact IH].
Qed.

Section SameLookups.
Variable a : DataDict.
Variable b : DataDict.
Hypothesis Hsame : forall k, dict_get k a = dict_get k b.

Lemma mem_keys_same k : Py.mem k (keys a) = Py.mem k (keys b).
Proof. rewrite !mem_keys. unfold dict_has. now rewrite Hsame. Qed.

Lemma check_keys_same ks : check_keys a ks = check_keys b ks.
Proof.
  induction ks as [|k ks IH]; [reflexivity|]. cbn [check_keys].
  rewrite mem_keys_same. destruct (negb (Py.mem k (keys b))); [reflexivity|].
  destruct (negb (Py.mem k supported_keys)); [reflexivity | exact IH].
Qed.

Lemma combine_vars_same ot vk : _combine_vars a ot vk = _combine_vars b ot vk.
Proof. unfold _combine_vars, getitem. now rewrite Hsame. Qed.

Lemma replicate_same x y dfp0 :
  replicate (dict_set "parameters" x a) dfp0 = replicate (dict_set "parameters" y b) dfp0.
Proof.
  unfold replicate, getattr. rewrite !dict_get_set_other by discriminate.
  now rewrite Hsame.
Qed.

Lemma replicate_same_plain dfp0 : replicate a dfp0 = replicate b dfp0.
Proof. unfold replicate, getattr. now rewrite Hsame. Qed.

Lemma combine_pars_same : fst (_combine_pars a) = fst (_combine_pars b).
Proof.
  unfold _combine_pars, getattr. rewrite Hsame.
  destruct (dict_get "parameters" b) as [[| | d | | m | ps]|]; cbn [fst]; try reflexivity.
  - apply replicate_same_plain.
  - apply replicate_same_plain.
  - destruct (match dict_get "varied" ps with Some v => Ok v | None => _ end)
      as [varied|]; [|reflexivity].
    destruct (let* fixed := _ in items fixed) as [its|]; [|reflexivity].
    destruct (assign_all its varied) as [[u|e] dfp0]; cbn [fst]; [|reflexivity].
    apply replicate_same.
Qed.

Lemma arrange_same concat_columns reindex_level query_scenario
    data_keys var_keys obj_types measure_keys param_keys scenarios index :
  fst (arrange concat_columns reindex_level query_scenario a
               data_keys var_keys obj_types measure_keys param_keys scenarios index)
  = fst (arrange concat_columns reindex_level query_scenario b
                 data_keys var_keys obj_types measure_keys param_keys scenarios index).
Proof.
  unfold arrange.
  assert (Hkeys : match prepare_keys a data_keys, prepare_keys b data_keys with
                  | Ok ka, Ok kb => forall k, Py.mem k ka = Py.mem k kb
                  | Raise e, Raise e' => e = e'
                  | _, _ => False
                  end).
  { unfold prepare_keys. destruct data_keys as [dk|].
    - rewrite check_keys_same. destruct (check_keys b (make_list dk)); cbn [bind]; auto.
    - intros k.
      assert (Hin : forall d : DataDict,
                 Py.mem k (filter (fun k0 => Py.mem k0 supported_keys) (keys d))
                 = Py.mem k supported_keys && Py.mem k (keys d)).
      { intros d. destruct (Py.mem k (filter _ (keys d))) eqn:E.
        - apply mem_true_iff, filter_In in E. destruct E as [E1 E2].
          apply mem_true_iff in E1. now rewrite E1, E2.
        - destruct (Py.mem k supported_keys) eqn:E1, (Py.mem k (keys d)) eqn:E2;
            try reflexivity.
          exfalso. apply mem_false_iff in E. apply E, filter_In.
          split; [now apply mem_true_iff | assumption]. }
      now rewrite !Hin, mem_keys_same. }
  destruct (prepare_keys a data_keys) as [ka|ea], (prepare_keys b data_keys) as [kb|eb];
    try contradiction; [|now subst].
  unfold arrange_variables, arrange_measures, arrange_parameters, getattr.
  rewrite !Hkeys, combine_vars_same, !Hsame.
  destruct (let* dfv := _ in _) as [dfv|]; [|reflexivity].
  destruct (Py.mem "parameters" kb); [|reflexivity].
  pose proof combine_pars_same as Hpars.
  destruct (_combine_pars a) as [ra a'], (_combine_pars b) as [rb b'].
  cbn [fst] in *. now subst.
Qed.

End SameLookups.

(** *** What [save] leaves of a single run *)

Lemma write_file_new dir f c fs names0 :
  dir <> EmptyString ->
  Os.steps f = [f] ->
  at_get (Os.comps dir) (dirs fs) = Some names0 ->
  Py.mem f names0 = false ->
  exists fs',
    Os.write_file (dir ++ String "/" f) c fs = (Ok tt, fs')
    /\ at_get (Os.comps dir) (dirs fs') = Some (names0 ++ [f])%list
    /\ files fs' = at_set (Os.comps dir ++ [f])%list c (files fs).
Proof.
  intros Hdir Hf Hget Hmem. unfold Os.write_file.
  rewrite comps_app, Hf by assumption.
  rewrite List.removelast_last, List.last_last.
  unfold Os.exists_dir at 1. rewrite Hget.
  eexists. split; [reflexivity|]. split.
  - now apply add_entry_listing.
  - now rewrite add_entry_files.
Qed.

Lemma save_run_files to_csv json_dump dir lg p v m fs fs1 :
  dir <> EmptyString ->
  at_get (Os.comps dir) (dirs fs) = Some [] ->
  for_each (save_entry to_csv json_dump dir) (run_sections lg p v m) fs = (Ok tt, fs1) ->
  at_get (Os.comps dir) (dirs fs1) = Some run_files
  /\ at_get (Os.comps dir ++ ["log.json"])%list (files fs1)
     = Some (fst (json_dump (VMapping lg)))
  /\ at_get (Os.comps dir ++ ["parameters.json"])%list (files fs1)
     = Some (fst (json_dump (VMapping p)))
  /\ at_get (Os.comps dir ++ ["variables.csv"])%list (files fs1) = Some (to_csv v)
  /\ at_get (Os.comps dir ++ ["measures.csv"])%list (files fs1) = Some (to_csv m).
Proof.
  intros Hdir Hget. unfold run_sections.
  cbn [for_each save_entry String.append]. unfold dump_to.
  destruct (json_dump (VMapping lg)) as [f1 r1], (json_dump (VMapping p)) as [f2 r2].
  cbn [fst].
  destruct (write_file_new dir "log.json" f1 fs [] Hdir eq_refl Hget eq_refl)
    as [fs_1 [-> [Hget1 Hfiles1]]].
  destruct r1 as [[]|]; cbn [and_then]; [|discriminate].
  destruct (write_file_new dir "parameters.json" f2 fs_1 _ Hdir eq_refl Hget1 eq_refl)
    as [fs_2 [-> [Hget2 Hfiles2]]].
  destruct r2 as [[]|]; cbn [and_then]; [|discriminate].
  destruct (write_file_new dir "variables.csv" (to_csv v) fs_2 _ Hdir eq_refl Hget2 eq_refl)
    as [fs_3 [-> [Hget3 Hfiles3]]].
  cbn [and_then].
  destruct (write_file_new dir "measures.csv" (to_csv m) fs_3 _ Hdir eq_refl Hget3 eq_refl)
    as [fs_4 [-> [Hget4 Hfiles4]]].
  cbn [and_then]. intros [= <-].
  split; [exact Hget4|].
  rewrite Hfiles4, Hfiles3, Hfiles2, Hfiles1.
  assert (Hne : forall x y : string, x <> y ->
                                     (Os.comps dir ++ [x])%list <> (Os.comps dir ++ [y])%list).
  { intros x y Hxy H. apply app_inv_head in H. congruence. }
  repeat split;
    repeat first [ apply at_get_set_same
                 | rewrite at_get_set_other by (apply Hne; discriminate) ].
Qed.

(** *** What [load] reads back *)

Lemma separate_slots_rearranged names names' :
  Permutation names names' -> separate_slots names -> separate_slots names'.
Proof.
  intros Hperm [Hnd Hclash]. split.
  - apply (Permutation_NoDup (l := map slot_of names)); [|assumption].
    now apply Permutation_map.
  - intros f sec k Hin Hs Htop.
    apply (Hclash f sec k);
      [apply (Permutation_in _ (Permutation_sym Hperm)); assumption | assumption |].
    apply (Permutation_in _ (Permutation_sym (Permutation_map slot_of Hperm))). assumption.
Qed.

Lemma run_files_separate : separate_slots run_files.
Proof.
  split.
  - cbv. repeat constructor; cbn; intuition discriminate.
  - intros f sec k Hin Hs Htop. cbv in Hin.
    destruct Hin as [<-|[<-|[<-|[<-|[]]]]]; cbv in Hs; discriminate.
Qed.

Lemma comps_dir_file dir f :
  dir <> EmptyString -> Os.steps f = [f] ->
  Os.comps ((dir ++ "/") ++ f) = (Os.comps dir ++ [f])%list.
Proof.
  intros Hdir Hf. rewrite append_assoc. cbn [String.append].
  now rewrite comps_app, Hf.
Qed.

Section LoadRun.
Variable to_csv : DataFrame -> file.
Variable json_dump : value -> file * result unit.
Variable ls : Os.enumeration.
Variable dir : string.
Variable fs1 : FS.
Variable lg : list (string * cell).
Variable p : list (string * cell).
Variable v : DataFrame.
Variable m : DataFrame.
Hypothesis Hls : rearranges ls.
Hypothesis Hdir : dir <> EmptyString.
Hypothesis Hlisted : at_get (Os.comps dir) (dirs fs1) = Some run_files.
Hypothesis Hlog : at_get (Os.comps dir ++ ["log.json"])%list (files fs1)
                  = Some (fst (json_dump (VMapping lg))).
Hypothesis Hpars : at_get (Os.comps dir ++ ["parameters.json"])%list (files fs1)
                   = Some (fst (json_dump (VMapping p))).
Hypothesis Hvars : at_get (Os.comps dir ++ ["variables.csv"])%list (files fs1)
                   = Some (to_csv v).
Hypothesis Hmeas : at_get (Os.comps dir ++ ["measures.csv"])%list (files fs1)
                   = Some (to_csv m).
Hypothesis Hlog_codec : as_json (fst (json_dump (VMapping lg))) = Some (VMapping lg).
Hypothesis Hpars_codec : as_json (fst (json_dump (VMapping p))) = Some (VMapping p).
Hypothesis Hvars_codec : csv_round_trip to_csv v.
Hypothesis Hmeas_codec : csv_round_trip to_csv m.
Hypothesis Hvars_index : recognised_index v = true.
Hypothesis Hmeas_index : recognised_index m = true.

Lemma load_run_file f :
  In f run_files ->
  Some (load_file (dir ++ "/") f fs1)
  = slot_get (slot_of f) (run_sections lg p (reordered v) (reordered m)).
Proof.
  intros Hin. cbv in Hin.
  destruct Hin as [<-|[<-|[<-|[<-|[]]]]];
    change (slot_get _ (run_sections lg p (reordered v) (reordered m)))
      with (Some (VMapping lg))
    || change (slot_get _ (run_sections lg p (reordered v) (reordered m)))
         with (Some (VMapping p))
    || change (slot_get _ (run_sections lg p (reordered v) (reordered m)))
         with (Some (VTable (reordered v)))
    || change (slot_get _ (run_sections lg p (reordered v) (reordered m)))
         with (Some (VTable (reordered m)));
    f_equal.
  - apply load_file_json; [reflexivity|].
    unfold json_load, Os.read_file. rewrite comps_dir_file by (assumption || reflexivity).
    now rewrite Hlog.
  - apply load_file_json; [reflexivity|].
    unfold json_load, Os.read_file. rewrite comps_dir_file by (assumption || reflexivity).
    now rewrite Hpars.
  - destruct Hvars_codec as [flat [Hflat Hread]].
    apply (load_file_restores v Hvars_index _ _ _ flat); try assumption; [reflexivity|].
    unfold read_csv, Os.read_file. rewrite comps_dir_file by (assumption || reflexivity).
    now rewrite Hvars.
  - destruct Hmeas_codec as [flat [Hflat Hread]].
    apply (load_file_restores m Hmeas_index _ _ _ flat); try assumption; [reflexivity|].
    unfold read_csv, Os.read_file. rewrite comps_dir_file by (assumption || reflexivity).
    now rewrite Hmeas.
Qed.

Lemma load_run :
  exists dd,
    (let* names := Os.listdir ls (dir ++ "/") fs1 in
     load_entries (dir ++ "/") fs1 names []) = Ok dd
    /\ forall k, dict_get k dd
                 = dict_get k (run_sections lg p (reordered v) (reordered m)).
Proof.
  unfold Os.listdir. destruct (dir ++ "/") eqn:Eslash.
  { destruct dir; [contradiction | discriminate]. }
  rewrite <- Eslash, comps_trailing_slash, Hlisted by assumption. cbn [bind].
  assert (Hin : forall f, In f (ls run_files) <-> In f run_files)
    by (intros f; now apply rearranges_in).
  destruct (load_entries_spec (dir ++ "/") fs1 (ls run_files) [])
    as [dd [Hrun [Hall Hrest]]].
  { apply (separate_slots_rearranged run_files);
      [apply Permutation_sym, Hls | apply run_files_separate]. }
  { intros f sec k _ _. now left. }
  exists dd. split; [exact Hrun|]. intros k.
  assert (Hfile : forall f, In f run_files ->
                            slot_get (slot_of f) dd
                            = slot_get (slot_of f)
                                       (run_sections lg p (reordered v) (reordered m))).
  { intros f Hf. rewrite (Hall f (proj2 (Hin f) Hf)). now apply load_run_file. }
  destruct (String.eqb_spec k "log") as [->|Hk1];
    [exact (Hfile "log.json" ltac:(cbv; tauto))|].
  destruct (String.eqb_spec k "parameters") as [->|Hk2];
    [exact (Hfile "parameters.json" ltac:(cbv; tauto))|].
  destruct (String.eqb_spec k "variables") as [->|Hk3];
    [exact (Hfile "variables.csv" ltac:(cbv; tauto))|].
  destruct (String.eqb_spec k "measures") as [->|Hk4];
    [exact (Hfile "measures.csv" ltac:(cbv; tauto))|].
  transitivity (@None value).
  - apply (Hrest (Top k)). intros f Hf. apply Hin in Hf. cbv in Hf.
    destruct Hf as [<-|[<-|[<-|[<-|[]]]]]; (split; [|exact I]); cbv; congruence.
  - unfold run_sections. cbn [dict_get].
    apply String.eqb_neq in Hk1, Hk2, Hk3, Hk4. now rewrite Hk1, Hk2, Hk3, Hk4.
Qed.

End LoadRun.



(** A variables table indexed by time and then by object comes back
    indexed by object and then by time, each row with the same two
    values. *)
Remark round_trip_reorders_index_levels :
  load newest_first (Some "run") (Some 7) "out" sample_store_time_run
  = Ok [("measures", VTable sample_measures);
        ("variables",
         VTable (mkDF [Some "obj_id"; Some "t"] ["x"]
                      [([CInt 1; CInt 0], [("x", CInt 5)]);
                       ([CInt 1; CInt 1], [("x", CInt 6)])]));
        ("parameters", VMapping [("a", CInt 1)]);
        ("log", VMapping [("name", CStr "run"); ("iterations", CInt 1)])]
  /\ reordered sample_by_time
     = mkDF [Some "obj_id"; Some "t"] ["x"]
            [([CInt 1; CInt 0], [("x", CInt 5)]); ([CInt 1; CInt 1], [("x", CInt 6)])].
Proof. split; reflexivity. Qed.

